(** * Fleet management core: robots, traffic manager, fleet manager

    A shallow embedding of the Python sources
      src/models/robot.py, src/models/nav_graph.py,
      src/controllers/traffic_manager.py, src/controllers/fleet_manager.py
    followed by the properties of the specification that concern them.

    Conventions of the embedding.
    - Python dicts used as lookup tables (lane and vertex occupancy, vertex
      positions, task records) are [gmap]s.  The robot registry is iterated
      in insertion order by [update_robots], so it is an association list
      with the dict's update-in-place behaviour ([PyDict]).
    - Python floats are read as exact rationals [Q].  A statement over [Q]
      is a statement about the code where rounding cannot change it:
      orderings that are not strict, ranges, and the branch taken.  Where
      rounding decides the outcome, the two battery statements of
      [Robot.update] are also given on binary64 floats ([Binary64]).
      [numpy.linalg.norm] and [networkx.shortest_path] are
      library code outside the repository: they are the two operations of
      the interface [ExternalLibs].
    - A Python exception that escapes a method is the [Raise] outcome of
      [Result].  Mutation of [self] is explicit state passing.
    - Logging calls, the robot's colour, animation handle and
      last-update wall-clock stamp are write-only for the core and left
      out. *)

From Stdlib Require Import Floats.PrimFloat.
From Stdlib Require Import QArith Qminmax Qabs Lqa ZArith.
From stdpp Require Import base option list sorting gmap strings pretty.

Local Open Scope Z_scope.

(** ** Python values and outcomes *)

Inductive PyExc : Type :=
  | KeyError
  | IndexError
  | NodeNotFound
  | TypeError.

Inductive Result (A : Type) : Type :=
  | Ok (a : A)
  | Raise (e : PyExc).

Arguments Ok {A} a.
Arguments Raise {A} e.

Definition is_Ok {A : Type} (m : Result A) : bool :=
  match m with
  | Ok _ => true
  | Raise _ => false
  end.

#[global] Instance Result_ret : MRet Result := fun A a => Ok a.

#[global] Instance Result_bind : MBind Result := fun A B k m =>
  match m with
  | Ok a => k a
  | Raise e => Raise e
  end.

#[global] Instance Result_fmap : FMap Result := fun A B f m =>
  match m with
  | Ok a => Ok (f a)
  | Raise e => Raise e
  end.

(** Python's [a < b] on floats, read over the rationals. *)
Definition Qltb (a b : Q) : bool := negb (Qle_bool b a).

(** [max(a, b)] and [min(a, b)] of Python: the first argument is returned
    unless the second is strictly larger (smaller). *)
Definition py_max (a b : Q) : Q := if Qltb a b then b else a.
Definition py_min (a b : Q) : Q := if Qltb b a then b else a.

(** Truthiness of an optional vertex id: [None] and [0] are falsy. *)
Definition truthy (v : option Z) : bool :=
  match v with
  | None => false
  | Some n => negb (n =? 0)
  end.

Abbreviation Pos := (Q * Q)%type (only parsing).
Abbreviation Lane := (Z * Z)%type (only parsing).

(** ** Library operations used by the sources *)

Inductive NxOutcome : Type :=
  | NxPath (p : list Z)
  | NxNoPath
  | NxNodeNotFound.

Record NodeData : Type := mkNode {
  pos : Pos;
  name : string;
  is_charger : bool
}.

Record EdgeData : Type := mkEdge {
  speed_limit : Q;
  distance : Q
}.

Record DiGraph : Type := mkDiGraph {
  nodes : gmap Z NodeData;
  edges : gmap Lane EdgeData
}.

Class ExternalLibs : Type := {
  (** [numpy.linalg.norm] of a 2-vector *)
  linalg_norm : Pos -> Q;
  (** [networkx.shortest_path(G, source, target, weight='distance')] *)
  nx_shortest_path : DiGraph -> Z -> Z -> NxOutcome
}.

(** The two square roots of the Python sources: the float power
    [x ** 0.5] and [math.sqrt(x)]. *)
Class PyMath : Type := {
  pow_half : Q -> Q;
  math_sqrt : Q -> Q
}.

(** ** Dicts iterated in insertion order *)

Module PyDict.

Fixpoint get {V : Type} (d : list (string * V)) (k : string) : option V :=
  match d with
  | [] => None
  | (k', v) :: rest => if String.eqb k' k then Some v else get rest k
  end.

Definition has {V : Type} (d : list (string * V)) (k : string) : bool :=
  match get d k with Some _ => true | None => false end.

(** [d[k] = v]: an existing key keeps its place, a new key goes last. *)
Fixpoint set {V : Type} (d : list (string * V)) (k : string) (v : V)
  : list (string * V) :=
  match d with
  | [] => [(k, v)]
  | (k', v') :: rest =>
      if String.eqb k' k then (k', v) :: rest else (k', v') :: set rest k v
  end.

(** [del d[k]] *)
Fixpoint del {V : Type} (d : list (string * V)) (k : string)
  : list (string * V) :=
  match d with
  | [] => []
  | (k', v') :: rest =>
      if String.eqb k' k then rest else (k', v') :: del rest k
  end.

Definition keys {V : Type} (d : list (string * V)) : list string := d.*1.

End PyDict.

(** ** models/robot.py *)

Inductive State : Type := IDLE | MOVING | WAITING | CHARGING | COMPLETED.

(** The dict returned by [Robot.update]: ["state"] is always present, the
    other keys only on some branches. *)
Record UpdateInfo : Type := mkInfo {
  info_state : State;
  info_battery : option Q;
  info_position : option Pos;
  info_current_vertex : option Z
}.

Module Robot.

Record t : Type := mk {
  id : string;
  position : Pos;
  current_vertex : option Z;
  destination : option Z;
  path : list Z;
  next_vertex : option Z;
  state : State;
  speed : Q;
  battery : Q
}.

(** [Robot.__init__] with an explicit, non-empty [robot_id]. *)
Definition init (robot_id : string) (position : Pos)
    (current_vertex : option Z) : t :=
  {| id := robot_id; position := position; current_vertex := current_vertex;
     destination := None; path := []; next_vertex := None; state := IDLE;
     speed := 0.05; battery := 100 |}.

Definition with_position (p : Pos) (self : t) : t :=
  mk (id self) p (current_vertex self) (destination self) (path self)
     (next_vertex self) (state self) (speed self) (battery self).
Definition with_current_vertex (v : option Z) (self : t) : t :=
  mk (id self) (position self) v (destination self) (path self)
     (next_vertex self) (state self) (speed self) (battery self).
Definition with_destination (d : option Z) (self : t) : t :=
  mk (id self) (position self) (current_vertex self) d (path self)
     (next_vertex self) (state self) (speed self) (battery self).
Definition with_path (p : list Z) (self : t) : t :=
  mk (id self) (position self) (current_vertex self) (destination self) p
     (next_vertex self) (state self) (speed self) (battery self).
Definition with_next_vertex (v : option Z) (self : t) : t :=
  mk (id self) (position self) (current_vertex self) (destination self)
     (path self) v (state self) (speed self) (battery self).
Definition with_state (s : State) (self : t) : t :=
  mk (id self) (position self) (current_vertex self) (destination self)
     (path self) (next_vertex self) s (speed self) (battery self).
Definition with_battery (b : Q) (self : t) : t :=
  mk (id self) (position self) (current_vertex self) (destination self)
     (path self) (next_vertex self) (state self) (speed self) b.

Definition set_destination (self : t) (dest : Z) (p : list Z) : t :=
  let self := with_path p (with_destination (Some dest) self) in
  match p with
  | _ :: p1 :: _ =>
      (* len(path) > 1; path[1], the first element is the current vertex *)
      with_state MOVING (with_next_vertex (Some p1) self)
  | [_] => with_state COMPLETED self
  | [] => with_state IDLE self
  end.

(** [lane in occupancy and occupancy[lane] != self.id] for the lane
    [(current_vertex, next_vertex)].  The occupancy dict only has pairs of
    vertex ids as keys, so a lane with a null end is never in it. *)
Definition lane_held_by_other (occupancy : gmap Lane string)
    (cv nv : option Z) (me : string) : bool :=
  match cv, nv with
  | Some c, Some n =>
      match occupancy !! (c, n) with
      | Some holder => negb (String.eqb holder me)
      | None => false
      end
  | _, _ => false
  end.

Definition only_state (self : t) : UpdateInfo :=
  mkInfo (state self) None None None.

(** The part of the MOVING branch of [update] from the lane check on
    (robot.py lines 119-154). *)
Definition advance `{ExternalLibs} (dt : Q) (vertex_positions : gmap Z Pos)
    (current_lane_occupancy : gmap Lane string) (self : t)
  : Result (t * UpdateInfo) :=
  if lane_held_by_other current_lane_occupancy
       (current_vertex self) (next_vertex self) (id self)
  then
    let self := with_state WAITING self in
    Ok (self, only_state self)
  else
    match next_vertex self with
    | None => Raise KeyError
    | Some nv =>
        match vertex_positions !! nv with
        | None => Raise KeyError
        | Some next_pos =>
            let current_pos := position self in
            let direction :=
              ((next_pos.1 - current_pos.1)%Q, (next_pos.2 - current_pos.2)%Q) in
            let dist := linalg_norm direction in
            if Qltb dist (speed self * dt) then
              (* reached the next vertex *)
              let self := with_position next_pos self in
              let self := with_current_vertex (Some nv) self in
              match path self with
              | [] => Raise IndexError
              | _ :: rest =>
                  let self := with_path rest self in
                  let self :=
                    match rest with
                    | p0 :: _ => with_next_vertex (Some p0) self
                    | [] => with_state COMPLETED (with_next_vertex None self)
                    end in
                  Ok (self, mkInfo (state self) None (Some (position self))
                              (Some nv))
              end
            else
              let self :=
                if Qltb 0 dist then
                  with_position
                    ((current_pos.1 + direction.1 / dist * speed self * dt)%Q,
                     (current_pos.2 + direction.2 / dist * speed self * dt)%Q)
                    self
                else self in
              Ok (self, mkInfo (state self) None (Some (position self)) None)
        end
    end.

Definition update `{ExternalLibs} (dt : Q) (vertex_positions : gmap Z Pos)
    (current_lane_occupancy : gmap Lane string) (self : t)
  : Result (t * UpdateInfo) :=
  let self := with_battery (py_max 0 (battery self - 0.01 * dt)) self in
  match state self with
  | IDLE | COMPLETED => Ok (self, only_state self)
  | CHARGING =>
      let self := with_battery (py_min 100 (battery self + 0.1 * dt)) self in
      let self :=
        if Qle_bool 100 (battery self) then with_state IDLE self else self in
      Ok (self, mkInfo (state self) (Some (battery self)) None None)
  | WAITING =>
      let self :=
        if lane_held_by_other current_lane_occupancy
             (current_vertex self) (next_vertex self) (id self)
        then self else with_state MOVING self in
      Ok (self, only_state self)
  | MOVING =>
      if truthy (next_vertex self) then
        advance dt vertex_positions current_lane_occupancy self
      else
        (* [not self.next_vertex] *)
        match path self with
        | _ :: rest =>
            let self := with_path rest self in
            match rest with
            | p0 :: _ =>
                advance dt vertex_positions current_lane_occupancy
                  (with_next_vertex (Some p0) self)
            | [] =>
                let self := with_state COMPLETED self in
                Ok (self, only_state self)
            end
        | [] =>
            let self := with_state COMPLETED self in
            Ok (self, only_state self)
        end
  end.

Definition start_charging (self : t) : t := with_state CHARGING self.

Definition cancel_task (self : t) : t :=
  with_state IDLE
    (with_next_vertex None (with_path [] (with_destination None self))).

End Robot.

(** The battery reading after the drain that opens every tick. *)
Definition drained (dt : Q) (r : Robot.t) : Robot.t :=
  Robot.with_battery (py_max 0 (Robot.battery r - 0.01 * dt)) r.

(** The two battery statements of [Robot.update] on binary64 floats, as
    Python evaluates them (robot.py lines 87 and 94).  The constants are
    the doubles Python reads for the literals [0.01] and [0.1]. *)
Module Binary64.

Definition py_max (a b : float) : float := if PrimFloat.ltb a b then b else a.
Definition py_min (a b : float) : float := if PrimFloat.ltb b a then b else a.



End Binary64.

(** ** controllers/traffic_manager.py *)

Module TrafficManager.

Record t : Type := mk {
  lane_occupancy : gmap Lane string;
  vertex_occupancy : gmap Z string
}.

Definition init : t := mk ∅ ∅.

Definition register_lane_usage (self : t) (robot_id : string)
    (start_vertex end_vertex : Z) : t * bool :=
  let lane := (start_vertex, end_vertex) in
  let occupied_by_other :=
    match lane_occupancy self !! lane with
    | Some holder => negb (String.eqb holder robot_id)
    | None => false
    end in
  if occupied_by_other then (self, false)
  else
    (mk (<[lane := robot_id]> (lane_occupancy self))
        (<[start_vertex := robot_id]> (vertex_occupancy self)),
     true).

Definition release_lane (self : t) (robot_id : string)
    (start_vertex end_vertex : Z) : t * bool :=
  let lane := (start_vertex, end_vertex) in
  let held_by_robot (o : option string) :=
    match o with
    | Some holder => String.eqb holder robot_id
    | None => false
    end in
  if held_by_robot (lane_occupancy self !! lane) then
    let lanes := delete lane (lane_occupancy self) in
    let vertices :=
      if held_by_robot (vertex_occupancy self !! start_vertex)
      then delete start_vertex (vertex_occupancy self)
      else vertex_occupancy self in
    (mk lanes vertices, true)
  else (self, false).

(** The optional [robot_id] is tested by truthiness: [None] and the empty
    string both skip the holder comparison. *)
Definition id_truthy (robot_id : option string) : bool :=
  match robot_id with
  | Some s => negb (String.eqb s "")
  | None => false
  end.

Definition is_lane_free (self : t) (start_vertex end_vertex : Z)
    (robot_id : option string) : bool :=
  match lane_occupancy self !! (start_vertex, end_vertex) with
  | None => true
  | Some holder => id_truthy robot_id && bool_decide (Some holder = robot_id)
  end.

Definition is_vertex_free (self : t) (vertex_id : Z)
    (robot_id : option string) : bool :=
  match vertex_occupancy self !! vertex_id with
  | None => true
  | Some holder => id_truthy robot_id && bool_decide (Some holder = robot_id)
  end.

(** Returns the dict itself, not a copy. *)
Definition get_lane_occupancy (self : t) : gmap Lane string :=
  lane_occupancy self.

Definition get_vertex_occupancy (self : t) : gmap Z string :=
  vertex_occupancy self.

Definition reset (self : t) : t := mk ∅ ∅.

Definition update_from_robot_positions (self : t)
    (robots : list (string * Robot.t)) : t :=
  foldl
    (fun (acc : t) (item : string * Robot.t) =>
       let '(robot_id, robot) := item in
       match Robot.current_vertex robot with
       | Some cv =>
           let vertices := <[cv := robot_id]> (vertex_occupancy acc) in
           match Robot.next_vertex robot with
           | Some nv =>
               mk (<[(cv, nv) := robot_id]> (lane_occupancy acc)) vertices
           | None => mk (lane_occupancy acc) vertices
           end
       | None => acc
       end)
    (mk ∅ ∅) robots.

End TrafficManager.

(** ** models/nav_graph.py *)

Module NavGraph.

(** A loaded navigation graph: the networkx digraph [G] (every node added
    by [load_graph] carries its position, name and charger flag) and the
    list of charger vertices collected while loading. *)
Record t : Type := mk {
  G : DiGraph;
  chargers : list Z
}.

Definition get_vertex_position (self : t) (vertex_id : Z) : Result Pos :=
  match nodes (G self) !! vertex_id with
  | Some data => Ok (pos data)
  | None => Raise KeyError
  end.

(** [nx.NetworkXNoPath] is caught and turned into [None]; any other
    exception of the library escapes. *)
Definition get_path `{ExternalLibs} (self : t) (start end_ : Z)
  : Result (option (list Z)) :=
  match nx_shortest_path (G self) start end_ with
  | NxPath p => Ok (Some p)
  | NxNoPath => Ok None
  | NxNodeNotFound => Raise NodeNotFound
  end.

Definition get_chargers (self : t) : list Z := chargers self.

Definition index_le (a b : Z * NodeData) : Prop := a.1 <= b.1.

#[global] Instance index_le_dec (a b : Z * NodeData)
  : Decision (index_le a b) := decide (a.1 <= b.1).

(** [self.G.nodes(data=True)]: the nodes in insertion order.  [load_graph]
    inserts vertex [i] of the file as node [i], for [i = 0, 1, ...], so
    this is the order of increasing index. *)
Definition nodes_view (self : t) : list (Z * NodeData) :=
  merge_sort index_le (map_to_list (nodes (G self))).

(** [math.sqrt((vertex_pos[0]-position[0])**2 +
    (vertex_pos[1]-position[1])**2)] *)
Definition dist_to `{PyMath} (position : Pos) (data : NodeData) : Q :=
  let vertex_pos := pos data in
  math_sqrt ((vertex_pos.1 - position.1) * (vertex_pos.1 - position.1)
             + (vertex_pos.2 - position.2) * (vertex_pos.2 - position.2))%Q.

(** One round of the scan of [get_vertex_id_by_position].  [min_dist] is
    [None] while it is still [float('inf')]. *)
Definition closer `{PyMath} (position : Pos) (threshold : Q)
    (acc : option Q * option Z) (node : Z * NodeData)
  : option Q * option Z :=
  let '(min_dist, closest_vertex) := acc in
  let '(vertex_id, data) := node in
  let dist := dist_to position data in
  let below_min :=
    match min_dist with
    | None => true
    | Some m => Qltb dist m
    end in
  if below_min && Qltb dist threshold
  then (Some dist, Some vertex_id)
  else (min_dist, closest_vertex).

Definition get_vertex_id_by_position `{PyMath} (self : t) (position : Pos)
    (threshold : Q) : option Z :=
  (foldl (closer position threshold) (None, None) (nodes_view self)).2.

End NavGraph.

(** ** controllers/fleet_manager.py *)

(** The task record of [assign_task].  In Python its ["path"] is the very
    list object the robot pops from, so it shrinks as the robot advances.
    The record here keeps the list as it was at assignment: [task_path] is
    the assigned path, not the current content of the Python list, and
    nothing below is stated about it after a tick. *)
Record Task : Type := mkTask {
  task_destination : Z;
  task_path : list Z;
  task_start_time : Q
}.

(** The dict [updates] returned by [update_robots]. *)
Definition Updates : Type := list (string * UpdateInfo).

Module FleetManager.

Record t : Type := mk {
  nav_graph : NavGraph.t;
  robots : list (string * Robot.t);
  tasks : gmap string Task
}.

Definition init (nav_graph : NavGraph.t) : t := mk nav_graph [] ∅.

Definition add_robot (self : t) (robot : Robot.t) : t :=
  mk (nav_graph self) (PyDict.set (robots self) (Robot.id robot) robot)
     (tasks self).

Definition remove_robot (self : t) (robot_id : string) : t * bool :=
  if PyDict.has (robots self) robot_id then
    (mk (nav_graph self) (PyDict.del (robots self) robot_id)
        (delete robot_id (tasks self)),
     true)
  else (self, false).

(** [not path] for the value returned by [get_path]: [None] and the empty
    list are falsy. *)
Definition no_path (p : option (list Z)) : bool :=
  match p with
  | None | Some [] => true
  | Some (_ :: _) => false
  end.

(** [now] is the reading of [time.time()] stored in the task record.  For
    a robot without a current vertex networkx answers for all sources at
    once with a dict, which the code stores as the robot's path before
    returning [True].  The embedding does not follow that value: it stops
    with [TypeError], so it says nothing of a task assigned to a robot
    that stands on no vertex.  Both places that construct a robot
    (gui/fleet_gui.py) pass the vertex it is spawned on, see [placed]. *)
Definition assign_task `{ExternalLibs} (self : t) (robot_id : string)
    (destination_vertex : Z) (now : Q) : Result (t * bool) :=
  match PyDict.get (robots self) robot_id with
  | None => Ok (self, false)
  | Some robot =>
      if bool_decide (Robot.current_vertex robot = Some destination_vertex)
      then Ok (self, true)
      else
        match Robot.current_vertex robot with
        | None => Raise TypeError
        | Some cv =>
            path ← NavGraph.get_path (nav_graph self) cv destination_vertex;
            if no_path path then Ok (self, false)
            else
              let p := default [] path in
              let robot := Robot.set_destination robot destination_vertex p in
              Ok (mk (nav_graph self)
                     (PyDict.set (robots self) robot_id robot)
                     (<[robot_id := mkTask destination_vertex p now]>
                        (tasks self)),
                  true)
        end
  end.

Definition cancel_task (self : t) (robot_id : string) : t * bool :=
  match PyDict.get (robots self) robot_id with
  | None => (self, false)
  | Some robot =>
      (mk (nav_graph self)
          (PyDict.set (robots self) robot_id (Robot.cancel_task robot))
          (delete robot_id (tasks self)),
       true)
  end.

(** [{v_id: data['pos'] for v_id, data in G.nodes(data=True)}] *)
Definition vertex_positions (self : t) : gmap Z Pos :=
  pos <$> nodes (NavGraph.G (nav_graph self)).

(** The vertex-change handling of one loop iteration of [update_robots]
    (lines 154-164), after [robot.update] returned [update_info]. *)
Definition on_vertex_change (self : t) (pre_vertex : option Z)
    (update_info : UpdateInfo) (robot : Robot.t) : Robot.t :=
  match info_current_vertex update_info with
  | Some v =>
      if bool_decide (Some v ≠ pre_vertex) then
        if bool_decide (Robot.destination robot = Some v) then
          if bool_decide (v ∈ NavGraph.get_chargers (nav_graph self))
             && Qltb (Robot.battery robot) 50
          then Robot.start_charging robot
          else robot
        else robot
      else robot
  | None => robot
  end.

(** One iteration of the loop of [update_robots].  [lane_occupancy] is the
    traffic manager's own dict (no copy is taken), so the robot sees the
    registrations made for the robots before it in the same pass. *)
Definition update_one `{ExternalLibs} (self : t) (dt : Q)
    (vertex_positions : gmap Z Pos) (robot_id : string) (robot : Robot.t)
    (traffic_manager : TrafficManager.t)
  : Result (Robot.t * TrafficManager.t * UpdateInfo) :=
  let lane_occupancy := TrafficManager.get_lane_occupancy traffic_manager in
  let pre_vertex := Robot.current_vertex robot in
  '(robot, update_info) ← Robot.update dt vertex_positions lane_occupancy robot;
  let robot := on_vertex_change self pre_vertex update_info robot in
  let traffic_manager :=
    match Robot.current_vertex robot, Robot.next_vertex robot with
    | Some cv, Some nv =>
        (TrafficManager.register_lane_usage traffic_manager robot_id cv nv).1
    | _, _ => traffic_manager
    end in
  Ok (robot, traffic_manager, update_info).

Fixpoint update_loop `{ExternalLibs} (self : t) (dt : Q)
    (vertex_positions : gmap Z Pos) (items : list (string * Robot.t))
    (traffic_manager : TrafficManager.t) (updates : Updates)
  : Result (list (string * Robot.t) * TrafficManager.t * Updates) :=
  match items with
  | [] => Ok ([], traffic_manager, updates)
  | (robot_id, robot) :: rest =>
      '(robot, traffic_manager, update_info) ←
        update_one self dt vertex_positions robot_id robot traffic_manager;
      '(rest, traffic_manager, updates) ←
        update_loop self dt vertex_positions rest traffic_manager
          (PyDict.set updates robot_id update_info);
      Ok ((robot_id, robot) :: rest, traffic_manager, updates)
  end.

Definition update_robots `{ExternalLibs} (self : t) (dt : Q)
    (traffic_manager : TrafficManager.t)
  : Result (t * TrafficManager.t * Updates) :=
  '(robots, traffic_manager, updates) ←
    update_loop self dt (vertex_positions self) (robots self)
      traffic_manager [];
  Ok (mk (nav_graph self) robots (tasks self), traffic_manager, updates).

(** The distance test of [get_robot_by_position]. *)
Definition within `{PyMath} (position : Pos) (threshold : Q)
    (robot : Robot.t) : bool :=
  let dx := ((Robot.position robot).1 - position.1)%Q in
  let dy := ((Robot.position robot).2 - position.2)%Q in
  Qle_bool (pow_half (dx * dx + dy * dy)%Q) threshold.

Fixpoint first_within `{PyMath} (position : Pos) (threshold : Q)
    (items : list (string * Robot.t)) : option string :=
  match items with
  | [] => None
  | (robot_id, robot) :: rest =>
      if within position threshold robot then Some robot_id
      else first_within position threshold rest
  end.

Definition get_robot_by_position `{PyMath} (self : t) (position : Pos)
    (threshold : Q) : option string :=
  first_within position threshold (robots self).

End FleetManager.

(** ** utils/helpers.py *)

Module Helpers.

(** [((point1[0] - point2[0])**2 + (point1[1] - point2[1])**2)**0.5] *)
Definition calculate_distance `{PyMath} (point1 point2 : Pos) : Q :=
  pow_half ((point1.1 - point2.1) * (point1.1 - point2.1)
            + (point1.2 - point2.2) * (point1.2 - point2.2))%Q.

End Helpers.

(** ** gui/fleet_gui.py: spawning a robot *)

Module FleetGUI.

(** [f"R{len(self.fleet_manager.robots) + 1}"] *)
Definition robot_name (fleet_manager : FleetManager.t) : string :=
  "R" +:+ pretty (length (FleetManager.robots fleet_manager) + 1)%nat.

(** [_spawn_or_assign_task(vertex_id)] as far as the fleet manager is
    concerned (the notifications are left out).  [selected_robot] is
    tested by truthiness; the position lookup happens before the [try]
    block, whose body cannot fail here. *)
Definition _spawn_or_assign_task `{ExternalLibs} (nav_graph : NavGraph.t)
    (fleet_manager : FleetManager.t) (selected_robot : option string)
    (vertex_id : Z) (now : Q) : Result FleetManager.t :=
  if TrafficManager.id_truthy selected_robot then
    '(fm, _) ← FleetManager.assign_task fleet_manager
                 (default "" selected_robot) vertex_id now;
    Ok fm
  else
    let robot_name := robot_name fleet_manager in
    vertex_pos ← NavGraph.get_vertex_position nav_graph vertex_id;
    let new_robot := Robot.init robot_name vertex_pos (Some vertex_id) in
    Ok (FleetManager.add_robot fleet_manager new_robot).

End FleetGUI.

(** ** The two managers together (main.py)

    [main] creates one traffic manager and one fleet manager over the same
    graph; the caller then drives them through the operations below. *)

Module System.

Record t : Type := mk {
  fleet : FleetManager.t;
  traffic : TrafficManager.t
}.

Definition init (nav_graph : NavGraph.t) : t :=
  mk (FleetManager.init nav_graph) TrafficManager.init.

Inductive Op : Type :=
  | AddRobot (robot : Robot.t)
  | RemoveRobot (robot_id : string)
  | AssignTask (robot_id : string) (destination_vertex : Z) (now : Q)
  | CancelTask (robot_id : string)
  | Tick (dt : Q)
  | RegisterLane (robot_id : string) (start_vertex end_vertex : Z)
  | ReleaseLane (robot_id : string) (start_vertex end_vertex : Z)
  | Reset.

Definition step `{ExternalLibs} (s : t) (op : Op) : Result t :=
  match op with
  | AddRobot robot => Ok (mk (FleetManager.add_robot (fleet s) robot) (traffic s))
  | RemoveRobot robot_id =>
      Ok (mk (FleetManager.remove_robot (fleet s) robot_id).1 (traffic s))
  | AssignTask robot_id destination_vertex now =>
      '(fm, _) ← FleetManager.assign_task (fleet s) robot_id
                   destination_vertex now;
      Ok (mk fm (traffic s))
  | CancelTask robot_id =>
      Ok (mk (FleetManager.cancel_task (fleet s) robot_id).1 (traffic s))
  | Tick dt =>
      '(fm, tm, _) ← FleetManager.update_robots (fleet s) dt (traffic s);
      Ok (mk fm tm)
  | RegisterLane robot_id start_vertex end_vertex =>
      Ok (mk (fleet s)
             (TrafficManager.register_lane_usage (traffic s) robot_id
                start_vertex end_vertex).1)
  | ReleaseLane robot_id start_vertex end_vertex =>
      Ok (mk (fleet s)
             (TrafficManager.release_lane (traffic s) robot_id
                start_vertex end_vertex).1)
  | Reset => Ok (mk (fleet s) (TrafficManager.reset (traffic s)))
  end.

Fixpoint run `{ExternalLibs} (s : t) (ops : list Op) : Result t :=
  match ops with
  | [] => Ok s
  | op :: ops => s ← step s op; run s ops
  end.

(** States the operations can produce from a fresh pair of managers. *)
Definition reachable `{ExternalLibs} (nav_graph : NavGraph.t) (s : t) : Prop :=
  exists ops, run (init nav_graph) ops = Ok s.

End System.

(** ** Predicates of the specification *)

Definition holds_lane (tm : TrafficManager.t) (agent : string) (lane : Lane)
  : Prop :=
  TrafficManager.lane_occupancy tm !! lane = Some agent.

Definition holds_vertex (tm : TrafficManager.t) (agent : string) (v : Z)
  : Prop :=
  TrafficManager.vertex_occupancy tm !! v = Some agent.

(** Each agent holds at most one lane entry and at most one vertex entry. *)
Definition one_slot_per_agent (tm : TrafficManager.t) : Prop :=
  (forall agent l1 l2,
      holds_lane tm agent l1 -> holds_lane tm agent l2 -> l1 = l2) /\
  (forall agent v1 v2,
      holds_vertex tm agent v1 -> holds_vertex tm agent v2 -> v1 = v2).

(** Every vertex entry belongs to an agent that also holds a lane leaving
    that vertex. *)
Definition vertex_backed_by_lane (tm : TrafficManager.t) : Prop :=
  forall v agent,
    holds_vertex tm agent v -> exists w, holds_lane tm agent (v, w).

(** The state of the scan after a prefix of the nodes. *)
Definition scan_inv `{PyMath} (position : Pos) (threshold : Q)
    (seen : list (Z * NodeData)) (acc : option Q * option Z) : Prop :=
  (acc = (None, None)
   /\ forall x, x ∈ seen -> Qltb (NavGraph.dist_to position x.2) threshold = false)
  \/ (exists v data,
        acc = (Some (NavGraph.dist_to position data), Some v)
        /\ (v, data) ∈ seen
        /\ (NavGraph.dist_to position data < threshold)%Q
        /\ forall x, x ∈ seen ->
             (NavGraph.dist_to position data <= NavGraph.dist_to position x.2)%Q).

(** The lane entries of [a] are entries of [b]. *)
Definition lanes_kept (a b : TrafficManager.t) : Prop :=
  forall lane holder, holds_lane a holder lane -> holds_lane b holder lane.

(** The robot refers only to vertices that have a position, and has a path
    to consume while it is under way. *)
Definition robot_ok (vertex_positions : gmap Z Pos) (r : Robot.t) : bool :=
  forallb (fun v => bool_decide (is_Some (vertex_positions !! v)))
    (Robot.path r)
  && match Robot.next_vertex r with
     | Some n => bool_decide (is_Some (vertex_positions !! n))
     | None => true
     end
  && match Robot.state r with
     | MOVING | WAITING =>
         match Robot.path r with [] => false | _ :: _ => true end
     | _ => true
     end.

Definition fleet_ok (fm : FleetManager.t) : bool :=
  forallb (fun item => robot_ok (FleetManager.vertex_positions fm) item.2)
    (FleetManager.robots fm).

(** [n] successive calls of [update_robots], one per time delta. *)
Fixpoint run_ticks `{ExternalLibs} (fm : FleetManager.t)
    (tm : TrafficManager.t) (dts : list Q)
  : Result (FleetManager.t * TrafficManager.t) :=
  match dts with
  | [] => Ok (fm, tm)
  | dt :: dts =>
      '(fm, tm, _) ← FleetManager.update_robots fm dt tm;
      run_ticks fm tm dts
  end.

(** [n] successive ticks of one robot with the same time delta,
    vertex positions and lane occupancy. *)
Fixpoint robot_ticks `{ExternalLibs} (n : nat) (dt : Q)
    (vertex_positions : gmap Z Pos) (occupancy : gmap Lane string)
    (r : Robot.t) : Result Robot.t :=
  match n with
  | O => Ok r
  | S n =>
      '(r, _) ← Robot.update dt vertex_positions occupancy r;
      robot_ticks n dt vertex_positions occupancy r
  end.

(** The registry as a Python dict has it: no id twice, every robot filed
    under its own id, and task records only for registered ids. *)
Definition registry_ok (fm : FleetManager.t) : Prop :=
  NoDup (PyDict.keys (FleetManager.robots fm))
  /\ (forall k r, (k, r) ∈ FleetManager.robots fm -> Robot.id r = k)
  /\ (forall k, is_Some (FleetManager.tasks fm !! k) ->
      is_Some (PyDict.get (FleetManager.robots fm) k)).

(** What the sources rely on from the path library: a path it returns
    runs through nodes of the graph. *)
Definition nx_paths_in_graph `{ExternalLibs} (nav_graph : NavGraph.t) : Prop :=
  forall s t p,
    nx_shortest_path (NavGraph.G nav_graph) s t = NxPath p ->
    forallb
      (fun v =>
         bool_decide
           (is_Some
              (FleetManager.vertex_positions (FleetManager.init nav_graph)
                 !! v))) p
    = true.

(** The robot stands on a vertex (as every robot built by the constructor
    with a start vertex does). *)
Definition placed (r : Robot.t) : bool :=
  bool_decide (is_Some (Robot.current_vertex r)).

Definition fleet_placed (fm : FleetManager.t) : bool :=
  forallb (fun item : string * Robot.t => placed item.2)
    (FleetManager.robots fm).

(** Operations whose new robots, if any, stand on a vertex and refer only
    to vertices that have a position (a robot fresh from [Robot.init] with
    a start vertex of the graph is one). *)
Definition op_ok (vertex_positions : gmap Z Pos) (op : System.Op) : bool :=
  match op with
  | System.AddRobot robot => robot_ok vertex_positions robot && placed robot
  | _ => true
  end.

(** What the operations keep true of a system over [nav_graph]. *)
Definition system_ok (nav_graph : NavGraph.t) (s : System.t) : Prop :=
  FleetManager.nav_graph (System.fleet s) = nav_graph
  /\ fleet_ok (System.fleet s) = true
  /\ fleet_placed (System.fleet s) = true.


(** The loop body of [update_from_robot_positions]. *)
Definition rebuild_step (acc : TrafficManager.t) (item : string * Robot.t)
  : TrafficManager.t :=
  let '(robot_id, robot) := item in
  match Robot.current_vertex robot with
  | Some cv =>
      let vertices := <[cv := robot_id]> (TrafficManager.vertex_occupancy acc) in
      match Robot.next_vertex robot with
      | Some nv =>
          TrafficManager.mk
            (<[(cv, nv) := robot_id]> (TrafficManager.lane_occupancy acc))
            vertices
      | None => TrafficManager.mk (TrafficManager.lane_occupancy acc) vertices
      end
  | None => acc
  end.

(** ** A concrete instance for the examples

    Three waypoints on a horizontal line joined by the lanes 0->1->2, a
    charger at vertex 1, and a fourth vertex no lane leads to.  On such a
    graph every node has at most one outgoing lane, so following the
    successors is the weighted shortest path, and every lane is parallel to
    the x axis, where the Euclidean norm is the sum of absolute values. *)

Module Example.

Definition norm (d : Pos) : Q := (Qabs d.1 + Qabs d.2)%Q.

Definition successor (g : DiGraph) (v : Z) : option Z :=
  (fun e : Lane * EdgeData => e.1.2)
    <$> head (filter (fun e : Lane * EdgeData => e.1.1 = v)
                (map_to_list (edges g))).

Fixpoint chain (fuel : nat) (g : DiGraph) (s t : Z) : option (list Z) :=
  if s =? t then Some [s]
  else
    match fuel with
    | O => None
    | S fuel =>
        match successor g s with
        | Some n => cons s <$> chain fuel g n t
        | None => None
        end
    end.

Definition shortest_path (g : DiGraph) (s t : Z) : NxOutcome :=
  match nodes g !! s, nodes g !! t with
  | Some _, Some _ =>
      match chain (size (nodes g)) g s t with
      | Some p => NxPath p
      | None => NxNoPath
      end
  | _, _ => NxNodeNotFound
  end.

(** On the x axis the square root of a sum of squares is an absolute
    value; the examples only meet perfect squares [q * q + 0]. *)
Definition sqrt_of_square (q : Q) : Q :=
  (Z.sqrt (Qnum q) # 1) / (Z.sqrt (Zpos (Qden q)) # 1).

Definition pymath : PyMath :=
  {| pow_half := sqrt_of_square; math_sqrt := sqrt_of_square |}.

Definition libs : ExternalLibs :=
  {| linalg_norm := norm; nx_shortest_path := shortest_path |}.

Definition graph : NavGraph.t :=
  NavGraph.mk
    (mkDiGraph
       (list_to_map
          [(0, mkNode (0, 0)%Q "v0" false);
           (1, mkNode (0.08, 0)%Q "v1" true);
           (2, mkNode (0.12, 0)%Q "v2" false);
           (3, mkNode (1, 1)%Q "v3" false)])
       (list_to_map
          [((0, 1), mkEdge 0 0.08);
           ((1, 2), mkEdge 0 0.04)]))
    [1].

Definition vertex_positions : gmap Z Pos :=
  FleetManager.vertex_positions (FleetManager.init graph).

(** A robot spawned at vertex 0. *)
Definition R1 : Robot.t := Robot.init "R1" (0, 0)%Q (Some 0).

(** The same robot after its battery has run down to 40. *)
Definition R1_low : Robot.t := Robot.with_battery 40 R1.

Definition R2 : Robot.t := Robot.init "R2" (0.12, 0)%Q (Some 2).

(** A second robot that was given the id of the first. *)
Definition R2' : Robot.t := Robot.init "R1" (0.12, 0)%Q (Some 2).

(** Robots sent along a two-vertex path whose second vertex is 0, resp. 1. *)
Definition R2_to_0 : Robot.t := Robot.set_destination R2 0 [2; 0].
Definition R2_to_1 : Robot.t := Robot.set_destination R2 1 [2; 1].

(** [R1] under way to vertex 2 along 0, 1, 2, within one step of vertex 1. *)
Definition R1_near : Robot.t :=
  Robot.with_position (0.05, 0)%Q (Robot.set_destination R1 2 [0; 1; 2]).

(** [R2] made to wait at vertex 0 for the lane to vertex 1. *)
Definition R2_waiting : Robot.t :=
  Robot.with_state WAITING
    (Robot.set_destination (Robot.init "R2" (0, 0)%Q (Some 0)) 2 [0; 1; 2]).

Definition fleet0 : FleetManager.t :=
  FleetManager.add_robot (FleetManager.init graph) R1.

Definition fleet_low : FleetManager.t :=
  FleetManager.add_robot (FleetManager.init graph) R1_low.

End Example.

(** Runs of the whole system over the example graph. *)

Module Scenario.

Definition after (ops : list System.Op) : System.t :=
  match @System.run Example.libs (System.init Example.graph) ops with
  | Ok s => s
  | Raise _ => System.init Example.graph
  end.

(** [R1], battery at 40, is sent to the charger at vertex 1 and arrives on
    the second tick. *)
Definition to_charger : list System.Op :=
  [System.AddRobot Example.R1_low; System.AssignTask "R1" 1 0;
   System.Tick 1; System.Tick 1].

(** [R1], battery at 40, is sent to vertex 2 through the charger at
    vertex 1; one tick has passed. *)
Definition through_charger : list System.Op :=
  [System.AddRobot Example.R1_low; System.AssignTask "R1" 2 0;
   System.Tick 1].


(** Two robots are spawned, the first one is removed. *)
Definition two_spawned_one_removed : FleetManager.t :=
  match
    fm ← @FleetGUI._spawn_or_assign_task Example.libs Example.graph
           (FleetManager.init Example.graph) None 0 0;
    fm ← @FleetGUI._spawn_or_assign_task Example.libs Example.graph
           fm None 1 0;
    Ok (FleetManager.remove_robot fm "R1").1
  with
  | Ok fm => fm
  | Raise _ => FleetManager.init Example.graph
  end.

End Scenario.

(** * Properties *)

(** ** Dict lemmas *)

Lemma PyDict_get_set_eq {V : Type} (d : list (string * V)) k v :
  PyDict.get (PyDict.set d k v) k = Some v.
Proof.
  induction d as [|[k' v'] d IH]; simpl.
  - by rewrite String.eqb_refl.
  - destruct (String.eqb k' k) eqn:E; simpl; by rewrite E.
Qed.

Lemma PyDict_get_set_ne {V : Type} (d : list (string * V)) k k' v :
  k <> k' -> PyDict.get (PyDict.set d k v) k' = PyDict.get d k'.
Proof.
  intros Hne. induction d as [|[k0 v0] d IH]; simpl.
  - destruct (String.eqb_spec k k'); congruence.
  - destruct (String.eqb_spec k0 k) as [->|]; simpl.
    + destruct (String.eqb_spec k k'); congruence.
    + destruct (String.eqb_spec k0 k'); congruence.
Qed.

Lemma PyDict_keys_set_present {V : Type} (d : list (string * V)) k v :
  PyDict.has d k = true -> PyDict.keys (PyDict.set d k v) = PyDict.keys d.
Proof.
  unfold PyDict.has, PyDict.keys.
  induction d as [|[k0 v0] d IH]; simpl; [done|].
  destruct (String.eqb_spec k0 k) as [->|]; simpl; [done|].
  intros H. f_equal. by apply IH.
Qed.

Lemma PyDict_has_get {V : Type} (d : list (string * V)) k :
  PyDict.has d k = true <-> is_Some (PyDict.get d k).
Proof.
  unfold PyDict.has. destruct (PyDict.get d k); split; intros H;
    try done; by destruct H.
Qed.

(** ** Traffic manager *)

Lemma register_result (tm : TrafficManager.t) agent from to :
  (TrafficManager.register_lane_usage tm agent from to
   = (tm, false)
   /\ exists other, holds_lane tm other (from, to) /\ other <> agent)
  \/
  (TrafficManager.register_lane_usage tm agent from to
   = (TrafficManager.mk
        (<[(from, to) := agent]> (TrafficManager.lane_occupancy tm))
        (<[from := agent]> (TrafficManager.vertex_occupancy tm)), true)
   /\ forall other, holds_lane tm other (from, to) -> other = agent).
Proof.
  unfold TrafficManager.register_lane_usage, holds_lane.
  destruct (TrafficManager.lane_occupancy tm !! (from, to)) as [h|] eqn:E.
  - destruct (String.eqb_spec h agent) as [->|Hne]; simpl.
    + right. split; [done|]. intros other [= ->]. done.
    + left. split; [done|]. by exists h.
  - right. split; [done|]. intros other [=].
Qed.

(** C3.  [register_lane_usage(agent, from, to)] on a lane that is unheld
    or held by [agent] itself returns [True], leaves lane [(from, to)] and
    vertex [from] held by [agent] and every other entry as it was, and a
    second identical call changes nothing; on a lane held by a different
    agent it returns [False] and both maps are unchanged. *)
Theorem C3_register_lane_usage (tm : TrafficManager.t) (agent : string)
    (from to : Z) :
  (TrafficManager.lane_occupancy tm !! (from, to) = None
   \/ holds_lane tm agent (from, to) ->
   exists tm',
     TrafficManager.register_lane_usage tm agent from to = (tm', true)
     /\ holds_lane tm' agent (from, to)
     /\ holds_vertex tm' agent from
     /\ (forall lane, lane <> (from, to) ->
          TrafficManager.lane_occupancy tm' !! lane
          = TrafficManager.lane_occupancy tm !! lane)
     /\ (forall v, v <> from ->
          TrafficManager.vertex_occupancy tm' !! v
          = TrafficManager.vertex_occupancy tm !! v)
     /\ TrafficManager.register_lane_usage tm' agent from to = (tm', true))
  /\
  (forall other, holds_lane tm other (from, to) -> other <> agent ->
   TrafficManager.register_lane_usage tm agent from to = (tm, false)).
Proof.
  split.
  - intros Hfree.
    destruct (register_result tm agent from to)
      as [[_ (other & Hh & Hne)]|[Hreg _]].
    { unfold holds_lane in *. destruct Hfree; congruence. }
    eexists. split; [exact Hreg|].
    unfold holds_lane, holds_vertex; simpl.
    repeat split.
    + apply lookup_insert_eq.
    + apply lookup_insert_eq.
    + intros lane Hl. by apply lookup_insert_ne.
    + intros v Hv. by apply lookup_insert_ne.
    + unfold TrafficManager.register_lane_usage; simpl.
      rewrite lookup_insert_eq, String.eqb_refl; simpl.
      by rewrite !insert_insert_eq.
  - intros other Hh Hne.
    destruct (register_result tm agent from to)
      as [[Hreg _]|[_ Hsame]]; [done|].
    by specialize (Hsame _ Hh).
Qed.

Lemma C3_register_lane_usage_witness :
  (exists tm',
     TrafficManager.register_lane_usage TrafficManager.init "R1" 0 1
     = (tm', true)
     /\ holds_lane tm' "R1" (0, 1)
     /\ holds_vertex tm' "R1" 0
     /\ TrafficManager.register_lane_usage tm' "R1" 0 1 = (tm', true))
  /\ TrafficManager.register_lane_usage
       (TrafficManager.mk {[ (0, 1) := "R1" ]} {[ 0 := "R1" ]}) "R2" 0 1
     = (TrafficManager.mk {[ (0, 1) := "R1" ]} {[ 0 := "R1" ]}, false).
Proof.
  split.
  - destruct (C3_register_lane_usage TrafficManager.init "R1" 0 1)
      as [H _].
    destruct H as (tm' & H1 & H2 & H3 & _ & _ & H6).
    { left. reflexivity. }
    exists tm'. auto.
  - apply (C3_register_lane_usage
             (TrafficManager.mk {[ (0, 1) := "R1" ]} {[ 0 := "R1" ]})
             "R2" 0 1) with (other := "R1").
    + reflexivity.
    + discriminate.
Defined.

(** ** Fleet manager: registry operations *)

(** C4 (as the code has it).  [add_robot] of a robot whose id is already
    registered raises nothing: the new robot replaces the old one under
    that id, at the old one's place in the iteration order; the other
    robots and all task records are unchanged. *)
Theorem C4_add_robot_existing_id (fm : FleetManager.t) (robot : Robot.t) :
  PyDict.has (FleetManager.robots fm) (Robot.id robot) = true ->
  let fm' := FleetManager.add_robot fm robot in
  PyDict.get (FleetManager.robots fm') (Robot.id robot) = Some robot
  /\ (forall k, k <> Robot.id robot ->
      PyDict.get (FleetManager.robots fm') k
      = PyDict.get (FleetManager.robots fm) k)
  /\ PyDict.keys (FleetManager.robots fm')
     = PyDict.keys (FleetManager.robots fm)
  /\ FleetManager.tasks fm' = FleetManager.tasks fm
  /\ FleetManager.nav_graph fm' = FleetManager.nav_graph fm.
Proof.
  intros Hhas fm'. subst fm'. unfold FleetManager.add_robot; simpl.
  repeat split.
  - apply PyDict_get_set_eq.
  - intros k Hk. apply PyDict_get_set_ne. congruence.
  - by apply PyDict_keys_set_present.
Qed.

Lemma C4_add_robot_existing_id_witness :
  PyDict.get
    (FleetManager.robots (FleetManager.add_robot Example.fleet0 Example.R1_low))
    "R1" = Some Example.R1_low.
Proof.
  apply (C4_add_robot_existing_id Example.fleet0 Example.R1_low).
  reflexivity.
Defined.

(** C4 as stated fails: adding a second robot with the id of a registered
    one is not rejected, and the registry changes. *)
Lemma C4_duplicate_id_replaces :
  PyDict.has (FleetManager.robots Example.fleet0) (Robot.id Example.R2') = true
  /\ PyDict.get (FleetManager.robots Example.fleet0) "R1" = Some Example.R1
  /\ PyDict.get
       (FleetManager.robots (FleetManager.add_robot Example.fleet0 Example.R2'))
       "R1" = Some Example.R2'
  /\ FleetManager.add_robot Example.fleet0 Example.R2' <> Example.fleet0.
Proof.
  repeat split; try reflexivity.
  intros H.
  apply (f_equal (fun fm => Robot.current_vertex
                   <$> PyDict.get (FleetManager.robots fm) "R1")) in H.
  vm_compute in H. discriminate H.
Qed.

(** ** Robot: one tick *)

Lemma Qltb_lt (a b : Q) : Qltb a b = true <-> (a < b)%Q.
Proof.
  unfold Qltb. rewrite negb_true_iff. split.
  - intros H. apply Qnot_le_lt. intros Hle.
    apply Qle_bool_iff in Hle. congruence.
  - intros H. destruct (Qle_bool b a) eqn:E; [|done].
    apply Qle_bool_iff in E. apply Qlt_not_le in H. contradiction.
Qed.

Lemma Qltb_ge (a b : Q) : Qltb a b = false <-> (b <= a)%Q.
Proof.
  unfold Qltb. rewrite negb_false_iff. apply Qle_bool_iff.
Qed.

Lemma py_max_cases (a b : Q) :
  ((a < b)%Q /\ py_max a b = b) \/ ((b <= a)%Q /\ py_max a b = a).
Proof.
  unfold py_max. destruct (Qltb a b) eqn:E.
  - left. by apply Qltb_lt in E.
  - right. by apply Qltb_ge in E.
Qed.

Lemma py_min_cases (a b : Q) :
  ((b < a)%Q /\ py_min a b = b) \/ ((a <= b)%Q /\ py_min a b = a).
Proof.
  unfold py_min. destruct (Qltb b a) eqn:E.
  - left. by apply Qltb_lt in E.
  - right. by apply Qltb_ge in E.
Qed.

Ltac update_cases :=
  unfold Robot.update, Robot.advance, Robot.only_state in *;
  simpl in *;
  repeat (case_match; simpl in *; simplify_eq); simpl in *.

(** What a tick never touches, and what it reports. *)
Lemma update_frame `{ExternalLibs} dt vp occ (r r' : Robot.t) info :
  Robot.update dt vp occ r = Ok (r', info) ->
  Robot.id r' = Robot.id r
  /\ Robot.destination r' = Robot.destination r
  /\ Robot.speed r' = Robot.speed r
  /\ info_state info = Robot.state r'
  /\ match info_current_vertex info with
     | Some v =>
         Robot.state r = MOVING
         /\ Robot.current_vertex r' = Some v
         /\ (Robot.state r' = MOVING \/ Robot.state r' = COMPLETED)
     | None => Robot.current_vertex r' = Robot.current_vertex r
     end.
Proof.
  intros Hu. update_cases; auto 10.
Qed.

Lemma update_battery `{ExternalLibs} dt vp occ (r r' : Robot.t) info :
  Robot.update dt vp occ r = Ok (r', info) ->
  Robot.battery r' =
    match Robot.state r with
    | CHARGING => py_min 100 (Robot.battery (drained dt r) + 0.1 * dt)
    | _ => Robot.battery (drained dt r)
    end.
Proof.
  intros Hu. update_cases; auto.
Qed.




(** C10.  In state MOVING the test [not self.next_vertex] is a truthiness
    test, so next vertex 0 takes the branch of a null next vertex: the
    path head is popped before any movement and the new head becomes the
    next vertex, or the robot turns COMPLETED when nothing is left.  A
    robot with a nonzero next vertex skips that branch and moves with its
    path as it is. *)
Theorem C10_next_vertex_zero_is_falsy `{ExternalLibs} (dt : Q)
    (vp : gmap Z Pos) (occ : gmap Lane string) (r : Robot.t) :
  Robot.state r = MOVING ->
  (Robot.next_vertex r = Some 0 ->
   match Robot.path r with
   | _ :: p0 :: rest =>
       Robot.update dt vp occ r
       = Robot.advance dt vp occ
           (Robot.with_next_vertex (Some p0)
              (Robot.with_path (p0 :: rest) (drained dt r)))
       /\ Robot.update dt vp occ r
          = Robot.update dt vp occ (Robot.with_next_vertex None r)
   | _ =>
       Robot.update dt vp occ r
       = Ok (Robot.with_state COMPLETED (Robot.with_path [] (drained dt r)),
             mkInfo COMPLETED None None None)
       /\ Robot.update dt vp occ (Robot.with_next_vertex None r)
          = Ok (Robot.with_next_vertex None
                  (Robot.with_state COMPLETED
                     (Robot.with_path [] (drained dt r))),
                mkInfo COMPLETED None None None)
   end)
  /\ (forall n, n <> 0 -> Robot.next_vertex r = Some n ->
      Robot.update dt vp occ r = Robot.advance dt vp occ (drained dt r))
  /\ (forall r' info,
      Robot.update dt vp occ r = Ok (r', info) ->
      info_current_vertex info = None ->
      Robot.state r' = MOVING ->
      match Robot.next_vertex r with
      | Some 0 => Robot.path r' = tail (Robot.path r)
      | Some _ => Robot.path r' = Robot.path r
      | None => True
      end).
Proof.
  intros Hs. destruct r as [i p cv d pa nv st sp b]. simpl in Hs. subst st.
  split; [|split].
  - simpl. intros ->. destruct pa as [|x [|p0 rest]]; simpl; auto.
  - simpl. intros n Hn ->. unfold Robot.update; simpl.
    destruct (Z.eqb_spec n 0); [done|]. reflexivity.
  - intros r' info Hu Hi Hst. simpl.
    destruct nv as [n|]; [|done].
    destruct (Z.eqb_spec n 0) as [->|Hn].
    + update_cases; auto.
    + assert (Robot.path r' = pa); [|by destruct n].
      unfold Robot.update in Hu. simpl in Hu.
      destruct (Z.eqb_spec n 0); [done|]. simpl in Hu.
      update_cases; auto.
Qed.

Lemma C10_next_vertex_zero_is_falsy_witness :
  @Robot.update Example.libs 1 Example.vertex_positions ∅ Example.R2_to_0
  = @Robot.update Example.libs 1 Example.vertex_positions ∅
      (Robot.with_next_vertex None Example.R2_to_0).
Proof.
  destruct (@C10_next_vertex_zero_is_falsy Example.libs 1
              Example.vertex_positions ∅ Example.R2_to_0) as [Hzero _].
  - reflexivity.
  - specialize (Hzero eq_refl). simpl in Hzero. apply Hzero.
Defined.

(** The two behaviours side by side: from the same place, the robot whose
    next vertex is 0 has lost its path head after one tick, the robot whose
    next vertex is 1 has not. *)
Example next_vertex_zero_pops_path :
  (Robot.path ∘ fst <$> @Robot.update Example.libs 0.5 Example.vertex_positions ∅
                          Example.R2_to_0) = Ok [0]
  /\ (Robot.path ∘ fst <$> @Robot.update Example.libs 0.5
                            Example.vertex_positions ∅ Example.R2_to_1)
     = Ok [2; 1].
Proof. split; reflexivity. Qed.

(** When the robot reaches its next vertex [n] with the path as
    [set_destination] left it (current vertex first, [n] second), the pop
    removes the vertex just left and the new head, [n] itself, becomes the
    next vertex. *)
Lemma snap_next_vertex `{ExternalLibs} dt vp occ (r r' : Robot.t) info c n rest v :
  Robot.state r = MOVING ->
  Robot.next_vertex r = Some n -> n <> 0 ->
  Robot.path r = c :: n :: rest ->
  Robot.update dt vp occ r = Ok (r', info) ->
  info_current_vertex info = Some v ->
  Robot.current_vertex r' = Some n
  /\ Robot.path r' = n :: rest
  /\ Robot.next_vertex r' = Some n.
Proof.
  intros Hs Hn Hn0 Hp Hu Hi. destruct r as [i p cv d pa nv st sp b].
  simpl in *. subst. unfold Robot.update in Hu. simpl in Hu.
  destruct (Z.eqb_spec n 0); [done|]. simpl in Hu.
  update_cases; auto.
Qed.

(** C5 at a failing input.  [R1] travels 0, 1, 2 and is within one step of
    vertex 1.  After the tick it stands on vertex 1 with remaining path
    [1; 2], and its next vertex is 1, the vertex just reached, where the
    specification has 2, the second element of the remaining path.  The
    tick after that "reaches" vertex 1 once more and leaves the path [2],
    whose head is no longer the current vertex. *)
Theorem C5_snap_repeats_reached_vertex :
  Robot.current_vertex Example.R1_near = Some 0
  /\ Robot.path Example.R1_near = [0; 1; 2]
  /\ Robot.next_vertex Example.R1_near = Some 1
  /\ exists r' info r'' info',
       @Robot.update Example.libs 1 Example.vertex_positions ∅ Example.R1_near
       = Ok (r', info)
       /\ Robot.state r' = MOVING
       /\ Robot.current_vertex r' = Some 1
       /\ Robot.path r' = [1; 2]
       /\ Robot.next_vertex r' = Some 1
       /\ Robot.next_vertex r' <> Robot.path r' !! 1%nat
       /\ @Robot.update Example.libs 1 Example.vertex_positions ∅ r'
          = Ok (r'', info')
       /\ Robot.current_vertex r'' = Some 1
       /\ Robot.path r'' = [2]
       /\ Robot.next_vertex r'' = Some 2
       /\ head (Robot.path r'') <> Robot.current_vertex r''.
Proof.
  repeat split. eexists _, _, _, _.
  split; [vm_compute; reflexivity|].
  do 4 (split; [reflexivity|]). split; [discriminate|].
  split; [vm_compute; reflexivity|].
  do 3 (split; [reflexivity|]). discriminate.
Qed.

(** ** Fleet manager: tasks *)

(** C6.  [assign_task] returns [False] for an unknown robot id, and for a
    known robot when [get_path] from its current vertex to the destination
    finds no path; in both cases the fleet manager is left exactly as it
    was: every robot (state, destination, path, next vertex) and every
    task record.  (A robot already at the destination is answered [True]
    before the graph is consulted.) *)
Theorem C6_assign_task_failure `{ExternalLibs} (fm : FleetManager.t)
    (robot_id : string) (destination_vertex : Z) (now : Q) :
  (PyDict.get (FleetManager.robots fm) robot_id = None ->
   FleetManager.assign_task fm robot_id destination_vertex now
   = Ok (fm, false))
  /\ (forall robot cv,
      PyDict.get (FleetManager.robots fm) robot_id = Some robot ->
      Robot.current_vertex robot = Some cv ->
      cv <> destination_vertex ->
      NavGraph.get_path (FleetManager.nav_graph fm) cv destination_vertex
      = Ok None ->
      FleetManager.assign_task fm robot_id destination_vertex now
      = Ok (fm, false)).
Proof.
  unfold FleetManager.assign_task. split.
  - intros ->. reflexivity.
  - intros robot cv -> Hcv Hne Hpath. rewrite Hcv.
    rewrite bool_decide_eq_false_2 by congruence.
    rewrite Hpath. reflexivity.
Qed.

Lemma C6_assign_task_failure_witness :
  @FleetManager.assign_task Example.libs Example.fleet0 "R9" 2 0
  = Ok (Example.fleet0, false)
  /\ @FleetManager.assign_task Example.libs Example.fleet0 "R1" 3 0
     = Ok (Example.fleet0, false).
Proof.
  destruct (@C6_assign_task_failure Example.libs Example.fleet0 "R9" 2 0)
    as [Hunknown _].
  destruct (@C6_assign_task_failure Example.libs Example.fleet0 "R1" 3 0)
    as [_ Hnopath].
  split.
  - apply Hunknown. reflexivity.
  - apply (Hnopath Example.R1 0).
    + reflexivity.
    + reflexivity.
    + discriminate.
    + vm_compute. reflexivity.
Defined.

(** C9.  [assign_task] for a robot that is CHARGING or WAITING, towards a
    destination other than its current vertex to which [get_path] returns
    a path from the current vertex to the destination, returns [True] and
    puts the robot in MOVING with the new destination, path and next
    vertex.  The battery reading is the one the robot had (a charge in
    progress stops where it was), and the traffic manager is not touched:
    whatever lanes and vertices were held stay held. *)
Theorem C9_assign_task_overrides_state `{ExternalLibs} (s : System.t)
    (robot_id : string) (robot : Robot.t) (cv destination_vertex : Z)
    (now : Q) (p : list Z) :
  PyDict.get (FleetManager.robots (System.fleet s)) robot_id = Some robot ->
  Robot.state robot = CHARGING \/ Robot.state robot = WAITING ->
  Robot.current_vertex robot = Some cv ->
  cv <> destination_vertex ->
  NavGraph.get_path (FleetManager.nav_graph (System.fleet s)) cv
    destination_vertex = Ok (Some p) ->
  head p = Some cv ->
  last p = Some destination_vertex ->
  exists fm' robot',
    FleetManager.assign_task (System.fleet s) robot_id destination_vertex now
    = Ok (fm', true)
    /\ System.step s (System.AssignTask robot_id destination_vertex now)
       = Ok (System.mk fm' (System.traffic s))
    /\ PyDict.get (FleetManager.robots fm') robot_id = Some robot'
    /\ Robot.state robot' = MOVING
    /\ Robot.destination robot' = Some destination_vertex
    /\ Robot.path robot' = p
    /\ Robot.next_vertex robot' = p !! 1%nat
    /\ is_Some (Robot.next_vertex robot')
    /\ Robot.battery robot' = Robot.battery robot
    /\ Robot.current_vertex robot' = Robot.current_vertex robot
    /\ Robot.position robot' = Robot.position robot.
Proof.
  intros Hget _ Hcv Hne Hpath Hhd Hlast.
  assert (exists p1 rest, p = cv :: p1 :: rest) as (p1 & rest & ->).
  { destruct p as [|x [|p1 rest]]; simpl in *; simplify_eq; eauto. }
  unfold System.step, FleetManager.assign_task.
  rewrite Hget, Hcv, bool_decide_eq_false_2 by congruence.
  rewrite Hpath. simpl.
  eexists _, _. split; [reflexivity|]. split; [reflexivity|].
  simpl. rewrite PyDict_get_set_eq. repeat split; eauto.
Qed.

Lemma C9_assign_task_overrides_state_witness :
  exists fm' robot',
    @FleetManager.assign_task Example.libs
      (System.fleet (Scenario.after Scenario.to_charger)) "R1" 2 5
    = Ok (fm', true)
    /\ PyDict.get (FleetManager.robots fm') "R1" = Some robot'
    /\ Robot.state robot' = MOVING
    /\ holds_lane (System.traffic (Scenario.after Scenario.to_charger))
         "R1" (0, 1).
Proof.
  destruct (@C9_assign_task_overrides_state Example.libs
              (Scenario.after Scenario.to_charger) "R1"
              (Robot.with_next_vertex (Some 1)
                 (Robot.with_path [1]
                    (Robot.with_state CHARGING
                       (Robot.with_battery
                          (py_max 0 (py_max 0 (40 - 0.01 * 1) - 0.01 * 1))
                          (Robot.with_current_vertex (Some 1)
                             (Robot.with_position (0.08, 0)%Q
                                (Robot.with_destination (Some 1)
                                   Example.R1_low)))))))
              1 2 5 [1; 2])
    as (fm' & robot' & Hassign & _ & Hget & Hstate & _).
  - vm_compute. reflexivity.
  - left. reflexivity.
  - reflexivity.
  - discriminate.
  - vm_compute. reflexivity.
  - reflexivity.
  - reflexivity.
  - exists fm', robot'. repeat split; try assumption.
Defined.

(** ** Fleet manager: the tick loop *)

Lemma bind_Ok {A B : Type} (m : Result A) (k : A -> Result B) (b : B) :
  m ≫= k = Ok b -> exists a, m = Ok a /\ k a = Ok b.
Proof. destruct m as [a|e]; simpl; [eauto|discriminate]. Qed.

(** The traffic manager after one loop iteration is the one before it, or
    the result of a single registration. *)
Lemma update_one_traffic `{ExternalLibs} fm dt vp robot_id robot tm robot' tm' info :
  FleetManager.update_one fm dt vp robot_id robot tm = Ok (robot', tm', info) ->
  tm' = tm
  \/ exists cv nv,
      tm' = (TrafficManager.register_lane_usage tm robot_id cv nv).1.
Proof.
  unfold FleetManager.update_one. intros Hu.
  apply bind_Ok in Hu as ([r1 i1] & _ & Hu). simpl in Hu.
  repeat case_match; simplify_eq; eauto.
Qed.

(** Each robot of the registry is replaced, in place, by the outcome of
    its own loop iteration. *)
Lemma update_loop_pointwise `{ExternalLibs} fm dt vp items :
  forall tm ups items' tm' ups',
    FleetManager.update_loop fm dt vp items tm ups = Ok (items', tm', ups') ->
    Forall2
      (fun x y =>
         x.1 = y.1
         /\ exists tm0 tm1 info,
             FleetManager.update_one fm dt vp x.1 x.2 tm0
             = Ok (y.2, tm1, info))
      items items'.
Proof.
  induction items as [|[k r] items IH]; simpl; intros tm ups items' tm' ups' Hl.
  - simplify_eq. constructor.
  - apply bind_Ok in Hl as ([[r1 tm1] i1] & H1 & Hl). simpl in Hl.
    apply bind_Ok in Hl as ([[rest tm2] ups2] & H2 & Hl). simpl in Hl.
    simplify_eq. constructor; [|by eapply IH].
    simpl. split; [done|]. eauto.
Qed.

(** A property of the traffic manager that registrations preserve is
    preserved by the loop. *)
Lemma update_loop_traffic `{ExternalLibs} (P : TrafficManager.t -> Prop) fm dt vp items :
  (forall tm robot_id cv nv,
      P tm -> P (TrafficManager.register_lane_usage tm robot_id cv nv).1) ->
  forall tm ups items' tm' ups',
    P tm ->
    FleetManager.update_loop fm dt vp items tm ups = Ok (items', tm', ups') ->
    P tm'.
Proof.
  intros Hreg.
  induction items as [|[k r] items IH]; simpl; intros tm ups items' tm' ups' HP Hl.
  - by simplify_eq.
  - apply bind_Ok in Hl as ([[r1 tm1] i1] & H1 & Hl). simpl in Hl.
    apply bind_Ok in Hl as ([[rest tm2] ups2] & H2 & Hl). simpl in Hl.
    simplify_eq. eapply IH; [|exact H2].
    apply update_one_traffic in H1 as [->|(cv & nv & ->)]; auto.
Qed.

(** One loop iteration, seen from the robot: a robot whose current vertex
    changed to a charger while its battery reads below 50 is CHARGING
    exactly when that vertex is its destination. *)
Lemma update_one_charging `{ExternalLibs} fm dt vp robot_id robot tm robot' tm' info v :
  FleetManager.update_one fm dt vp robot_id robot tm = Ok (robot', tm', info) ->
  Robot.current_vertex robot' = Some v ->
  Robot.current_vertex robot <> Some v ->
  v ∈ NavGraph.get_chargers (FleetManager.nav_graph fm) ->
  (Robot.battery robot' < 50)%Q ->
  (Robot.state robot' = CHARGING <-> Robot.destination robot' = Some v).
Proof.
  unfold FleetManager.update_one. intros Hu Hcv Hpre Hch Hb.
  apply bind_Ok in Hu as ([r1 i1] & Hupd & Hu). simpl in Hu.
  apply update_frame in Hupd as (_ & _ & _ & _ & Hinfo).
  assert (robot' = FleetManager.on_vertex_change fm
                     (Robot.current_vertex robot) i1 r1) as ->.
  { repeat case_match; by simplify_eq. }
  clear Hu. unfold FleetManager.on_vertex_change in *.
  apply Qltb_lt in Hb.
  destruct (info_current_vertex i1) as [w|].
  - destruct Hinfo as (_ & Hw & Hst).
    repeat case_bool_decide; simpl in *; simplify_eq;
      try (rewrite andb_true_l in *);
      try (destruct (Qltb (Robot.battery r1) 50) eqn:E; simpl in *);
      try congruence;
      split; intros; try congruence; destruct Hst; congruence.
  - congruence.
Qed.

(** The same iteration in full: the robot left behind is the one its own
    tick produced, put into CHARGING when the charger is its destination
    and left untouched otherwise. *)
Lemma update_one_vertex_change `{ExternalLibs} fm dt vp robot_id robot tm
    robot' tm' info v :
  FleetManager.update_one fm dt vp robot_id robot tm = Ok (robot', tm', info) ->
  Robot.current_vertex robot' = Some v ->
  Robot.current_vertex robot <> Some v ->
  v ∈ NavGraph.get_chargers (FleetManager.nav_graph fm) ->
  (Robot.battery robot' < 50)%Q ->
  exists r1,
    Robot.update dt vp (TrafficManager.get_lane_occupancy tm) robot
    = Ok (r1, info)
    /\ info_current_vertex info = Some v
    /\ (Robot.state r1 = MOVING \/ Robot.state r1 = COMPLETED)
    /\ robot' = (if bool_decide (Robot.destination r1 = Some v)
                 then Robot.start_charging r1 else r1).
Proof.
  unfold FleetManager.update_one. intros Hu Hcv Hpre Hch Hb.
  apply bind_Ok in Hu as ([r1 i1] & Hupd & Hu). simpl in Hu.
  injection Hu as Hr' _ <-. exists r1. split; [exact Hupd|].
  apply update_frame in Hupd as (_ & _ & _ & _ & Hinfo).
  unfold FleetManager.on_vertex_change in Hr'.
  apply Qltb_lt in Hb.
  destruct (info_current_vertex i1) as [w|].
  - destruct Hinfo as (_ & Hw & Hst).
    assert (w = v) as ->.
    { repeat case_match; subst robot'; simpl in *; congruence. }
    split; [done|]. split; [done|].
    rewrite bool_decide_eq_true_2 in Hr' by congruence.
    case_bool_decide; [|done].
    rewrite bool_decide_eq_true_2 in Hr' by done.
    assert (Hb1 : Qltb (Robot.battery r1) 50 = true).
    { destruct (Qltb (Robot.battery r1) 50) eqn:E; [done|].
      simpl in Hr'. subst robot'. congruence. }
    rewrite Hb1 in Hr'. done.
  - subst robot'. congruence.
Qed.

(** C2 (as the code has it).  After a call of [update_robots], a robot
    whose current vertex changed during the call to a charger vertex, and
    whose battery reads below 50, is in state CHARGING if and only if that
    vertex is its destination: the charger test is nested inside the
    destination test.  The robot is the one its own tick produced (that
    tick reported the arrival and left it MOVING or COMPLETED), turned to
    CHARGING at its destination and left exactly as it was at any other
    charger. *)
Theorem C2_charging_only_at_destination `{ExternalLibs}
    (fm fm' : FleetManager.t) (dt : Q) (tm tm' : TrafficManager.t)
    (ups : Updates) (i : nat) (robot_id robot_id' : string)
    (robot robot' : Robot.t) (v : Z) :
  FleetManager.update_robots fm dt tm = Ok (fm', tm', ups) ->
  FleetManager.robots fm !! i = Some (robot_id, robot) ->
  FleetManager.robots fm' !! i = Some (robot_id', robot') ->
  Robot.current_vertex robot' = Some v ->
  Robot.current_vertex robot <> Some v ->
  v ∈ NavGraph.get_chargers (FleetManager.nav_graph fm) ->
  (Robot.battery robot' < 50)%Q ->
  robot_id' = robot_id
  /\ (Robot.state robot' = CHARGING <-> Robot.destination robot' = Some v)
  /\ exists (tm0 : TrafficManager.t) (ticked : Robot.t) (info : UpdateInfo),
       Robot.update dt (FleetManager.vertex_positions fm)
         (TrafficManager.get_lane_occupancy tm0) robot = Ok (ticked, info)
       /\ info_current_vertex info = Some v
       /\ (Robot.state ticked = MOVING \/ Robot.state ticked = COMPLETED)
       /\ Robot.destination robot' = Robot.destination ticked
       /\ (Robot.destination ticked = Some v ->
           robot' = Robot.start_charging ticked)
       /\ (Robot.destination ticked <> Some v -> robot' = ticked).
Proof.
  unfold FleetManager.update_robots. intros Hu Hi Hi' Hcv Hpre Hch Hb.
  apply bind_Ok in Hu as ([[items tm1] ups1] & Hl & Hu). simpl in Hu.
  simplify_eq. simpl in Hi'.
  apply update_loop_pointwise in Hl.
  destruct (Forall2_lookup_lr _ _ _ _ _ _ Hl Hi Hi')
    as (Hid & tm0 & tm1' & info & Hone).
  simpl in *. split; [done|].
  split; [eapply update_one_charging; eauto|].
  destruct (update_one_vertex_change _ _ _ _ _ _ _ _ _ _ Hone Hcv Hpre Hch Hb)
    as (r1 & Hupd & Hinfo & Hst & Hr').
  exists tm0, r1, info. split; [exact Hupd|]. split; [exact Hinfo|].
  split; [exact Hst|].
  case_bool_decide; subst robot'; simpl; repeat split; auto; congruence.
Qed.

Lemma C2_charging_only_at_destination_witness :
  exists robot',
    FleetManager.robots (System.fleet (Scenario.after Scenario.to_charger))
      !! 0%nat = Some ("R1", robot')
    /\ Robot.current_vertex robot' = Some 1
    /\ Robot.state robot' = CHARGING.
Proof.
  destruct (@FleetManager.update_robots Example.libs
              (System.fleet (Scenario.after (take 3 Scenario.to_charger))) 1
              (System.traffic (Scenario.after (take 3 Scenario.to_charger))))
    as [[[fm' tm'] ups]|e] eqn:Hupd; [|vm_compute in Hupd; discriminate].
  assert (Hfm : System.fleet (Scenario.after Scenario.to_charger) = fm').
  { vm_compute in Hupd. injection Hupd as <- _ _. vm_compute. reflexivity. }
  rewrite Hfm.
  destruct (FleetManager.robots fm' !! 0%nat) as [[k robot']|] eqn:Hi;
    [|rewrite <- Hfm in Hi; vm_compute in Hi; discriminate].
  assert (Hk : k = "R1").
  { rewrite <- Hfm in Hi. vm_compute in Hi. injection Hi as <- _. reflexivity. }
  assert (Hcv : Robot.current_vertex robot' = Some 1).
  { rewrite <- Hfm in Hi. vm_compute in Hi. injection Hi as _ <-. reflexivity. }
  assert (Hd : Robot.destination robot' = Some 1).
  { rewrite <- Hfm in Hi. vm_compute in Hi. injection Hi as _ <-. reflexivity. }
  assert (Hb : (Robot.battery robot' < 50)%Q).
  { rewrite <- Hfm in Hi. vm_compute in Hi. injection Hi as _ <-. reflexivity. }
  subst k. exists robot'. split; [reflexivity|]. split; [exact Hcv|].
  destruct (FleetManager.robots
              (System.fleet (Scenario.after (take 3 Scenario.to_charger)))
              !! 0%nat) as [[k0 robot0]|] eqn:Hi0;
    [|vm_compute in Hi0; discriminate].
  assert (Hk0 : k0 = "R1").
  { vm_compute in Hi0. injection Hi0 as <- _. reflexivity. }
  assert (Hcv0 : Robot.current_vertex robot0 = Some 0).
  { vm_compute in Hi0. injection Hi0 as _ <-. reflexivity. }
  subst k0.
  destruct (@C2_charging_only_at_destination Example.libs
              (System.fleet (Scenario.after (take 3 Scenario.to_charger)))
              fm' 1
              (System.traffic (Scenario.after (take 3 Scenario.to_charger)))
              tm' ups 0%nat "R1" "R1" robot0 robot' 1) as (_ & Hiff & _).
  - exact Hupd.
  - exact Hi0.
  - exact Hi.
  - exact Hcv.
  - rewrite Hcv0. discriminate.
  - apply list_elem_of_here.
  - exact Hb.
  - apply Hiff. exact Hd.
Defined.

(** C2 as stated fails.  [R1], battery below 50, is on its way to vertex 2
    and reaches the charger at vertex 1 during this call; it is left
    MOVING, not CHARGING. *)
Lemma C2_charger_on_the_way_is_skipped :
  exists fm' tm' ups robot robot',
    @FleetManager.update_robots Example.libs
      (System.fleet (Scenario.after Scenario.through_charger)) 1
      (System.traffic (Scenario.after Scenario.through_charger))
    = Ok (fm', tm', ups)
    /\ PyDict.get
         (FleetManager.robots
            (System.fleet (Scenario.after Scenario.through_charger))) "R1"
       = Some robot
    /\ PyDict.get (FleetManager.robots fm') "R1" = Some robot'
    /\ Robot.current_vertex robot = Some 0
    /\ Robot.current_vertex robot' = Some 1
    /\ 1 ∈ NavGraph.get_chargers (FleetManager.nav_graph fm')
    /\ (Robot.battery robot' < 50)%Q
    /\ Robot.destination robot' = Some 2
    /\ Robot.state robot' = MOVING
    /\ Robot.state robot' <> CHARGING.
Proof.
  eexists _, _, _, _, _.
  split; [vm_compute; reflexivity|].
  split; [vm_compute; reflexivity|].
  split; [reflexivity|].
  repeat split; try reflexivity.
  - apply list_elem_of_here.
  - discriminate.
Qed.

(** ** Occupancy table: a lane stays with its holder *)

Lemma register_lane_stable tm robot_id cv nv holder lane :
  holds_lane tm holder lane ->
  holds_lane (TrafficManager.register_lane_usage tm robot_id cv nv).1
    holder lane.
Proof.
  intros Hh.
  destruct (register_result tm robot_id cv nv) as [[-> _]|[-> Hsame]];
    [exact Hh|].
  unfold holds_lane in *. simpl.
  destruct (decide (lane = (cv, nv))) as [->|Hne].
  - rewrite (Hsame _ Hh). apply lookup_insert_eq.
  - by rewrite lookup_insert_ne.
Qed.


Lemma update_one_lanes_kept `{ExternalLibs} fm dt vp robot_id robot tm
    robot' tm' info :
  FleetManager.update_one fm dt vp robot_id robot tm = Ok (robot', tm', info) ->
  lanes_kept tm tm'.
Proof.
  intros Hu lane holder Hh.
  apply update_one_traffic in Hu as [->|(cv & nv & ->)]; [done|].
  by apply register_lane_stable.
Qed.

(** The loop, robot by robot: each robot is updated against a traffic
    manager that has kept every lane entry of the initial one, and every
    lane entry present after its turn is still there at the end. *)
Lemma update_loop_turns `{ExternalLibs} fm dt vp items :
  forall tm ups items' tm' ups',
    FleetManager.update_loop fm dt vp items tm ups = Ok (items', tm', ups') ->
    lanes_kept tm tm'
    /\ Forall2
         (fun x y =>
            x.1 = y.1
            /\ exists tm0 tm1 info,
                lanes_kept tm tm0 /\ lanes_kept tm1 tm'
                /\ FleetManager.update_one fm dt vp x.1 x.2 tm0
                   = Ok (y.2, tm1, info))
         items items'.
Proof.
  induction items as [|[k r] items IH]; simpl; intros tm ups items' tm' ups' Hl.
  - simplify_eq. split; [by intros lane holder Hh|constructor].
  - apply bind_Ok in Hl as ([[r1 tm1] i1] & H1 & Hl). simpl in Hl.
    apply bind_Ok in Hl as ([[rest tm2] ups2] & H2 & Hl). simpl in Hl.
    simplify_eq. destruct (IH _ _ _ _ _ H2) as [Hk12 Hrest].
    pose proof (update_one_lanes_kept _ _ _ _ _ _ _ _ _ H1) as Hk01.
    split; [intros lane holder Hh; auto|].
    constructor.
    + simpl. split; [done|]. exists tm, tm1, i1.
      split; [by intros lane holder Hh|]. auto.
    + eapply Forall2_impl; [exact Hrest|].
      intros x y (Hxy & tm0 & tm3 & info & Ha & Hb & Hone).
      split; [done|]. exists tm0, tm3, info. split; [|auto].
      intros lane holder Hh. auto.
Qed.



Lemma scenario_reachable (ops : list System.Op) :
  is_Ok (@System.run Example.libs (System.init Example.graph) ops) = true ->
  @System.reachable Example.libs Example.graph (Scenario.after ops).
Proof.
  intros Hok. exists ops. unfold Scenario.after.
  destruct (@System.run Example.libs (System.init Example.graph) ops);
    [reflexivity|discriminate Hok].
Defined.



(** ** Ticks never raise on a well-formed fleet *)

Lemma forallb_Forall_true {A : Type} (f : A -> bool) (l : list A) :
  forallb f l = true <-> Forall (fun x => f x = true) l.
Proof.
  induction l as [|x l IH]; simpl.
  - split; [constructor|done].
  - rewrite andb_true_iff, IH. split.
    + intros [Hx Hl]. by constructor.
    + intros Hxl. by inversion Hxl.
Qed.

Lemma robot_ok_spec (vp : gmap Z Pos) (r : Robot.t) :
  robot_ok vp r = true <->
  Forall (fun v => is_Some (vp !! v)) (Robot.path r)
  /\ (forall n, Robot.next_vertex r = Some n -> is_Some (vp !! n))
  /\ (Robot.state r = MOVING \/ Robot.state r = WAITING -> Robot.path r <> []).
Proof.
  unfold robot_ok. rewrite !andb_true_iff, forallb_Forall_true.
  split.
  - intros [[Hp Hn] Hs]. split; [|split].
    + eapply Forall_impl; [exact Hp|]. intros v Hv.
      by apply bool_decide_eq_true in Hv.
    + intros n Hn'. rewrite Hn' in Hn. by apply bool_decide_eq_true in Hn.
    + intros Hst Hnil. rewrite Hnil in Hs.
      destruct Hst as [Hst|Hst]; rewrite Hst in Hs; discriminate.
  - intros (Hp & Hn & Hs). split; [split|].
    + eapply Forall_impl; [exact Hp|]. intros v Hv.
      by apply bool_decide_eq_true.
    + destruct (Robot.next_vertex r) as [n|]; [|done].
      apply bool_decide_eq_true. by apply Hn.
    + destruct (Robot.state r); try done;
        (destruct (Robot.path r); [exfalso; apply Hs; auto|done]).
Qed.

Lemma advance_ok `{ExternalLibs} dt (vp : gmap Z Pos) occ (r : Robot.t) n :
  Forall (fun v => is_Some (vp !! v)) (Robot.path r) ->
  Robot.next_vertex r = Some n ->
  is_Some (vp !! n) ->
  Robot.path r <> [] ->
  Robot.state r = MOVING ->
  exists r' info,
    Robot.advance dt vp occ r = Ok (r', info) /\ robot_ok vp r' = true.
Proof.
  intros Hp Hn [np Hnp] Hne Hs. unfold Robot.advance.
  destruct (Robot.lane_held_by_other _ _ _ _).
  { eexists _, _. split; [reflexivity|]. apply robot_ok_spec. simpl.
    repeat split; auto. intros m Hm. rewrite Hn in Hm. simplify_eq. eauto. }
  rewrite Hn, Hnp.
  destruct (Qltb _ _).
  - simpl. destruct (Robot.path r) as [|x rest] eqn:Epath; [done|].
    apply Forall_cons in Hp as [_ Hrest].
    eexists _, _. split; [reflexivity|]. apply robot_ok_spec.
    destruct rest as [|p0 rest']; simpl.
    + repeat split; auto. intros ? [=]. intros [[=]|[=]].
    + apply Forall_cons in Hrest as Hp0. destruct Hp0 as [Hp0 _].
      repeat split; auto. intros m [= <-]. done.
  - eexists _, _. split; [reflexivity|]. apply robot_ok_spec.
    destruct (Qltb 0 _); simpl; repeat split; auto;
      intros m Hm; rewrite Hn in Hm; simplify_eq; eauto.
Qed.

Lemma update_ok `{ExternalLibs} dt (vp : gmap Z Pos) occ (r : Robot.t) :
  robot_ok vp r = true ->
  exists r' info,
    Robot.update dt vp occ r = Ok (r', info) /\ robot_ok vp r' = true.
Proof.
  intros Hok. apply robot_ok_spec in Hok as (Hp & Hn & Hs).
  unfold Robot.update. simpl.
  destruct (Robot.state r) eqn:Est.
  - eexists _, _. split; [reflexivity|]. apply robot_ok_spec. simpl.
    rewrite Est. repeat split; auto; try by intros [[=]|[=]].
  - destruct (truthy (Robot.next_vertex r)) eqn:Et.
    + destruct (Robot.next_vertex r) as [n|] eqn:En; [|done].
      eapply advance_ok; simpl; eauto.
    + destruct (Robot.path r) as [|x [|p0 rest]] eqn:Epath.
      * exfalso. apply Hs; auto.
      * eexists _, _. split; [reflexivity|]. apply robot_ok_spec. simpl.
        repeat split; auto; try by intros [[=]|[=]].
      * apply Forall_cons in Hp as [_ Hrest].
        apply Forall_cons in Hrest as Hp0. destruct Hp0 as [Hp0 _].
        eapply advance_ok; simpl; eauto; done.
  - eexists _, _. split; [reflexivity|]. apply robot_ok_spec.
    destruct (Robot.lane_held_by_other _ _ _ _); simpl; rewrite ?Est;
      repeat split; auto.
  - eexists _, _. split; [reflexivity|]. apply robot_ok_spec.
    destruct (Qle_bool _ _); simpl; rewrite ?Est;
      repeat split; auto; try by intros [[=]|[=]].
  - eexists _, _. split; [reflexivity|]. apply robot_ok_spec. simpl.
    rewrite Est. repeat split; auto; try by intros [[=]|[=]].
Qed.

Lemma update_one_ok `{ExternalLibs} fm dt (vp : gmap Z Pos) robot_id robot tm :
  robot_ok vp robot = true ->
  exists robot' tm' info,
    FleetManager.update_one fm dt vp robot_id robot tm = Ok (robot', tm', info)
    /\ robot_ok vp robot' = true.
Proof.
  intros Hok. unfold FleetManager.update_one.
  destruct (update_ok dt vp (TrafficManager.get_lane_occupancy tm) robot Hok)
    as (r1 & i1 & -> & Hok1).
  simpl. eexists _, _, _. split; [reflexivity|].
  unfold FleetManager.on_vertex_change.
  repeat case_match; try exact Hok1.
  apply robot_ok_spec in Hok1 as (Hp & Hn & Hs).
  apply robot_ok_spec. simpl. repeat split; auto; try by intros [[=]|[=]].
Qed.

Lemma update_loop_ok `{ExternalLibs} fm dt (vp : gmap Z Pos) items :
  forallb (fun item : string * Robot.t => robot_ok vp item.2) items = true ->
  forall tm ups,
    exists items' tm' ups',
      FleetManager.update_loop fm dt vp items tm ups = Ok (items', tm', ups')
      /\ forallb (fun item : string * Robot.t => robot_ok vp item.2) items'
         = true
      /\ PyDict.keys items' = PyDict.keys items.
Proof.
  induction items as [|[k r] items IH]; simpl; intros Hok tm ups.
  - eexists _, _, _. split; [reflexivity|]. done.
  - apply andb_true_iff in Hok as [Hr Hitems].
    destruct (update_one_ok fm dt vp k r tm Hr) as (r' & tm1 & i1 & -> & Hr').
    simpl.
    destruct (IH Hitems tm1 (PyDict.set ups k i1))
      as (items' & tm2 & ups2 & -> & Hitems' & Hkeys).
    simpl. eexists _, _, _. split; [reflexivity|]. simpl.
    rewrite Hr', Hitems'. split; [done|].
    unfold PyDict.keys in *. simpl. by rewrite Hkeys.
Qed.

Lemma update_robots_ok `{ExternalLibs} fm dt tm :
  fleet_ok fm = true ->
  exists fm' tm' ups,
    FleetManager.update_robots fm dt tm = Ok (fm', tm', ups)
    /\ fleet_ok fm' = true
    /\ PyDict.keys (FleetManager.robots fm')
       = PyDict.keys (FleetManager.robots fm).
Proof.
  intros Hok. unfold FleetManager.update_robots.
  destruct (update_loop_ok fm dt (FleetManager.vertex_positions fm)
              (FleetManager.robots fm) Hok tm [])
    as (items' & tm' & ups' & -> & Hok' & Hkeys).
  simpl. eexists _, _, _. split; [reflexivity|]. split; [exact Hok'|exact Hkeys].
Qed.

Lemma run_ticks_ok `{ExternalLibs} dts :
  forall fm tm,
    fleet_ok fm = true ->
    exists fm' tm',
      run_ticks fm tm dts = Ok (fm', tm')
      /\ fleet_ok fm' = true
      /\ PyDict.keys (FleetManager.robots fm')
         = PyDict.keys (FleetManager.robots fm).
Proof.
  induction dts as [|dt dts IH]; simpl; intros fm tm Hok.
  - eexists _, _. split; [reflexivity|]. done.
  - destruct (update_robots_ok fm dt tm Hok) as (fm1 & tm1 & ups & -> & Hok1 & Hk1).
    simpl. destruct (IH fm1 tm1 Hok1) as (fm2 & tm2 & -> & Hok2 & Hk2).
    eexists _, _. split; [reflexivity|]. split; [done|]. congruence.
Qed.

Lemma forallb_PyDict_set {V : Type} (g : V -> bool) (d : list (string * V)) k v :
  forallb (fun item : string * V => g item.2) d = true ->
  g v = true ->
  forallb (fun item : string * V => g item.2) (PyDict.set d k v) = true.
Proof.
  intros Hd Hv. induction d as [|[k0 v0] d IH]; simpl in *.
  - by rewrite Hv.
  - apply andb_true_iff in Hd as [H0 Hd].
    destruct (String.eqb k0 k); simpl.
    + by rewrite Hv, Hd.
    + by rewrite H0, IH.
Qed.

Lemma forallb_PyDict_get {V : Type} (g : V -> bool) (d : list (string * V)) k v :
  forallb (fun item : string * V => g item.2) d = true ->
  PyDict.get d k = Some v ->
  g v = true.
Proof.
  induction d as [|[k0 v0] d IH]; simpl; [done|].
  intros Hd Hget. apply andb_true_iff in Hd as [H0 Hd].
  destruct (String.eqb k0 k); simplify_eq; auto.
Qed.

Lemma PyDict_get_keys {V : Type} (d d' : list (string * V)) k :
  PyDict.keys d = PyDict.keys d' ->
  is_Some (PyDict.get d k) -> is_Some (PyDict.get d' k).
Proof.
  unfold PyDict.keys. revert d'.
  induction d as [|[k0 v0] d IH]; intros [|[k1 v1] d']; simpl;
    intros Hk Hs; try done; try by destruct Hs.
  simplify_eq. destruct (String.eqb k1 k); eauto.
Qed.

Lemma set_destination_ok (vp : gmap Z Pos) (robot : Robot.t) dest p :
  robot_ok vp robot = true ->
  forallb (fun v => bool_decide (is_Some (vp !! v))) p = true ->
  robot_ok vp (Robot.set_destination robot dest p) = true.
Proof.
  intros Hok Hp. apply robot_ok_spec in Hok as (_ & Hn & _).
  apply forallb_Forall_true in Hp.
  assert (Hp' : Forall (fun v => is_Some (vp !! v)) p).
  { eapply Forall_impl; [exact Hp|]. intros v Hv.
    by apply bool_decide_eq_true in Hv. }
  apply robot_ok_spec. unfold Robot.set_destination.
  destruct p as [|x [|p1 rest]]; simpl; repeat split; auto;
    try by intros [[=]|[=]].
  intros m [= <-]. apply Forall_cons in Hp' as [_ Hp'].
  by apply Forall_cons in Hp' as [Hp1 _].
Qed.

(** C7.  In a fleet whose robots refer to vertices of the graph, take a
    registered robot and a destination to which [get_path] returns a path
    through vertices of the graph.  Then [assign_task] returns [True]; any
    number of ticks after it, whatever the time deltas and the state of
    the traffic manager, run to their end; and [cancel_task] afterwards
    returns [True] and leaves the robot IDLE with empty path, no
    destination and no next vertex, and without a task record. *)
Theorem C7_assign_then_cancel `{ExternalLibs} (fm : FleetManager.t)
    (robot_id : string) (robot : Robot.t) (cv destination_vertex : Z)
    (now : Q) (p : list Z) (dts : list Q) (tm : TrafficManager.t) :
  fleet_ok fm = true ->
  PyDict.get (FleetManager.robots fm) robot_id = Some robot ->
  Robot.current_vertex robot = Some cv ->
  NavGraph.get_path (FleetManager.nav_graph fm) cv destination_vertex
  = Ok (Some p) ->
  head p = Some cv ->
  forallb
    (fun v => bool_decide (is_Some (FleetManager.vertex_positions fm !! v))) p
  = true ->
  exists fm1 fm2 tm2 fm3 r,
    FleetManager.assign_task fm robot_id destination_vertex now
    = Ok (fm1, true)
    /\ run_ticks fm1 tm dts = Ok (fm2, tm2)
    /\ FleetManager.cancel_task fm2 robot_id = (fm3, true)
    /\ PyDict.get (FleetManager.robots fm3) robot_id = Some r
    /\ Robot.state r = IDLE
    /\ Robot.path r = []
    /\ Robot.destination r = None
    /\ Robot.next_vertex r = None
    /\ FleetManager.tasks fm3 !! robot_id = None.
Proof.
  intros Hok Hget Hcv Hpath Hhd Hp.
  assert (exists fm1,
             FleetManager.assign_task fm robot_id destination_vertex now
             = Ok (fm1, true)
             /\ fleet_ok fm1 = true
             /\ is_Some (PyDict.get (FleetManager.robots fm1) robot_id))
    as (fm1 & Hassign & Hok1 & Hreg1).
  { unfold FleetManager.assign_task. rewrite Hget, Hcv.
    case_bool_decide.
    - exists fm. rewrite Hget. eauto.
    - rewrite Hpath. simpl.
      destruct p as [|x rest]; [done|]. simpl.
      eexists. split; [reflexivity|]. split.
      + unfold fleet_ok, FleetManager.vertex_positions in *. simpl.
        apply forallb_PyDict_set; [exact Hok|].
        apply (set_destination_ok _ robot destination_vertex (x :: rest));
          [|exact Hp].
        eapply (forallb_PyDict_get (robot_ok _)); eauto.
      + simpl. rewrite PyDict_get_set_eq. eauto. }
  destruct (run_ticks_ok dts fm1 tm Hok1) as (fm2 & tm2 & Hrun & _ & Hkeys).
  assert (Hreg2 : is_Some (PyDict.get (FleetManager.robots fm2) robot_id)).
  { eapply PyDict_get_keys; [|exact Hreg1]. by symmetry. }
  destruct Hreg2 as [r2 Hr2].
  exists fm1, fm2, tm2. eexists _, _.
  split; [exact Hassign|]. split; [exact Hrun|].
  unfold FleetManager.cancel_task. rewrite Hr2.
  split; [reflexivity|]. simpl.
  rewrite PyDict_get_set_eq. split; [reflexivity|].
  repeat split. apply lookup_delete_eq.
Qed.

Lemma C7_assign_then_cancel_witness :
  exists fm1 fm2 tm2 fm3 r,
    @FleetManager.assign_task Example.libs Example.fleet0 "R1" 2 0
    = Ok (fm1, true)
    /\ @run_ticks Example.libs fm1 TrafficManager.init [1%Q; 1%Q]
       = Ok (fm2, tm2)
    /\ FleetManager.cancel_task fm2 "R1" = (fm3, true)
    /\ PyDict.get (FleetManager.robots fm3) "R1" = Some r
    /\ Robot.state r = IDLE
    /\ Robot.path r = []
    /\ Robot.destination r = None
    /\ Robot.next_vertex r = None
    /\ FleetManager.tasks fm3 !! "R1" = None.
Proof.
  apply (@C7_assign_then_cancel Example.libs Example.fleet0 "R1" Example.R1
           0 2 0 [0; 1; 2] [1%Q; 1%Q] TrafficManager.init).
  - reflexivity.
  - reflexivity.
  - reflexivity.
  - vm_compute. reflexivity.
  - reflexivity.
  - vm_compute. reflexivity.
Defined.

(** * Further properties of the sources *)

(** ** Traffic manager: register, release, queries *)

(** X1.  Registering a lane whose key and whose start vertex are both
    absent, and releasing it again as the same robot, gives back the
    occupancy tables as they were. *)
Theorem X1_register_release_round_trip (tm : TrafficManager.t)
    (robot_id : string) (start_vertex end_vertex : Z) :
  TrafficManager.lane_occupancy tm !! (start_vertex, end_vertex) = None ->
  TrafficManager.vertex_occupancy tm !! start_vertex = None ->
  TrafficManager.release_lane
    (TrafficManager.register_lane_usage tm robot_id start_vertex end_vertex).1
    robot_id start_vertex end_vertex
  = (tm, true).
Proof.
  intros Hl Hv. destruct tm as [lanes vertices]. simpl in *.
  unfold TrafficManager.register_lane_usage. simpl. rewrite Hl. simpl.
  unfold TrafficManager.release_lane. simpl.
  rewrite !lookup_insert_eq, String.eqb_refl.
  by rewrite !delete_insert_id.
Qed.

Lemma X1_register_release_round_trip_witness :
  TrafficManager.release_lane
    (TrafficManager.register_lane_usage
       (TrafficManager.mk {[ (1, 2) := "R2" ]} {[ 1 := "R2" ]}) "R1" 0 1).1
    "R1" 0 1
  = (TrafficManager.mk {[ (1, 2) := "R2" ]} {[ 1 := "R2" ]}, true).
Proof.
  apply (X1_register_release_round_trip
           (TrafficManager.mk {[ (1, 2) := "R2" ]} {[ 1 := "R2" ]}) "R1" 0 1).
  - reflexivity.
  - reflexivity.
Defined.

(** X2.  [release_lane] returns [True] exactly when the lane is held by
    the releasing robot; otherwise nothing changes.  When it succeeds the
    lane key is gone, every other lane entry is as before, and the only
    vertex entry that can disappear is the start vertex held by the
    releasing robot itself: entries of other robots are never removed. *)
Theorem X2_release_lane_effect (tm : TrafficManager.t) (robot_id : string)
    (start_vertex end_vertex : Z) :
  let tm' :=
    (TrafficManager.release_lane tm robot_id start_vertex end_vertex).1 in
  let ok :=
    (TrafficManager.release_lane tm robot_id start_vertex end_vertex).2 in
  (ok = true <-> holds_lane tm robot_id (start_vertex, end_vertex))
  /\ (ok = false -> tm' = tm)
  /\ (ok = true ->
      TrafficManager.lane_occupancy tm' !! (start_vertex, end_vertex) = None)
  /\ (forall lane, lane <> (start_vertex, end_vertex) ->
      TrafficManager.lane_occupancy tm' !! lane
      = TrafficManager.lane_occupancy tm !! lane)
  /\ (forall v, v <> start_vertex ->
      TrafficManager.vertex_occupancy tm' !! v
      = TrafficManager.vertex_occupancy tm !! v)
  /\ (forall v other, other <> robot_id ->
      holds_vertex tm other v -> holds_vertex tm' other v).
Proof.
  unfold TrafficManager.release_lane, holds_lane, holds_vertex. simpl.
  destruct (TrafficManager.lane_occupancy tm !! (start_vertex, end_vertex))
    as [h|] eqn:El; simpl.
  2: { repeat split; try done. }
  destruct (String.eqb_spec h robot_id) as [->|Hh]; simpl.
  2: { repeat split; try done. intros [= ->]. done. }
  split; [done|]. split; [done|].
  split; [intros _; apply lookup_delete_eq|].
  split; [intros lane Hl; by apply lookup_delete_ne|].
  destruct (TrafficManager.vertex_occupancy tm !! start_vertex)
    as [hv|] eqn:Ev; simpl; [|done].
  destruct (String.eqb_spec hv robot_id) as [->|Hhv]; simpl; [|done].
  split.
  - intros v Hv. by apply lookup_delete_ne.
  - intros v other Hne Hv. rewrite lookup_delete_ne; [done|].
    intros <-. congruence.
Qed.

(** X3.  A registration, granted or refused, never changes an existing
    lane entry: a held lane keeps its holder. *)
Theorem X3_register_keeps_lane_holders (tm : TrafficManager.t)
    (robot_id holder : string) (start_vertex end_vertex : Z) (lane : Lane) :
  holds_lane tm holder lane ->
  holds_lane
    (TrafficManager.register_lane_usage tm robot_id start_vertex end_vertex).1
    holder lane.
Proof.
  intros Hh.
  destruct (register_result tm robot_id start_vertex end_vertex)
    as [[-> _]|[-> Hsame]]; [exact Hh|].
  unfold holds_lane in *. simpl.
  destruct (decide (lane = (start_vertex, end_vertex))) as [->|Hne].
  - rewrite (Hsame _ Hh). apply lookup_insert_eq.
  - by rewrite lookup_insert_ne.
Qed.

Lemma X3_register_keeps_lane_holders_witness :
  holds_lane
    (TrafficManager.register_lane_usage
       (TrafficManager.mk {[ (0, 1) := "R1" ]} {[ 0 := "R1" ]}) "R2" 0 1).1
    "R1" (0, 1).
Proof.
  apply (X3_register_keeps_lane_holders
           (TrafficManager.mk {[ (0, 1) := "R1" ]} {[ 0 := "R1" ]})
           "R2" "R1" 0 1 (0, 1)).
  reflexivity.
Defined.

(** X4.  For a robot id that is not the empty string, [is_lane_free]
    answers exactly what [register_lane_usage] would return.  For the
    empty id the two disagree on a lane that id holds: the query tests the
    id by truthiness and answers [False], the registration succeeds. *)
Theorem X4_is_lane_free_vs_register (tm : TrafficManager.t)
    (robot_id : string) (start_vertex end_vertex : Z) :
  (robot_id <> "" ->
   TrafficManager.is_lane_free tm start_vertex end_vertex (Some robot_id)
   = (TrafficManager.register_lane_usage tm robot_id start_vertex
        end_vertex).2)
  /\ (holds_lane tm "" (start_vertex, end_vertex) ->
      TrafficManager.is_lane_free tm start_vertex end_vertex (Some "") = false
      /\ (TrafficManager.register_lane_usage tm "" start_vertex end_vertex).2
         = true).
Proof.
  unfold TrafficManager.is_lane_free, TrafficManager.register_lane_usage,
    holds_lane. simpl. split.
  - intros Hne.
    destruct (TrafficManager.lane_occupancy tm !! (start_vertex, end_vertex))
      as [h|]; simpl; [|done].
    destruct (String.eqb_spec robot_id "") as [|_]; [done|]. simpl.
    destruct (String.eqb_spec h robot_id) as [->|Hh]; simpl.
    + by rewrite bool_decide_eq_true_2.
    + rewrite bool_decide_eq_false_2; [done|]. congruence.
  - intros ->. simpl. done.
Qed.

Lemma X4_is_lane_free_vs_register_witness :
  TrafficManager.is_lane_free
    (TrafficManager.mk {[ (0, 1) := "R1" ]} {[ 0 := "R1" ]}) 0 1 (Some "R2")
  = false
  /\ TrafficManager.is_lane_free
       (TrafficManager.mk {[ (0, 1) := "" ]} {[ 0 := "" ]}) 0 1 (Some "")
     = false.
Proof.
  destruct (X4_is_lane_free_vs_register
              (TrafficManager.mk {[ (0, 1) := "R1" ]} {[ 0 := "R1" ]})
              "R2" 0 1) as [Hq _].
  destruct (X4_is_lane_free_vs_register
              (TrafficManager.mk {[ (0, 1) := "" ]} {[ 0 := "" ]})
              "" 0 1) as [_ He].
  split.
  - rewrite Hq; [reflexivity|discriminate].
  - apply He. reflexivity.
Defined.

(** X5.  [register_lane_usage] looks at the lane only.  When the lane is
    free for the robot but its start vertex is held by another robot, the
    vertex query says the vertex is not free, and the registration still
    succeeds and hands the vertex entry over to the registering robot. *)
Theorem X5_register_takes_over_vertex (tm : TrafficManager.t)
    (robot_id other : string) (start_vertex end_vertex : Z) :
  TrafficManager.is_lane_free tm start_vertex end_vertex (Some robot_id)
  = true ->
  holds_vertex tm other start_vertex ->
  other <> robot_id ->
  TrafficManager.is_vertex_free tm start_vertex (Some robot_id) = false
  /\ (TrafficManager.register_lane_usage tm robot_id start_vertex
        end_vertex).2 = true
  /\ holds_vertex
       (TrafficManager.register_lane_usage tm robot_id start_vertex
          end_vertex).1 robot_id start_vertex
  /\ ~ holds_vertex
       (TrafficManager.register_lane_usage tm robot_id start_vertex
          end_vertex).1 other start_vertex.
Proof.
  unfold TrafficManager.is_lane_free, TrafficManager.is_vertex_free,
    TrafficManager.register_lane_usage, holds_vertex. simpl.
  intros Hfree Hv Hne. rewrite Hv.
  assert (Hreg :
    match TrafficManager.lane_occupancy tm !! (start_vertex, end_vertex) with
    | Some holder => negb (String.eqb holder robot_id)
    | None => false
    end = false).
  { destruct (TrafficManager.lane_occupancy tm !! (start_vertex, end_vertex))
      as [h|]; [|done].
    apply andb_true_iff in Hfree as [_ Hh].
    apply bool_decide_eq_true in Hh. simplify_eq.
    by rewrite String.eqb_refl. }
  rewrite Hreg. simpl. rewrite lookup_insert_eq.
  split; [|split; [done|split; [done|congruence]]].
  rewrite bool_decide_eq_false_2; [apply andb_false_r|congruence].
Qed.

Lemma X5_register_takes_over_vertex_witness :
  holds_vertex
    (TrafficManager.register_lane_usage
       (TrafficManager.mk {[ (0, 1) := "R1" ]} {[ 0 := "R1" ]}) "R2" 0 2).1
    "R2" 0.
Proof.
  apply (X5_register_takes_over_vertex
           (TrafficManager.mk {[ (0, 1) := "R1" ]} {[ 0 := "R1" ]})
           "R2" "R1" 0 2).
  - reflexivity.
  - reflexivity.
  - discriminate.
Defined.

Lemma X2_release_lane_effect_witness :
  (TrafficManager.release_lane
     (TrafficManager.mk {[ (0, 1) := "R1" ]} {[ 0 := "R1" ]}) "R2" 0 1).1
  = TrafficManager.mk {[ (0, 1) := "R1" ]} {[ 0 := "R1" ]}.
Proof.
  destruct (X2_release_lane_effect
              (TrafficManager.mk {[ (0, 1) := "R1" ]} {[ 0 := "R1" ]})
              "R2" 0 1) as (_ & Hsame & _).
  apply Hsame. reflexivity.
Defined.

Lemma NoDup_keys_unique {V : Type} (d : list (string * V)) k v1 v2 :
  NoDup (PyDict.keys d) -> (k, v1) ∈ d -> (k, v2) ∈ d -> v1 = v2.
Proof.
  unfold PyDict.keys. induction d as [|[k0 v0] d IH]; simpl.
  - intros _ Hin. by apply elem_of_nil in Hin.
  - intros Hnd H1 H2. apply NoDup_cons in Hnd as [Hk0 Hnd].
    apply elem_of_cons in H1 as [H1|H1]; apply elem_of_cons in H2 as [H2|H2];
      simplify_eq; auto.
    + exfalso. apply Hk0. apply list_elem_of_fmap. by exists (k0, v2).
    + exfalso. apply Hk0. apply list_elem_of_fmap. by exists (k0, v1).
Qed.

(** Each entry of a table rebuilt from the robots comes from a robot of
    the list, or was in the table the fold started from. *)
Lemma rebuilt_entries (robots : list (string * Robot.t)) :
  forall acc : TrafficManager.t,
    let tm' :=
      foldl
        (fun (acc : TrafficManager.t) (item : string * Robot.t) =>
           let '(robot_id, robot) := item in
           match Robot.current_vertex robot with
           | Some cv =>
               let vertices :=
                 <[cv := robot_id]> (TrafficManager.vertex_occupancy acc) in
               match Robot.next_vertex robot with
               | Some nv =>
                   TrafficManager.mk
                     (<[(cv, nv) := robot_id]>
                        (TrafficManager.lane_occupancy acc)) vertices
               | None =>
                   TrafficManager.mk (TrafficManager.lane_occupancy acc)
                     vertices
               end
           | None => acc
           end) acc robots in
    (forall k c n, holds_lane tm' k (c, n) ->
       holds_lane acc k (c, n)
       \/ exists r, (k, r) ∈ robots /\ Robot.current_vertex r = Some c
                    /\ Robot.next_vertex r = Some n)
    /\ (forall k v, holds_vertex tm' k v ->
       holds_vertex acc k v
       \/ exists r, (k, r) ∈ robots /\ Robot.current_vertex r = Some v).
Proof.
  induction robots as [|[k0 r0] robots IH]; intros acc; simpl.
  - split; auto.
  - destruct (IH
      match Robot.current_vertex r0 with
      | Some cv =>
          match Robot.next_vertex r0 with
          | Some nv =>
              TrafficManager.mk
                (<[(cv, nv) := k0]> (TrafficManager.lane_occupancy acc))
                (<[cv := k0]> (TrafficManager.vertex_occupancy acc))
          | None =>
              TrafficManager.mk (TrafficManager.lane_occupancy acc)
                (<[cv := k0]> (TrafficManager.vertex_occupancy acc))
          end
      | None => acc
      end) as [IHl IHv].
    split.
    + intros k c n Hh. destruct (IHl _ _ _ Hh) as [Hacc|(r & Hin & Hc & Hn)].
      * unfold holds_lane in *.
        destruct (Robot.current_vertex r0) as [cv|] eqn:Ec; [|auto].
        destruct (Robot.next_vertex r0) as [nv|] eqn:En; simpl in Hacc; [|auto].
        destruct (decide ((cv, nv) = (c, n))) as [Heq|Hne].
        -- rewrite Heq, lookup_insert_eq in Hacc. simplify_eq.
           right. exists r0. split; [apply list_elem_of_here|done].
        -- rewrite lookup_insert_ne in Hacc by done. auto.
      * right. exists r. split; [by apply list_elem_of_further|done].
    + intros k v Hh. destruct (IHv _ _ Hh) as [Hacc|(r & Hin & Hc)].
      * unfold holds_vertex in *.
        destruct (Robot.current_vertex r0) as [cv|] eqn:Ec; [|auto].
        assert (Hv : <[cv := k0]> (TrafficManager.vertex_occupancy acc) !! v
                     = Some k).
        { by destruct (Robot.next_vertex r0). }
        destruct (decide (cv = v)) as [->|Hne].
        -- rewrite lookup_insert_eq in Hv. simplify_eq.
           right. exists r0. split; [apply list_elem_of_here|done].
        -- rewrite lookup_insert_ne in Hv by done. auto.
      * right. exists r. split; [by apply list_elem_of_further|done].
Qed.

(** An entry survives the rest of the rebuild unless a later robot of the
    list writes the same key. *)
Lemma rebuilt_vertex_kept (robots : list (string * Robot.t)) :
  forall (acc : TrafficManager.t) k c,
    holds_vertex acc k c ->
    holds_vertex (foldl rebuild_step acc robots) k c
    \/ exists (j : nat) k' r',
         robots !! j = Some (k', r') /\ Robot.current_vertex r' = Some c.
Proof.
  induction robots as [|[k0 r0] robots IH]; intros acc k c Hh; simpl.
  - by left.
  - destruct (decide (Robot.current_vertex r0 = Some c)) as [Hc|Hc].
    + right. by exists 0%nat, k0, r0.
    + destruct (IH (rebuild_step acc (k0, r0)) k c)
        as [Hl|(j & k' & r' & Hj & Hr)].
      * unfold holds_vertex in *. simpl.
        destruct (Robot.current_vertex r0) as [cv|]; [|done].
        assert (cv <> c) by congruence.
        destruct (Robot.next_vertex r0); simpl; by rewrite lookup_insert_ne.
      * by left.
      * right. by exists (S j), k', r'.
Qed.

Lemma rebuilt_lane_kept (robots : list (string * Robot.t)) :
  forall (acc : TrafficManager.t) k c n,
    holds_lane acc k (c, n) ->
    holds_lane (foldl rebuild_step acc robots) k (c, n)
    \/ exists (j : nat) k' r',
         robots !! j = Some (k', r') /\ Robot.current_vertex r' = Some c
         /\ Robot.next_vertex r' = Some n.
Proof.
  induction robots as [|[k0 r0] robots IH]; intros acc k c n Hh; simpl.
  - by left.
  - destruct (decide (Robot.current_vertex r0 = Some c
                      /\ Robot.next_vertex r0 = Some n)) as [[Hc Hn]|Hc].
    + right. by exists 0%nat, k0, r0.
    + destruct (IH (rebuild_step acc (k0, r0)) k c n)
        as [Hl|(j & k' & r' & Hj & Hr)].
      * unfold holds_lane in *. simpl.
        destruct (Robot.current_vertex r0) as [cv|]; [|done].
        destruct (Robot.next_vertex r0) as [nv|]; simpl; [|done].
        rewrite lookup_insert_ne; [done|]. intros [= -> ->]. by apply Hc.
      * by left.
      * right. by exists (S j), k', r'.
Qed.

(** The entry a robot writes is there at the end unless a later robot of
    the list writes the same key. *)
Lemma rebuilt_vertex_last (robots : list (string * Robot.t)) :
  forall (acc : TrafficManager.t) (i : nat) k r c,
    robots !! i = Some (k, r) ->
    Robot.current_vertex r = Some c ->
    holds_vertex (foldl rebuild_step acc robots) k c
    \/ exists (j : nat) k' r',
         (i < j)%nat /\ robots !! j = Some (k', r')
         /\ Robot.current_vertex r' = Some c.
Proof.
  induction robots as [|[k0 r0] robots IH]; intros acc i k r c Hi Hc;
    [done|].
  destruct i as [|i]; simpl in *.
  - simplify_eq.
    destruct (rebuilt_vertex_kept robots (rebuild_step acc (k, r)) k c)
      as [Hl|(j & k' & r' & Hj & Hr)].
    + unfold holds_vertex. simpl. rewrite Hc.
      destruct (Robot.next_vertex r); simpl; by rewrite lookup_insert_eq.
    + by left.
    + right. exists (S j), k', r'. split; [lia|done].
  - destruct (IH (rebuild_step acc (k0, r0)) i k r c Hi Hc)
      as [Hl|(j & k' & r' & Hlt & Hj & Hr)].
    + by left.
    + right. exists (S j), k', r'. split; [lia|done].
Qed.

Lemma rebuilt_lane_last (robots : list (string * Robot.t)) :
  forall (acc : TrafficManager.t) (i : nat) k r c n,
    robots !! i = Some (k, r) ->
    Robot.current_vertex r = Some c ->
    Robot.next_vertex r = Some n ->
    holds_lane (foldl rebuild_step acc robots) k (c, n)
    \/ exists (j : nat) k' r',
         (i < j)%nat /\ robots !! j = Some (k', r')
         /\ Robot.current_vertex r' = Some c
         /\ Robot.next_vertex r' = Some n.
Proof.
  induction robots as [|[k0 r0] robots IH]; intros acc i k r c n Hi Hc Hn;
    [done|].
  destruct i as [|i]; simpl in *.
  - simplify_eq.
    destruct (rebuilt_lane_kept robots (rebuild_step acc (k, r)) k c n)
      as [Hl|(j & k' & r' & Hj & Hr)].
    + unfold holds_lane. simpl. rewrite Hc, Hn. simpl.
      by rewrite lookup_insert_eq.
    + by left.
    + right. exists (S j), k', r'. split; [lia|done].
  - destruct (IH (rebuild_step acc (k0, r0)) i k r c n Hi Hc Hn)
      as [Hl|(j & k' & r' & Hlt & Hj & Hr)].
    + by left.
    + right. exists (S j), k', r'. split; [lia|done].
Qed.

(** X6.  [update_from_robot_positions] rebuilds both tables from the
    robots alone.  Every lane entry is the lane from the current to the
    next vertex of a robot listed under that id, every vertex entry the
    current vertex of such a robot.  Conversely every robot gets its
    entries: the lane (current vertex, next vertex) of a robot that has
    both is held by it, and the current vertex of a robot that has one is
    held by it, unless a robot later in the dict writes the same key, the
    last writer winning.  With the ids of a dict (no id twice) each robot
    therefore holds at most one lane and at most one vertex. *)
Theorem X6_rebuilt_tables_one_slot (tm : TrafficManager.t)
    (robots : list (string * Robot.t)) :
  NoDup (PyDict.keys robots) ->
  let tm' := TrafficManager.update_from_robot_positions tm robots in
  (forall k c n, holds_lane tm' k (c, n) ->
     exists r, (k, r) ∈ robots /\ Robot.current_vertex r = Some c
               /\ Robot.next_vertex r = Some n)
  /\ (forall k v, holds_vertex tm' k v ->
     exists r, (k, r) ∈ robots /\ Robot.current_vertex r = Some v)
  /\ (forall (i : nat) k r c n,
        robots !! i = Some (k, r) ->
        Robot.current_vertex r = Some c ->
        Robot.next_vertex r = Some n ->
        holds_lane tm' k (c, n)
        \/ exists (j : nat) k' r',
             (i < j)%nat /\ robots !! j = Some (k', r')
             /\ Robot.current_vertex r' = Some c
             /\ Robot.next_vertex r' = Some n)
  /\ (forall (i : nat) k r c,
        robots !! i = Some (k, r) ->
        Robot.current_vertex r = Some c ->
        holds_vertex tm' k c
        \/ exists (j : nat) k' r',
             (i < j)%nat /\ robots !! j = Some (k', r')
             /\ Robot.current_vertex r' = Some c)
  /\ one_slot_per_agent tm'.
Proof.
  intros Hnd tm'. subst tm'. unfold TrafficManager.update_from_robot_positions.
  destruct (rebuilt_entries robots (TrafficManager.mk ∅ ∅)) as [Hl Hv].
  assert (Hl' : forall k c n,
    holds_lane (TrafficManager.update_from_robot_positions tm robots) k (c, n) ->
    exists r, (k, r) ∈ robots /\ Robot.current_vertex r = Some c
              /\ Robot.next_vertex r = Some n).
  { intros k c n Hh. destruct (Hl _ _ _ Hh) as [Hacc|Hr]; [|exact Hr].
    unfold holds_lane in Hacc. simpl in Hacc. by rewrite lookup_empty in Hacc. }
  assert (Hv' : forall k v,
    holds_vertex (TrafficManager.update_from_robot_positions tm robots) k v ->
    exists r, (k, r) ∈ robots /\ Robot.current_vertex r = Some v).
  { intros k v Hh. destruct (Hv _ _ Hh) as [Hacc|Hr]; [|exact Hr].
    unfold holds_vertex in Hacc. simpl in Hacc.
    by rewrite lookup_empty in Hacc. }
  split; [exact Hl'|]. split; [exact Hv'|].
  split; [intros i k r c n; apply (rebuilt_lane_last robots)|].
  split; [intros i k r c; apply (rebuilt_vertex_last robots)|].
  split.
  - intros k [c1 n1] [c2 n2] H1 H2.
    destruct (Hl' _ _ _ H1) as (r1 & Hin1 & Hc1 & Hn1).
    destruct (Hl' _ _ _ H2) as (r2 & Hin2 & Hc2 & Hn2).
    assert (r1 = r2) as -> by (eapply NoDup_keys_unique; eauto).
    congruence.
  - intros k v1 v2 H1 H2.
    destruct (Hv' _ _ H1) as (r1 & Hin1 & Hc1).
    destruct (Hv' _ _ H2) as (r2 & Hin2 & Hc2).
    assert (r1 = r2) as -> by (eapply NoDup_keys_unique; eauto).
    congruence.
Qed.

Lemma X6_rebuilt_tables_one_slot_witness :
  holds_lane
    (TrafficManager.update_from_robot_positions TrafficManager.init
       [("R1", Example.R1_near); ("R2", Example.R2_to_1)])
    "R2" (2, 1)
  /\ one_slot_per_agent
       (TrafficManager.update_from_robot_positions TrafficManager.init
          [("R1", Example.R1_near); ("R2", Example.R2_to_1)]).
Proof.
  destruct (X6_rebuilt_tables_one_slot TrafficManager.init
              [("R1", Example.R1_near); ("R2", Example.R2_to_1)])
    as (_ & _ & Hlane & _ & Hone).
  - apply (bool_decide_unpack _). vm_compute. exact I.
  - split; [|exact Hone].
    destruct (Hlane 1%nat "R2" Example.R2_to_1 2 1)
      as [Hh|(j & k' & r' & Hlt & Hj & _)];
      [reflexivity|reflexivity|reflexivity|exact Hh|].
    destruct j as [|[|j]]; [lia|lia|discriminate Hj].
Defined.

(** ** Fleet manager: the registry *)

Lemma PyDict_get_elem_of {V : Type} (d : list (string * V)) k v :
  PyDict.get d k = Some v -> (k, v) ∈ d.
Proof.
  induction d as [|[k0 v0] d IH]; simpl; [done|].
  destruct (String.eqb_spec k0 k) as [->|Hne].
  - intros [= ->]. apply list_elem_of_here.
  - intros Hg. apply list_elem_of_further. auto.
Qed.

Lemma PyDict_get_None_keys {V : Type} (d : list (string * V)) k :
  PyDict.get d k = None <-> k ∉ PyDict.keys d.
Proof.
  unfold PyDict.keys. induction d as [|[k0 v0] d IH]; simpl.
  - split; [intros _; apply not_elem_of_nil|done].
  - rewrite not_elem_of_cons. destruct (String.eqb_spec k0 k) as [->|Hne].
    + split; [done|]. intros [Hk _]. done.
    + rewrite IH. split; [intros Hk; split; [congruence|done]|by intros [_ Hk]].
Qed.

Lemma PyDict_elem_of_set {V : Type} (d : list (string * V)) k v k' v' :
  (k', v') ∈ PyDict.set d k v -> (k', v') = (k, v) \/ (k', v') ∈ d.
Proof.
  induction d as [|[k0 v0] d IH]; simpl.
  - intros Hin. apply list_elem_of_singleton in Hin. auto.
  - destruct (String.eqb_spec k0 k) as [->|Hne]; intros Hin;
      apply elem_of_cons in Hin as [Hin|Hin].
    + auto.
    + right. by apply list_elem_of_further.
    + right. rewrite Hin. apply list_elem_of_here.
    + destruct (IH Hin) as [Heq|Hd]; [auto|].
      right. by apply list_elem_of_further.
Qed.

Lemma PyDict_keys_set_absent {V : Type} (d : list (string * V)) k v :
  PyDict.get d k = None ->
  PyDict.keys (PyDict.set d k v) = PyDict.keys d ++ [k].
Proof.
  unfold PyDict.keys. induction d as [|[k0 v0] d IH]; simpl; [done|].
  destruct (String.eqb_spec k0 k) as [->|Hne]; [done|].
  intros Hg. simpl. f_equal. by apply IH.
Qed.

Lemma PyDict_NoDup_set {V : Type} (d : list (string * V)) k v :
  NoDup (PyDict.keys d) -> NoDup (PyDict.keys (PyDict.set d k v)).
Proof.
  intros Hnd. destruct (PyDict.get d k) as [v0|] eqn:Hg.
  - rewrite PyDict_keys_set_present; [done|].
    unfold PyDict.has. by rewrite Hg.
  - rewrite PyDict_keys_set_absent by done.
    apply NoDup_app. split; [done|]. split; [|apply NoDup_singleton].
    intros x Hx Hk. apply list_elem_of_singleton in Hk as ->.
    by apply PyDict_get_None_keys in Hg.
Qed.

Lemma PyDict_get_del_ne {V : Type} (d : list (string * V)) k k' :
  k <> k' -> PyDict.get (PyDict.del d k) k' = PyDict.get d k'.
Proof.
  intros Hne. induction d as [|[k0 v0] d IH]; simpl; [done|].
  destruct (String.eqb_spec k0 k) as [->|Hk]; simpl.
  - destruct (String.eqb_spec k k'); [done|done].
  - by rewrite IH.
Qed.

Lemma PyDict_get_del_eq {V : Type} (d : list (string * V)) k :
  NoDup (PyDict.keys d) -> PyDict.get (PyDict.del d k) k = None.
Proof.
  unfold PyDict.keys. induction d as [|[k0 v0] d IH]; simpl; [done|].
  intros Hnd. apply NoDup_cons in Hnd as [Hk0 Hnd].
  destruct (String.eqb_spec k0 k) as [->|Hk]; simpl.
  - by apply PyDict_get_None_keys.
  - destruct (String.eqb_spec k0 k); [done|]. by apply IH.
Qed.

Lemma PyDict_elem_of_del {V : Type} (d : list (string * V)) k x :
  x ∈ PyDict.del d k -> x ∈ d.
Proof.
  induction d as [|[k0 v0] d IH]; simpl; [done|].
  destruct (String.eqb k0 k); intros Hin.
  - by apply list_elem_of_further.
  - apply elem_of_cons in Hin as [->|Hin];
      [apply list_elem_of_here|apply list_elem_of_further; auto].
Qed.

Lemma PyDict_NoDup_del {V : Type} (d : list (string * V)) k :
  NoDup (PyDict.keys d) -> NoDup (PyDict.keys (PyDict.del d k)).
Proof.
  unfold PyDict.keys. induction d as [|[k0 v0] d IH]; simpl; [done|].
  intros Hnd. apply NoDup_cons in Hnd as [Hk0 Hnd].
  destruct (String.eqb k0 k); [done|]. simpl.
  apply NoDup_cons. split; [|by apply IH].
  intros Hin. apply Hk0. apply list_elem_of_fmap in Hin as ([k1 v1] & -> & Hin).
  apply list_elem_of_fmap. exists (k1, v1). split; [done|].
  by eapply PyDict_elem_of_del.
Qed.

Lemma PyDict_del_set_absent {V : Type} (d : list (string * V)) k v :
  PyDict.get d k = None -> PyDict.del (PyDict.set d k v) k = d.
Proof.
  induction d as [|[k0 v0] d IH]; simpl.
  - by rewrite String.eqb_refl.
  - destruct (String.eqb_spec k0 k) as [->|Hne]; [done|].
    intros Hg. simpl. destruct (String.eqb_spec k0 k); [done|].
    by rewrite IH.
Qed.

Lemma PyDict_set_set {V : Type} (d : list (string * V)) k v v' :
  PyDict.set (PyDict.set d k v) k v' = PyDict.set d k v'.
Proof.
  induction d as [|[k0 v0] d IH]; simpl.
  - by rewrite String.eqb_refl.
  - destruct (String.eqb_spec k0 k) as [->|Hne]; simpl.
    + by rewrite String.eqb_refl.
    + destruct (String.eqb_spec k0 k); [done|]. by rewrite IH.
Qed.

(** X7.  [remove_robot] of an id that is not registered returns [False]
    and changes nothing.  For a registered id (ids being the keys of a
    dict) it returns [True]; afterwards the id has neither a robot nor a
    task record, and every other robot and task record is as before. *)
Theorem X7_remove_robot_effect (fm : FleetManager.t) (robot_id : string) :
  (PyDict.get (FleetManager.robots fm) robot_id = None ->
   FleetManager.remove_robot fm robot_id = (fm, false))
  /\ (NoDup (PyDict.keys (FleetManager.robots fm)) ->
      is_Some (PyDict.get (FleetManager.robots fm) robot_id) ->
      exists fm',
        FleetManager.remove_robot fm robot_id = (fm', true)
        /\ PyDict.get (FleetManager.robots fm') robot_id = None
        /\ FleetManager.tasks fm' !! robot_id = None
        /\ (forall k, k <> robot_id ->
            PyDict.get (FleetManager.robots fm') k
            = PyDict.get (FleetManager.robots fm) k
            /\ FleetManager.tasks fm' !! k = FleetManager.tasks fm !! k)).
Proof.
  unfold FleetManager.remove_robot, PyDict.has. split.
  - intros ->. reflexivity.
  - intros Hnd [r Hr]. rewrite Hr. eexists. split; [reflexivity|]. simpl.
    split; [by apply PyDict_get_del_eq|].
    split; [apply lookup_delete_eq|].
    intros k Hk. split; [by apply PyDict_get_del_ne|by apply lookup_delete_ne].
Qed.

Lemma X7_remove_robot_effect_witness :
  FleetManager.remove_robot Example.fleet0 "R7" = (Example.fleet0, false)
  /\ exists fm',
       FleetManager.remove_robot Example.fleet0 "R1" = (fm', true)
       /\ PyDict.get (FleetManager.robots fm') "R1" = None.
Proof.
  destruct (X7_remove_robot_effect Example.fleet0 "R7") as [Habsent _].
  destruct (X7_remove_robot_effect Example.fleet0 "R1") as [_ Hpresent].
  split.
  - apply Habsent. reflexivity.
  - destruct Hpresent as (fm' & Hrm & Hget & _).
    + apply (bool_decide_unpack _). vm_compute. exact I.
    + eexists. reflexivity.
    + exists fm'. split; assumption.
Defined.

(** X8.  Adding a robot under an id that has neither a robot nor a task
    record, and removing that id again, gives back the fleet manager as it
    was. *)
Theorem X8_add_remove_round_trip (fm : FleetManager.t) (robot : Robot.t) :
  PyDict.get (FleetManager.robots fm) (Robot.id robot) = None ->
  FleetManager.tasks fm !! Robot.id robot = None ->
  FleetManager.remove_robot (FleetManager.add_robot fm robot) (Robot.id robot)
  = (fm, true).
Proof.
  intros Hr Ht. destruct fm as [nav robots tasks]. simpl in *.
  unfold FleetManager.remove_robot, FleetManager.add_robot, PyDict.has. simpl.
  rewrite PyDict_get_set_eq. simpl.
  rewrite PyDict_del_set_absent by done. by rewrite delete_id.
Qed.

Lemma X8_add_remove_round_trip_witness :
  FleetManager.remove_robot
    (FleetManager.add_robot Example.fleet0 Example.R2) "R2"
  = (Example.fleet0, true).
Proof.
  apply (X8_add_remove_round_trip Example.fleet0 Example.R2).
  - reflexivity.
  - reflexivity.
Defined.

(** X9.  [cancel_task] of an unknown id returns [False] and changes
    nothing.  For a registered id it keeps the robot's id, position,
    current vertex, speed and battery, leaves every other robot and task
    record alone, keeps the order of the registry, and a second call
    changes nothing more. *)
Theorem X9_cancel_task_frame_idempotent (fm : FleetManager.t)
    (robot_id : string) :
  (PyDict.get (FleetManager.robots fm) robot_id = None ->
   FleetManager.cancel_task fm robot_id = (fm, false))
  /\ (forall robot,
      PyDict.get (FleetManager.robots fm) robot_id = Some robot ->
      exists fm' robot',
        FleetManager.cancel_task fm robot_id = (fm', true)
        /\ PyDict.get (FleetManager.robots fm') robot_id = Some robot'
        /\ Robot.id robot' = Robot.id robot
        /\ Robot.position robot' = Robot.position robot
        /\ Robot.current_vertex robot' = Robot.current_vertex robot
        /\ Robot.speed robot' = Robot.speed robot
        /\ Robot.battery robot' = Robot.battery robot
        /\ PyDict.keys (FleetManager.robots fm')
           = PyDict.keys (FleetManager.robots fm)
        /\ (forall k, k <> robot_id ->
            PyDict.get (FleetManager.robots fm') k
            = PyDict.get (FleetManager.robots fm) k
            /\ FleetManager.tasks fm' !! k = FleetManager.tasks fm !! k)
        /\ FleetManager.cancel_task fm' robot_id = (fm', true)).
Proof.
  unfold FleetManager.cancel_task. split.
  - intros ->. reflexivity.
  - intros robot Hr. rewrite Hr. eexists _, _. split; [reflexivity|]. simpl.
    rewrite PyDict_get_set_eq. split; [reflexivity|].
    do 5 (split; [reflexivity|]).
    split.
    { apply PyDict_keys_set_present. unfold PyDict.has. by rewrite Hr. }
    split.
    { intros k Hk. split; [apply PyDict_get_set_ne; congruence|].
      by apply lookup_delete_ne. }
    by rewrite PyDict_set_set, delete_delete_eq.
Qed.

Lemma X9_cancel_task_frame_idempotent_witness :
  exists fm',
    FleetManager.cancel_task Example.fleet0 "R1" = (fm', true)
    /\ FleetManager.cancel_task fm' "R1" = (fm', true).
Proof.
  destruct (X9_cancel_task_frame_idempotent Example.fleet0 "R1") as [_ Hk].
  destruct (Hk Example.R1) as (fm' & robot' & H1 & _ & _ & _ & _ & _ & _ & _ & _ & H2).
  - reflexivity.
  - exists fm'. split; assumption.
Defined.

(** X10.  Whatever [assign_task] returns, it leaves the graph, the order
    of the registry, every other robot and every other task record as they
    were, and of the robot itself it never changes the id, position,
    current vertex, speed or battery.  When it returns [False] nothing at
    all has changed. *)
Theorem X10_assign_task_frame `{ExternalLibs} (fm fm' : FleetManager.t)
    (robot_id : string) (destination_vertex : Z) (now : Q) (b : bool) :
  FleetManager.assign_task fm robot_id destination_vertex now = Ok (fm', b) ->
  FleetManager.nav_graph fm' = FleetManager.nav_graph fm
  /\ PyDict.keys (FleetManager.robots fm')
     = PyDict.keys (FleetManager.robots fm)
  /\ (forall k, k <> robot_id ->
      PyDict.get (FleetManager.robots fm') k
      = PyDict.get (FleetManager.robots fm) k
      /\ FleetManager.tasks fm' !! k = FleetManager.tasks fm !! k)
  /\ (forall robot,
      PyDict.get (FleetManager.robots fm) robot_id = Some robot ->
      exists robot',
        PyDict.get (FleetManager.robots fm') robot_id = Some robot'
        /\ Robot.id robot' = Robot.id robot
        /\ Robot.position robot' = Robot.position robot
        /\ Robot.current_vertex robot' = Robot.current_vertex robot
        /\ Robot.speed robot' = Robot.speed robot
        /\ Robot.battery robot' = Robot.battery robot)
  /\ (b = false -> fm' = fm).
Proof.
  unfold FleetManager.assign_task. intros Ha.
  destruct (PyDict.get (FleetManager.robots fm) robot_id) as [robot|] eqn:Hr.
  2: { simplify_eq. repeat split; try done. }
  case_bool_decide.
  { simplify_eq. repeat split; try done. intros r [= <-]. eauto 10. }
  destruct (Robot.current_vertex robot) as [cv|] eqn:Hcv; [|done].
  apply bind_Ok in Ha as (path & Hpath & Ha).
  destruct (FleetManager.no_path path) eqn:Hno.
  { simplify_eq. repeat split; try done. intros r [= <-]. eauto 10. }
  simplify_eq. simpl.
  split; [done|]. split.
  { apply PyDict_keys_set_present. unfold PyDict.has. by rewrite Hr. }
  split.
  { intros k Hk. split; [apply PyDict_get_set_ne; congruence|].
    by apply lookup_insert_ne. }
  split; [|done].
  intros r [= <-]. rewrite PyDict_get_set_eq. eexists. split; [reflexivity|].
  unfold Robot.set_destination.
  destruct (default [] path) as [|x [|p1 rest]]; simpl; by rewrite ?Hcv.
Qed.

Lemma X10_assign_task_frame_witness :
  exists fm',
    @FleetManager.assign_task Example.libs Example.fleet0 "R1" 2 0
    = Ok (fm', true)
    /\ PyDict.keys (FleetManager.robots fm') = ["R1"].
Proof.
  destruct (@FleetManager.assign_task Example.libs Example.fleet0 "R1" 2 0)
    as [[fm' b]|e] eqn:Ha; [|vm_compute in Ha; discriminate].
  assert (b = true) as ->.
  { vm_compute in Ha. injection Ha as _ <-. reflexivity. }
  exists fm'. split; [reflexivity|].
  destruct (@X10_assign_task_frame Example.libs Example.fleet0 fm' "R1" 2 0
              true Ha) as (_ & Hkeys & _).
  rewrite Hkeys. reflexivity.
Defined.

(** X11.  [get_path] only turns the library's "no path" into [None].  When
    the library reports an unknown node instead (a destination that is not
    a vertex of the graph), that exception escapes from [get_path] and
    from [assign_task]: the caller gets no [False]. *)
Theorem X11_assign_task_unknown_node `{ExternalLibs} (fm : FleetManager.t)
    (robot_id : string) (robot : Robot.t) (cv destination_vertex : Z)
    (now : Q) :
  PyDict.get (FleetManager.robots fm) robot_id = Some robot ->
  Robot.current_vertex robot = Some cv ->
  cv <> destination_vertex ->
  nx_shortest_path (NavGraph.G (FleetManager.nav_graph fm)) cv
    destination_vertex = NxNodeNotFound ->
  NavGraph.get_path (FleetManager.nav_graph fm) cv destination_vertex
  = Raise NodeNotFound
  /\ FleetManager.assign_task fm robot_id destination_vertex now
     = Raise NodeNotFound.
Proof.
  intros Hr Hcv Hne Hnx. unfold FleetManager.assign_task, NavGraph.get_path.
  rewrite Hr, Hcv, Hnx, bool_decide_eq_false_2 by congruence. done.
Qed.

Lemma X11_assign_task_unknown_node_witness :
  @FleetManager.assign_task Example.libs Example.fleet0 "R1" 9 0
  = Raise NodeNotFound.
Proof.
  apply (@X11_assign_task_unknown_node Example.libs Example.fleet0 "R1"
           Example.R1 0 9 0).
  - reflexivity.
  - reflexivity.
  - discriminate.
  - vm_compute. reflexivity.
Defined.

(** ** The registry in every reachable state *)

Lemma update_one_id `{ExternalLibs} fm dt vp robot_id robot tm robot' tm' info :
  FleetManager.update_one fm dt vp robot_id robot tm = Ok (robot', tm', info) ->
  Robot.id robot' = Robot.id robot.
Proof.
  unfold FleetManager.update_one. intros Hu.
  apply bind_Ok in Hu as ([r1 i1] & Hupd & Hu). simpl in Hu.
  apply update_frame in Hupd as (Hid & _).
  assert (robot' = FleetManager.on_vertex_change fm
                     (Robot.current_vertex robot) i1 r1) as ->.
  { repeat case_match; by simplify_eq. }
  unfold FleetManager.on_vertex_change. repeat case_match; done.
Qed.

Lemma update_loop_keys `{ExternalLibs} fm dt vp items :
  forall tm ups items' tm' ups',
    FleetManager.update_loop fm dt vp items tm ups = Ok (items', tm', ups') ->
    PyDict.keys items' = PyDict.keys items.
Proof.
  intros tm ups items' tm' ups' Hl. apply update_loop_pointwise in Hl.
  unfold PyDict.keys. induction Hl as [|[k r] [k' r'] l l' [Hk _] _ IH];
    simpl in *; [done|]. f_equal; [by symmetry|exact IH].
Qed.

Lemma update_loop_ids `{ExternalLibs} fm dt vp items :
  forall tm ups items' tm' ups',
    FleetManager.update_loop fm dt vp items tm ups = Ok (items', tm', ups') ->
    (forall k r, (k, r) ∈ items -> Robot.id r = k) ->
    forall k r, (k, r) ∈ items' -> Robot.id r = k.
Proof.
  intros tm ups items' tm' ups' Hl Hids k r Hin.
  apply update_loop_pointwise in Hl.
  apply list_elem_of_lookup in Hin as [i Hi].
  destruct (Forall2_lookup_r _ _ _ _ _ Hl Hi)
    as ([k0 r0] & Hi0 & Hk & tm0 & tm1 & info & Hone).
  simpl in *. subst k0. apply update_one_id in Hone. rewrite Hone.
  apply Hids. apply list_elem_of_lookup. eauto.
Qed.

Lemma step_registry_ok `{ExternalLibs} (s s' : System.t) (op : System.Op) :
  registry_ok (System.fleet s) ->
  System.step s op = Ok s' ->
  registry_ok (System.fleet s').
Proof.
  intros (Hnd & Hids & Htasks) Hstep. unfold registry_ok.
  destruct op; simpl in Hstep.
  - (* add_robot *)
    simplify_eq. simpl. split; [by apply PyDict_NoDup_set|]. split.
    + intros k r Hin. apply PyDict_elem_of_set in Hin as [[= -> ->]|Hin]; auto.
    + intros k Hk. destruct (decide (Robot.id robot = k)) as [<-|Hne].
      * rewrite PyDict_get_set_eq. eauto.
      * rewrite PyDict_get_set_ne by done. auto.
  - (* remove_robot *)
    simplify_eq. unfold FleetManager.remove_robot.
    destruct (PyDict.has _ _); simpl; [|done].
    split; [by apply PyDict_NoDup_del|]. split.
    + intros k r Hin. apply Hids. by eapply PyDict_elem_of_del.
    + intros k Hk. destruct (decide (robot_id = k)) as [<-|Hne].
      * rewrite lookup_delete_eq in Hk. by destruct Hk.
      * rewrite lookup_delete_ne in Hk by done.
        rewrite PyDict_get_del_ne by done. auto.
  - (* assign_task *)
    apply bind_Ok in Hstep as ([fm b] & Ha & Hstep). simplify_eq. simpl.
    unfold FleetManager.assign_task in Ha.
    destruct (PyDict.get (FleetManager.robots (System.fleet s)) robot_id)
      as [robot|] eqn:Hr; [|by simplify_eq].
    case_bool_decide; [by simplify_eq|].
    destruct (Robot.current_vertex robot) as [cv|] eqn:Hcv; [|done].
    apply bind_Ok in Ha as (path & Hpath & Ha).
    destruct (FleetManager.no_path path); [by simplify_eq|].
    simplify_eq. simpl. split; [by apply PyDict_NoDup_set|]. split.
    + intros k r Hin. apply PyDict_elem_of_set in Hin as [[= -> ->]|Hin]; auto.
      apply PyDict_get_elem_of in Hr. apply Hids in Hr.
      unfold Robot.set_destination.
      by destruct (default [] path) as [|x [|p1 rest]].
    + intros k Hk. destruct (decide (robot_id = k)) as [<-|Hne].
      * rewrite PyDict_get_set_eq. eauto.
      * rewrite lookup_insert_ne in Hk by done.
        rewrite PyDict_get_set_ne by done. auto.
  - (* cancel_task *)
    simplify_eq. unfold FleetManager.cancel_task.
    destruct (PyDict.get (FleetManager.robots (System.fleet s)) robot_id)
      as [robot|] eqn:Hr; simpl; [|done].
    split; [by apply PyDict_NoDup_set|]. split.
    + intros k r Hin. apply PyDict_elem_of_set in Hin as [[= -> ->]|Hin]; auto.
      apply PyDict_get_elem_of in Hr. by apply Hids in Hr.
    + intros k Hk. destruct (decide (robot_id = k)) as [<-|Hne].
      * rewrite lookup_delete_eq in Hk. by destruct Hk.
      * rewrite lookup_delete_ne in Hk by done.
        rewrite PyDict_get_set_ne by done. auto.
  - (* update_robots *)
    apply bind_Ok in Hstep as ([[fm tm] ups] & Hu & Hstep). simplify_eq.
    simpl. unfold FleetManager.update_robots in Hu.
    apply bind_Ok in Hu as ([[items tm1] ups1] & Hl & Hu). simplify_eq.
    simpl. pose proof (update_loop_keys _ _ _ _ _ _ _ _ _ Hl) as Hkeys.
    split; [by rewrite Hkeys|]. split.
    + eapply update_loop_ids; eauto.
    + intros k Hk. eapply PyDict_get_keys; [symmetry; exact Hkeys|]. auto.
  - by simplify_eq.
  - by simplify_eq.
  - by simplify_eq.
Qed.

(** X12.  In every state the operations reach from a fresh pair of
    managers, the registry is a well-formed dict: no id occurs twice,
    every robot is filed under its own [id], and a task record exists only
    for a registered id. *)
Theorem X12_registry_invariant `{ExternalLibs} (nav_graph : NavGraph.t)
    (s : System.t) :
  System.reachable nav_graph s -> registry_ok (System.fleet s).
Proof.
  intros [ops Hrun].
  assert (Hinit : registry_ok (System.fleet (System.init nav_graph))).
  { split; [apply NoDup_nil_2|]. split.
    - intros k r Hin. by apply elem_of_nil in Hin.
    - intros k [t Ht]. simpl in Ht. by rewrite lookup_empty in Ht. }
  revert Hinit Hrun. generalize (System.init nav_graph).
  induction ops as [|op ops IH]; simpl; intros s0 Hok Hrun.
  - by simplify_eq.
  - apply bind_Ok in Hrun as (s1 & Hstep & Hrun).
    eapply IH; [|exact Hrun]. eapply step_registry_ok; eauto.
Qed.

Lemma X12_registry_invariant_witness :
  registry_ok (System.fleet (Scenario.after Scenario.to_charger)).
Proof.
  apply (@X12_registry_invariant Example.libs Example.graph).
  apply scenario_reachable. vm_compute. reflexivity.
Defined.

(** ** Robot: the state machine of one tick *)

(** X13.  A tick of a robot that is not MOVING never raises and never
    moves it: position, current vertex, destination, path and next vertex
    stay as they are, and the returned dict has neither a position nor a
    current vertex.  IDLE and COMPLETED stay; WAITING turns MOVING exactly
    when the lane to the next vertex is not held by another robot;
    CHARGING turns IDLE exactly when the battery has reached 100. *)
Theorem X13_tick_of_resting_robot `{ExternalLibs} (dt : Q) (vp : gmap Z Pos)
    (occ : gmap Lane string) (r : Robot.t) :
  Robot.state r <> MOVING ->
  exists r' info,
    Robot.update dt vp occ r = Ok (r', info)
    /\ Robot.position r' = Robot.position r
    /\ Robot.current_vertex r' = Robot.current_vertex r
    /\ Robot.destination r' = Robot.destination r
    /\ Robot.path r' = Robot.path r
    /\ Robot.next_vertex r' = Robot.next_vertex r
    /\ info_position info = None
    /\ info_current_vertex info = None
    /\ match Robot.state r with
       | IDLE => Robot.state r' = IDLE
       | COMPLETED => Robot.state r' = COMPLETED
       | WAITING =>
           Robot.state r' =
             if Robot.lane_held_by_other occ (Robot.current_vertex r)
                  (Robot.next_vertex r) (Robot.id r)
             then WAITING else MOVING
       | CHARGING =>
           Robot.state r' =
             if Qle_bool 100 (Robot.battery r') then IDLE else CHARGING
       | MOVING => True
       end.
Proof.
  intros Hs. unfold Robot.update. simpl.
  destruct (Robot.state r) eqn:Est; try done.
  - eexists _, _. split; [reflexivity|]. simpl. by rewrite Est.
  - eexists _, _. split; [reflexivity|].
    destruct (Robot.lane_held_by_other _ _ _ _); simpl; by rewrite ?Est.
  - eexists _, _. split; [reflexivity|].
    destruct (Qle_bool _ _) eqn:Eb; simpl; by rewrite ?Eb, ?Est.
  - eexists _, _. split; [reflexivity|]. simpl. by rewrite Est.
Qed.

Lemma X13_tick_of_resting_robot_witness :
  exists r' info,
    @Robot.update Example.libs 1 Example.vertex_positions ∅ Example.R1
    = Ok (r', info)
    /\ Robot.position r' = Robot.position Example.R1.
Proof.
  destruct (@X13_tick_of_resting_robot Example.libs 1
              Example.vertex_positions ∅ Example.R1)
    as (r' & info & Hu & Hp & _).
  - discriminate.
  - exists r', info. split; assumption.
Defined.

(** X14.  A tick only ever consumes the path from the front: the path
    after it is the path before it without its first zero, one or two
    elements, and at most one element goes when the next vertex is set and
    nonzero. *)
Theorem X14_path_only_shrinks `{ExternalLibs} (dt : Q) (vp : gmap Z Pos)
    (occ : gmap Lane string) (r r' : Robot.t) (info : UpdateInfo) :
  Robot.update dt vp occ r = Ok (r', info) ->
  (Robot.path r' = Robot.path r
   \/ Robot.path r' = drop 1 (Robot.path r)
   \/ (truthy (Robot.next_vertex r) = false
       /\ Robot.path r' = drop 2 (Robot.path r)))
  /\ (length (Robot.path r') <= length (Robot.path r))%nat.
Proof.
  intros Hu.
  assert (Hcases : Robot.path r' = Robot.path r
   \/ Robot.path r' = drop 1 (Robot.path r)
   \/ (truthy (Robot.next_vertex r) = false
       /\ Robot.path r' = drop 2 (Robot.path r))).
  { destruct r as [i p cv d pa nv st sp b].
    update_cases; auto. }
  split; [exact Hcases|].
  destruct Hcases as [->|[->|[_ ->]]]; rewrite ?length_drop; lia.
Qed.

Lemma X14_path_only_shrinks_witness :
  exists r' info,
    @Robot.update Example.libs 1 Example.vertex_positions ∅ Example.R1_near
    = Ok (r', info)
    /\ (length (Robot.path r') <= 3)%nat.
Proof.
  destruct (@Robot.update Example.libs 1 Example.vertex_positions ∅
              Example.R1_near) as [[r' info]|e] eqn:Hu;
    [|vm_compute in Hu; discriminate].
  exists r', info. split; [reflexivity|].
  apply (@X14_path_only_shrinks Example.libs 1 Example.vertex_positions ∅
           Example.R1_near r' info Hu).
Defined.

Lemma lane_held_by_other_false (occ : gmap Lane string) c n me :
  Robot.lane_held_by_other occ (Some c) (Some n) me = false ->
  forall holder, occ !! (c, n) = Some holder -> holder = me.
Proof.
  unfold Robot.lane_held_by_other. intros Hf holder Hh. rewrite Hh in Hf.
  apply negb_false_iff in Hf. by apply String.eqb_eq in Hf.
Qed.

(** X15.  A tick changes the position of a robot only if the robot is
    MOVING and the lane it travels, from its current vertex to the vertex
    it heads for, is not held by any other robot in the occupancy it is
    shown.  The vertex it heads for is the one the tick reports as reached
    when it arrived (its new current vertex), and its next vertex, with
    the current vertex unchanged, when it is still under way. *)
Theorem X15_moves_only_on_unheld_lane `{ExternalLibs} (dt : Q)
    (vp : gmap Z Pos) (occ : gmap Lane string) (r r' : Robot.t)
    (info : UpdateInfo) :
  Robot.update dt vp occ r = Ok (r', info) ->
  Robot.position r' <> Robot.position r ->
  Robot.state r = MOVING
  /\ info_position info = Some (Robot.position r')
  /\ exists target,
       match info_current_vertex info with
       | Some v => Robot.current_vertex r' = Some v /\ v = target
       | None =>
           Robot.current_vertex r' = Robot.current_vertex r
           /\ Robot.next_vertex r' = Some target
       end
       /\ forall c holder,
            Robot.current_vertex r = Some c ->
            occ !! (c, target) = Some holder -> holder = Robot.id r.
Proof.
  intros Hu Hpos. destruct r as [i p cv d pa nv st sp b].
  unfold Robot.update, Robot.advance, Robot.only_state in Hu. simpl in *.
  repeat (case_match; simpl in *; simplify_eq); simpl in *;
    try done;
    (split; [done|]); (split; [done|]);
    (eexists; split; [split; reflexivity|]);
    intros c holder [= ->] Hh;
    eapply lane_held_by_other_false; eauto.
Qed.

Lemma X15_moves_only_on_unheld_lane_witness :
  exists r' info,
    @Robot.update Example.libs 1 Example.vertex_positions ∅ Example.R1_near
    = Ok (r', info)
    /\ Robot.state Example.R1_near = MOVING.
Proof.
  destruct (@Robot.update Example.libs 1 Example.vertex_positions ∅
              Example.R1_near) as [[r' info]|e] eqn:Hu;
    [|vm_compute in Hu; discriminate].
  exists r', info. split; [reflexivity|].
  apply (@X15_moves_only_on_unheld_lane Example.libs 1
           Example.vertex_positions ∅ Example.R1_near r' info Hu).
  vm_compute in Hu. injection Hu as <- _. vm_compute. discriminate.
Defined.

Lemma update_battery_range `{ExternalLibs} dt vp occ (r r' : Robot.t) info :
  (0 <= dt)%Q ->
  (Robot.battery r <= 100)%Q ->
  Robot.update dt vp occ r = Ok (r', info) ->
  (0 <= Robot.battery r' <= 100)%Q.
Proof.
  intros Hdt Hb Hu. apply update_battery in Hu. unfold drained in Hu.
  simpl in Hu.
  destruct (py_max_cases 0 (Robot.battery r - 0.01 * dt)) as [[Hm Em]|[Hm Em]];
    destruct (py_min_cases 100
                (py_max 0 (Robot.battery r - 0.01 * dt) + 0.1 * dt))
      as [[Hn En]|[Hn En]];
    rewrite Em in *;
    destruct (Robot.state r); rewrite Hu; rewrite ?En; lra.
Qed.

Lemma update_one_battery_range `{ExternalLibs} fm dt vp robot_id robot tm
    robot' tm' info :
  (0 <= dt)%Q ->
  (Robot.battery robot <= 100)%Q ->
  FleetManager.update_one fm dt vp robot_id robot tm = Ok (robot', tm', info) ->
  (0 <= Robot.battery robot' <= 100)%Q.
Proof.
  unfold FleetManager.update_one. intros Hdt Hb Hu.
  apply bind_Ok in Hu as ([r1 i1] & Hupd & Hu). simpl in Hu.
  apply (update_battery_range _ _ _ _ _ _ Hdt Hb) in Hupd.
  assert (robot' = FleetManager.on_vertex_change fm
                     (Robot.current_vertex robot) i1 r1) as ->.
  { repeat case_match; by simplify_eq. }
  unfold FleetManager.on_vertex_change. repeat case_match; done.
Qed.

(** X17.  Ticks keep every battery between 0 and 100: if all robots of the
    fleet start in that range, they are in that range after any sequence
    of [update_robots] calls with time deltas that are not negative. *)
Theorem X17_batteries_stay_in_range `{ExternalLibs} (dts : list Q) :
  forall (fm fm' : FleetManager.t) (tm tm' : TrafficManager.t),
    Forall (fun dt => 0 <= dt)%Q dts ->
    Forall (fun item : string * Robot.t =>
              0 <= Robot.battery item.2 <= 100)%Q (FleetManager.robots fm) ->
    run_ticks fm tm dts = Ok (fm', tm') ->
    Forall (fun item : string * Robot.t =>
              0 <= Robot.battery item.2 <= 100)%Q (FleetManager.robots fm').
Proof.
  induction dts as [|dt dts IH]; simpl; intros fm fm' tm tm' Hdts Hb Hrun.
  - by simplify_eq.
  - apply Forall_cons in Hdts as [Hdt Hdts].
    apply bind_Ok in Hrun as ([[fm1 tm1] ups] & Hu & Hrun). simpl in Hrun.
    eapply IH; [exact Hdts| |exact Hrun].
    unfold FleetManager.update_robots in Hu.
    apply bind_Ok in Hu as ([[items tm2] ups2] & Hl & Hu). simplify_eq. simpl.
    apply update_loop_pointwise in Hl. clear Hrun IH. revert Hb.
    induction Hl as [|[k r] [k' r'] l l' [_ (tm0 & tm3 & info & Hone)] _ IHl];
      intros Hb; [constructor|].
    apply Forall_cons in Hb as [[_ Hr] Hb]. constructor; [|by apply IHl].
    simpl in *. eapply update_one_battery_range; eauto.
Qed.

Lemma X17_batteries_stay_in_range_witness :
  Forall (fun item : string * Robot.t =>
            0 <= Robot.battery item.2 <= 100)%Q
    (FleetManager.robots (System.fleet (Scenario.after Scenario.to_charger))).
Proof.
  destruct (@run_ticks Example.libs
              (System.fleet (Scenario.after (take 2 Scenario.to_charger)))
              TrafficManager.init [1%Q; 1%Q]) as [[fm' tm']|e] eqn:Hrun;
    [|vm_compute in Hrun; discriminate].
  assert (Hfm : System.fleet (Scenario.after Scenario.to_charger) = fm').
  { vm_compute in Hrun. injection Hrun as <- _. vm_compute. reflexivity. }
  rewrite Hfm.
  apply (@X17_batteries_stay_in_range Example.libs [1%Q; 1%Q]
           (System.fleet (Scenario.after (take 2 Scenario.to_charger))) fm'
           TrafficManager.init tm').
  - repeat constructor; discriminate.
  - repeat constructor; vm_compute; discriminate.
  - exact Hrun.
Defined.

Lemma lane_not_held_by_other (occ : gmap Lane string) c n me :
  (forall holder, occ !! (c, n) = Some holder -> holder = me) ->
  Robot.lane_held_by_other occ (Some c) (Some n) me = false.
Proof.
  unfold Robot.lane_held_by_other. intros Hh.
  destruct (occ !! (c, n)) as [h|]; [|done].
  rewrite (Hh h eq_refl). by rewrite String.eqb_refl.
Qed.

(** X18.  The tick after an arrival at an intermediate vertex other than
    vertex 0.  A MOVING robot that stands on vertex [n <> 0], still has
    [n] as next vertex and [n :: m :: rest] as path (the state an arrival
    leaves behind), spends one tick with [speed * dt > 0] on "reaching"
    [n] again: it stays where it is, and only then is [m] its next vertex
    and [m :: rest] its path.  (For [n = 0] the next vertex is falsy and
    the tick pops the path instead, see C10.) *)
Theorem X18_tick_after_arrival `{ExternalLibs} (dt : Q) (vp : gmap Z Pos)
    (occ : gmap Lane string) (r : Robot.t) (n m : Z) (rest : list Z) :
  Robot.state r = MOVING ->
  Robot.current_vertex r = Some n ->
  Robot.next_vertex r = Some n ->
  n <> 0 ->
  Robot.path r = n :: m :: rest ->
  vp !! n = Some (Robot.position r) ->
  (linalg_norm ((Robot.position r).1 - (Robot.position r).1,
                (Robot.position r).2 - (Robot.position r).2) == 0)%Q ->
  (0 < Robot.speed r * dt)%Q ->
  (forall holder, occ !! (n, n) = Some holder -> holder = Robot.id r) ->
  exists r' info,
    Robot.update dt vp occ r = Ok (r', info)
    /\ Robot.position r' = Robot.position r
    /\ Robot.current_vertex r' = Some n
    /\ Robot.path r' = m :: rest
    /\ Robot.next_vertex r' = Some m
    /\ Robot.state r' = MOVING
    /\ info_current_vertex info = Some n.
Proof.
  intros Hs Hcv Hnv Hn Hp Hvp Hnorm Hstep Hfree.
  destruct r as [i p cv d pa nv st sp b]. simpl in *. subst.
  unfold Robot.update. simpl.
  destruct (Z.eqb_spec n 0); [done|]. simpl.
  unfold Robot.advance. simpl.
  pose proof (lane_not_held_by_other _ _ _ _ Hfree) as Hl.
  unfold Robot.lane_held_by_other in Hl. rewrite Hl, Hvp.
  assert (Hlt : Qltb (linalg_norm ((p.1 - p.1)%Q, (p.2 - p.2)%Q)) (sp * dt)
                = true).
  { apply Qltb_lt. rewrite Hnorm. exact Hstep. }
  rewrite Hlt. simpl. eexists _, _. split; [reflexivity|]. simpl.
  repeat split.
Qed.

Lemma X18_tick_after_arrival_witness :
  exists r' info,
    @Robot.update Example.libs 1 Example.vertex_positions ∅
      (Robot.with_next_vertex (Some 1)
         (Robot.with_path [1; 2]
            (Robot.with_current_vertex (Some 1)
               (Robot.with_position (0.08, 0)%Q Example.R1_near))))
    = Ok (r', info)
    /\ Robot.path r' = [2]
    /\ Robot.next_vertex r' = Some 2.
Proof.
  destruct (@X18_tick_after_arrival Example.libs 1 Example.vertex_positions ∅
              (Robot.with_next_vertex (Some 1)
                 (Robot.with_path [1; 2]
                    (Robot.with_current_vertex (Some 1)
                       (Robot.with_position (0.08, 0)%Q Example.R1_near))))
              1 2 [])
    as (r' & info & Hu & _ & _ & Hp & Hn & _).
  - reflexivity.
  - reflexivity.
  - reflexivity.
  - discriminate.
  - reflexivity.
  - vm_compute. reflexivity.
  - vm_compute. reflexivity.
  - vm_compute. reflexivity.
  - intros holder Hh. rewrite lookup_empty in Hh. discriminate Hh.
  - exists r', info. repeat split; assumption.
Defined.

(** ** Fleet manager: what a pass of the tick loop leaves behind *)

Lemma register_vertex_stays_held tm robot_id cv nv v :
  is_Some (TrafficManager.vertex_occupancy tm !! v) ->
  is_Some
    (TrafficManager.vertex_occupancy
       (TrafficManager.register_lane_usage tm robot_id cv nv).1 !! v).
Proof.
  intros Hv.
  destruct (register_result tm robot_id cv nv) as [[-> _]|[-> _]];
    [exact Hv|].
  simpl. destruct (decide (cv = v)) as [->|Hne].
  - rewrite lookup_insert_eq. eauto.
  - by rewrite lookup_insert_ne.
Qed.

Lemma register_lane_held tm robot_id cv nv :
  exists holder,
    holds_lane (TrafficManager.register_lane_usage tm robot_id cv nv).1
      holder (cv, nv)
    /\ (holder = robot_id \/ holds_lane tm holder (cv, nv)).
Proof.
  destruct (register_result tm robot_id cv nv)
    as [[-> (other & Hh & _)]|[-> _]].
  - exists other. auto.
  - exists robot_id. split; [|auto]. unfold holds_lane. simpl.
    apply lookup_insert_eq.
Qed.

(** X19.  Ticks never release anything.  After any number of
    [update_robots] calls every lane entry of the traffic manager is still
    there with the same holder, and every vertex that was held is still
    held (possibly by another robot). *)
Theorem X19_ticks_never_release `{ExternalLibs} (dts : list Q) :
  forall (fm fm' : FleetManager.t) (tm tm' : TrafficManager.t),
    run_ticks fm tm dts = Ok (fm', tm') ->
    lanes_kept tm tm'
    /\ (forall v,
        is_Some (TrafficManager.vertex_occupancy tm !! v) ->
        is_Some (TrafficManager.vertex_occupancy tm' !! v)).
Proof.
  induction dts as [|dt dts IH]; simpl; intros fm fm' tm tm' Hrun.
  - simplify_eq. split; [by intros lane holder Hh|done].
  - apply bind_Ok in Hrun as ([[fm1 tm1] ups] & Hu & Hrun). simpl in Hrun.
    destruct (IH _ _ _ _ Hrun) as [IHl IHv].
    unfold FleetManager.update_robots in Hu.
    apply bind_Ok in Hu as ([[items tm2] ups2] & Hl & Hu). simplify_eq.
    split.
    + intros lane holder Hh. apply IHl.
      by apply (proj1 (update_loop_turns _ _ _ _ _ _ _ _ _ Hl)).
    + intros v Hv. apply IHv.
      eapply (update_loop_traffic
                (fun t => is_Some (TrafficManager.vertex_occupancy t !! v)));
        [|exact Hv|exact Hl].
      intros. by apply register_vertex_stays_held.
Qed.

Lemma X19_ticks_never_release_witness :
  holds_lane (System.traffic (Scenario.after Scenario.to_charger)) "R1" (0, 1).
Proof.
  destruct (@run_ticks Example.libs
              (System.fleet (Scenario.after (take 3 Scenario.to_charger)))
              (System.traffic (Scenario.after (take 3 Scenario.to_charger)))
              [1%Q]) as [[fm' tm']|e] eqn:Hrun;
    [|vm_compute in Hrun; discriminate].
  assert (Htm : System.traffic (Scenario.after Scenario.to_charger) = tm').
  { vm_compute in Hrun. injection Hrun as _ <-. vm_compute. reflexivity. }
  rewrite Htm.
  apply (proj1 (@X19_ticks_never_release Example.libs [1%Q] _ _ _ _ Hrun)).
  vm_compute. reflexivity.
Defined.

Lemma update_one_registers `{ExternalLibs} fm dt vp robot_id robot tm
    robot' tm' info c n :
  FleetManager.update_one fm dt vp robot_id robot tm = Ok (robot', tm', info) ->
  Robot.current_vertex robot' = Some c ->
  Robot.next_vertex robot' = Some n ->
  tm' = (TrafficManager.register_lane_usage tm robot_id c n).1.
Proof.
  unfold FleetManager.update_one. intros Hu Hc Hn.
  apply bind_Ok in Hu as ([r1 i1] & _ & Hu). simpl in Hu.
  injection Hu as <- <- _. by rewrite Hc, Hn.
Qed.

(** X20.  After a call of [update_robots], the lane from the current to
    the next vertex of every robot that has both is in the lane table:
    held by that robot's id, or by the robot that held it first. *)
Theorem X20_current_lane_is_registered `{ExternalLibs}
    (fm fm' : FleetManager.t) (dt : Q) (tm tm' : TrafficManager.t)
    (ups : Updates) (i : nat) (robot_id : string) (robot' : Robot.t)
    (c n : Z) :
  FleetManager.update_robots fm dt tm = Ok (fm', tm', ups) ->
  FleetManager.robots fm' !! i = Some (robot_id, robot') ->
  Robot.current_vertex robot' = Some c ->
  Robot.next_vertex robot' = Some n ->
  exists holder, holds_lane tm' holder (c, n).
Proof.
  unfold FleetManager.update_robots. intros Hu Hi Hc Hn.
  apply bind_Ok in Hu as ([[items tm1] ups1] & Hl & Hu). simplify_eq.
  simpl in Hi. destruct (update_loop_turns _ _ _ _ _ _ _ _ _ Hl) as [_ Hturns].
  destruct (Forall2_lookup_r _ _ _ _ _ Hturns Hi)
    as ([k0 r0] & _ & Hk & tm0 & tm2 & info & _ & Hkept & Hone).
  simpl in *. subst k0.
  rewrite (update_one_registers _ _ _ _ _ _ _ _ _ _ _ Hone Hc Hn) in Hkept.
  destruct (register_lane_held tm0 robot_id c n) as (holder & Hh & _).
  exists holder. by apply Hkept.
Qed.

Lemma X20_current_lane_is_registered_witness :
  exists holder,
    holds_lane (System.traffic (Scenario.after Scenario.through_charger))
      holder (0, 1).
Proof.
  destruct (@FleetManager.update_robots Example.libs
              (System.fleet (Scenario.after (take 2 Scenario.through_charger)))
              1
              (System.traffic (Scenario.after (take 2 Scenario.through_charger))))
    as [[[fm' tm'] ups]|e] eqn:Hu; [|vm_compute in Hu; discriminate].
  assert (Htm : System.traffic (Scenario.after Scenario.through_charger) = tm').
  { vm_compute in Hu. injection Hu as _ <- _. vm_compute. reflexivity. }
  rewrite Htm.
  destruct (FleetManager.robots fm' !! 0%nat) as [[k r']|] eqn:Hi.
  2: { vm_compute in Hu. injection Hu as <- _ _. vm_compute in Hi.
       discriminate Hi. }
  apply (@X20_current_lane_is_registered Example.libs _ fm' 1 _ tm' ups
           0%nat k r' 0 1 Hu Hi).
  - vm_compute in Hu. injection Hu as <- _ _. vm_compute in Hi.
    injection Hi as _ <-. reflexivity.
  - vm_compute in Hu. injection Hu as <- _ _. vm_compute in Hi.
    injection Hi as _ <-. reflexivity.
Defined.

Lemma update_one_waiting `{ExternalLibs} fm dt vp robot_id robot tm
    robot' tm' info c n holder :
  FleetManager.update_one fm dt vp robot_id robot tm = Ok (robot', tm', info) ->
  Robot.state robot = WAITING ->
  Robot.current_vertex robot = Some c ->
  Robot.next_vertex robot = Some n ->
  holds_lane tm holder (c, n) ->
  holder <> Robot.id robot ->
  Robot.state robot' = WAITING
  /\ Robot.current_vertex robot' = Some c
  /\ Robot.next_vertex robot' = Some n
  /\ Robot.position robot' = Robot.position robot
  /\ Robot.path robot' = Robot.path robot
  /\ Robot.id robot' = Robot.id robot.
Proof.
  unfold FleetManager.update_one, holds_lane. intros Hu Hs Hc Hn Hh Hne.
  apply bind_Ok in Hu as ([r1 i1] & Hupd & Hu). simpl in Hu.
  injection Hu as <- _ _.
  unfold Robot.update in Hupd. simpl in Hupd. rewrite Hs in Hupd.
  unfold Robot.lane_held_by_other, TrafficManager.get_lane_occupancy in Hupd.
  rewrite Hc, Hn, Hh in Hupd.
  destruct (String.eqb_spec holder (Robot.id robot)) as [|_]; [done|].
  simpl in Hupd. injection Hupd as <- <-.
  unfold FleetManager.on_vertex_change. simpl. by rewrite Hs.
Qed.

(** X21.  A WAITING robot is never let through by ticks alone.  If the
    lane it waits for is held by another robot, then after any number of
    [update_robots] calls it is still WAITING at the same place for the
    same lane, and that lane is still held by the same robot. *)
Theorem X21_waiting_never_resumes `{ExternalLibs} (dts : list Q) :
  forall (fm fm' : FleetManager.t) (tm tm' : TrafficManager.t) (i : nat)
         (robot_id holder : string) (robot : Robot.t) (c n : Z),
    run_ticks fm tm dts = Ok (fm', tm') ->
    FleetManager.robots fm !! i = Some (robot_id, robot) ->
    Robot.state robot = WAITING ->
    Robot.current_vertex robot = Some c ->
    Robot.next_vertex robot = Some n ->
    holds_lane tm holder (c, n) ->
    holder <> Robot.id robot ->
    exists robot',
      FleetManager.robots fm' !! i = Some (robot_id, robot')
      /\ Robot.state robot' = WAITING
      /\ Robot.current_vertex robot' = Some c
      /\ Robot.next_vertex robot' = Some n
      /\ Robot.position robot' = Robot.position robot
      /\ Robot.path robot' = Robot.path robot
      /\ holds_lane tm' holder (c, n).
Proof.
  induction dts as [|dt dts IH]; simpl;
    intros fm fm' tm tm' i robot_id holder robot c n Hrun Hi Hs Hc Hn Hh Hne.
  - simplify_eq. exists robot. auto 10.
  - apply bind_Ok in Hrun as ([[fm1 tm1] ups] & Hu & Hrun). simpl in Hrun.
    unfold FleetManager.update_robots in Hu.
    apply bind_Ok in Hu as ([[items tm2] ups2] & Hl & Hu). simplify_eq.
    destruct (update_loop_turns _ _ _ _ _ _ _ _ _ Hl) as [Hkept Hturns].
    destruct (Forall2_lookup_l _ _ _ _ _ Hturns Hi)
      as ([k1 r1] & Hi1 & Hk & tm0 & tm3 & info & Hk0 & _ & Hone).
    simpl in *. subst k1.
    destruct (update_one_waiting _ _ _ _ _ _ _ _ _ _ _ _ Hone Hs Hc Hn
                (Hk0 _ _ Hh) Hne) as (Hs1 & Hc1 & Hn1 & Hp1 & Hpa1 & Hid1).
    destruct (IH _ _ _ _ i robot_id holder r1 c n Hrun) as (r' & Hi' & Hr');
      auto.
    { by rewrite Hid1. }
    exists r'. rewrite <- Hp1, <- Hpa1. auto.
Qed.

Lemma X21_waiting_never_resumes_witness :
  exists fm' tm' robot',
    @run_ticks Example.libs
      (FleetManager.add_robot (FleetManager.init Example.graph)
         Example.R2_waiting)
      (TrafficManager.mk {[ (0, 1) := "R1" ]} {[ 0 := "R1" ]})
      [1%Q; 1%Q; 1%Q]
    = Ok (fm', tm')
    /\ FleetManager.robots fm' !! 0%nat = Some ("R2", robot')
    /\ Robot.state robot' = WAITING.
Proof.
  destruct (@run_ticks Example.libs
      (FleetManager.add_robot (FleetManager.init Example.graph)
         Example.R2_waiting)
      (TrafficManager.mk {[ (0, 1) := "R1" ]} {[ 0 := "R1" ]})
      [1%Q; 1%Q; 1%Q]) as [[fm' tm']|e] eqn:Hrun;
    [|vm_compute in Hrun; discriminate].
  destruct (@X21_waiting_never_resumes Example.libs [1%Q; 1%Q; 1%Q]
              _ fm' _ tm' 0%nat "R2" "R1" Example.R2_waiting 0 1 Hrun)
    as (robot' & Hi & Hs & _).
  - reflexivity.
  - reflexivity.
  - reflexivity.
  - reflexivity.
  - reflexivity.
  - discriminate.
  - exists fm', tm', robot'. auto.
Defined.

Lemma PyDict_set_absent {V : Type} (d : list (string * V)) k v :
  PyDict.get d k = None -> PyDict.set d k v = d ++ [(k, v)].
Proof.
  induction d as [|[k0 v0] d IH]; simpl; [done|].
  destruct (String.eqb_spec k0 k) as [->|Hne]; [done|].
  intros Hg. by rewrite IH.
Qed.

Lemma update_one_info `{ExternalLibs} fm dt vp robot_id robot tm
    robot' tm' info :
  FleetManager.update_one fm dt vp robot_id robot tm = Ok (robot', tm', info) ->
  info_state info = Robot.state robot'
  \/ (Robot.state robot' = CHARGING
      /\ (info_state info = MOVING \/ info_state info = COMPLETED)).
Proof.
  unfold FleetManager.update_one. intros Hu.
  apply bind_Ok in Hu as ([r1 i1] & Hupd & Hu). simpl in Hu.
  injection Hu as <- _ <-.
  apply update_frame in Hupd as (_ & _ & _ & Hst & Hinfo).
  unfold FleetManager.on_vertex_change.
  destruct (info_current_vertex i1) as [v|]; [|auto].
  destruct Hinfo as (_ & _ & Hmc).
  repeat case_match; auto. right. split; [done|]. by rewrite Hst.
Qed.

Lemma update_loop_updates `{ExternalLibs} fm dt vp items :
  forall tm (ups : Updates) items' tm' ups',
    FleetManager.update_loop fm dt vp items tm ups = Ok (items', tm', ups') ->
    NoDup (PyDict.keys ups ++ PyDict.keys items) ->
    exists news : Updates,
      ups' = ups ++ news
      /\ Forall2
           (fun (x : string * Robot.t) (y : string * UpdateInfo) =>
              x.1 = y.1
              /\ (info_state y.2 = Robot.state x.2
                  \/ (Robot.state x.2 = CHARGING
                      /\ (info_state y.2 = MOVING
                          \/ info_state y.2 = COMPLETED))))
           items' news.
Proof.
  induction items as [|[k r] items IH]; simpl;
    intros tm ups items' tm' ups' Hl Hnd.
  - simplify_eq. exists []. split; [by rewrite app_nil_r|constructor].
  - apply bind_Ok in Hl as ([[r1 tm1] i1] & H1 & Hl). simpl in Hl.
    apply bind_Ok in Hl as ([[rest tm2] ups2] & H2 & Hl). simpl in Hl.
    simplify_eq.
    assert (Hk : PyDict.get ups k = None).
    { apply PyDict_get_None_keys. apply NoDup_app in Hnd as (_ & Hdisj & _).
      intros Hin. apply (Hdisj k Hin). unfold PyDict.keys. simpl.
      apply list_elem_of_here. }
    rewrite (PyDict_set_absent _ _ _ Hk) in H2.
    destruct (IH _ _ _ _ _ H2) as (news & -> & Hnews).
    { unfold PyDict.keys in *. rewrite fmap_app. simpl in *.
      by rewrite <- app_assoc. }
    exists ((k, i1) :: news). split; [by rewrite <- app_assoc|].
    constructor; [|exact Hnews]. simpl. split; [done|].
    eapply update_one_info; eauto.
Qed.

(** X22.  A call of [update_robots] leaves the graph and the order of the
    registry as they were, keeps the task records with their destination
    and start time (a record survives the completion of its task), and
    returns one entry per robot, in registry order.  The state in an entry
    is the robot's state after the call, except for a robot the call put
    into CHARGING: its entry still says MOVING or COMPLETED.  Nothing is
    said of the path of a task record: in Python it is the list the robot
    pops from. *)
Theorem X22_update_robots_report `{ExternalLibs} (fm fm' : FleetManager.t)
    (dt : Q) (tm tm' : TrafficManager.t) (ups : Updates) :
  NoDup (PyDict.keys (FleetManager.robots fm)) ->
  FleetManager.update_robots fm dt tm = Ok (fm', tm', ups) ->
  FleetManager.nav_graph fm' = FleetManager.nav_graph fm
  /\ (forall k,
        task_destination <$> FleetManager.tasks fm' !! k
        = task_destination <$> FleetManager.tasks fm !! k
        /\ task_start_time <$> FleetManager.tasks fm' !! k
           = task_start_time <$> FleetManager.tasks fm !! k)
  /\ PyDict.keys (FleetManager.robots fm')
     = PyDict.keys (FleetManager.robots fm)
  /\ PyDict.keys ups = PyDict.keys (FleetManager.robots fm)
  /\ Forall2
       (fun (x : string * Robot.t) (y : string * UpdateInfo) =>
          x.1 = y.1
          /\ (info_state y.2 = Robot.state x.2
              \/ (Robot.state x.2 = CHARGING
                  /\ (info_state y.2 = MOVING
                      \/ info_state y.2 = COMPLETED))))
       (FleetManager.robots fm') ups.
Proof.
  unfold FleetManager.update_robots. intros Hnd Hu.
  apply bind_Ok in Hu as ([[items tm1] ups1] & Hl & Hu). simplify_eq. simpl.
  pose proof (update_loop_keys _ _ _ _ _ _ _ _ _ Hl) as Hkeys.
  destruct (update_loop_updates _ _ _ _ _ _ _ _ _ Hl) as (news & -> & Hnews);
    [done|].
  simpl. repeat split; try done.
  rewrite <- Hkeys. unfold PyDict.keys. clear -Hnews.
  induction Hnews as [|[k r] [k' i] l l' [Hk _] _ IH]; simpl in *; [done|].
  f_equal; [by symmetry|exact IH].
Qed.

Lemma X22_update_robots_report_witness :
  exists fm' tm' ups,
    @FleetManager.update_robots Example.libs
      (System.fleet (Scenario.after (take 3 Scenario.to_charger))) 1
      (System.traffic (Scenario.after (take 3 Scenario.to_charger)))
    = Ok (fm', tm', ups)
    /\ PyDict.keys ups = ["R1"].
Proof.
  destruct (@FleetManager.update_robots Example.libs
      (System.fleet (Scenario.after (take 3 Scenario.to_charger))) 1
      (System.traffic (Scenario.after (take 3 Scenario.to_charger))))
    as [[[fm' tm'] ups]|e] eqn:Hu; [|vm_compute in Hu; discriminate].
  exists fm', tm', ups. split; [reflexivity|].
  destruct (@X22_update_robots_report Example.libs
              (System.fleet (Scenario.after (take 3 Scenario.to_charger)))
              fm' 1
              (System.traffic (Scenario.after (take 3 Scenario.to_charger)))
              tm' ups)
    as (_ & _ & _ & Hk & _); [|exact Hu|].
  - apply (bool_decide_unpack _). vm_compute. exact I.
  - rewrite Hk. vm_compute. reflexivity.
Defined.

(** ** Ticks never raise in a reachable state *)

Lemma forallb_PyDict_del {V : Type} (g : V -> bool) (d : list (string * V)) k :
  forallb (fun item : string * V => g item.2) d = true ->
  forallb (fun item : string * V => g item.2) (PyDict.del d k) = true.
Proof.
  induction d as [|[k0 v0] d IH]; simpl; [done|].
  intros Hd. apply andb_true_iff in Hd as [H0 Hd].
  destruct (String.eqb k0 k); simpl; [done|]. by rewrite H0, IH.
Qed.

Lemma cancel_task_ok (vp : gmap Z Pos) (robot : Robot.t) :
  robot_ok vp (Robot.cancel_task robot) = true.
Proof. reflexivity. Qed.

Lemma update_one_placed `{ExternalLibs} fm dt vp robot_id robot tm
    robot' tm' info :
  FleetManager.update_one fm dt vp robot_id robot tm = Ok (robot', tm', info) ->
  placed robot = true -> placed robot' = true.
Proof.
  unfold FleetManager.update_one, placed. intros Hu Hp.
  apply bind_Ok in Hu as ([r1 i1] & Hupd & Hu). simpl in Hu.
  injection Hu as <- _ _.
  apply update_frame in Hupd as (_ & _ & _ & _ & Hinfo).
  apply bool_decide_eq_true in Hp. apply bool_decide_eq_true.
  assert (Hc : is_Some (Robot.current_vertex r1)).
  { destruct (info_current_vertex i1).
    - destruct Hinfo as (_ & -> & _). eauto.
    - by rewrite Hinfo. }
  unfold FleetManager.on_vertex_change. by repeat case_match.
Qed.

Lemma update_robots_placed `{ExternalLibs} fm dt tm fm' tm' ups :
  FleetManager.update_robots fm dt tm = Ok (fm', tm', ups) ->
  fleet_placed fm = true -> fleet_placed fm' = true.
Proof.
  unfold FleetManager.update_robots, fleet_placed. intros Hu.
  apply bind_Ok in Hu as ([[items tm1] ups1] & Hl & Hu). simplify_eq. simpl.
  apply update_loop_pointwise in Hl.
  induction Hl as [|[k r] [k' r'] l l' (_ & tm0 & tm2 & info & Hone) _ IH];
    simpl; [done|].
  rewrite !andb_true_iff. intros [Hr Hrest]. split; [|by apply IH].
  eapply update_one_placed; eauto.
Qed.

(** One operation on a sound system: it returns a sound system, or it is
    an [assign_task] (the only operation that calls the path library) and
    raises that library's [NodeNotFound]. *)
Lemma step_system_ok `{ExternalLibs} (nav_graph : NavGraph.t)
    (s : System.t) (op : System.Op) :
  nx_paths_in_graph nav_graph ->
  system_ok nav_graph s ->
  op_ok (FleetManager.vertex_positions (FleetManager.init nav_graph)) op
  = true ->
  match System.step s op with
  | Ok s' => system_ok nav_graph s'
  | Raise e =>
      e = NodeNotFound
      /\ exists robot_id destination_vertex now,
           op = System.AssignTask robot_id destination_vertex now
  end.
Proof.
  intros Hnx (Hnav & Hok & Hpl) Hop.
  destruct s as [[nav robots tasks] tm]. simpl in Hnav. subst nav.
  unfold system_ok, fleet_ok, fleet_placed, FleetManager.vertex_positions in *.
  simpl in *.
  destruct op; simpl.
  - apply andb_true_iff in Hop as [Hop1 Hop2].
    split; [done|]. split; by apply forallb_PyDict_set.
  - unfold FleetManager.remove_robot. simpl.
    destruct (PyDict.has _ _); simpl; [|done].
    split; [done|]. split; by apply forallb_PyDict_del.
  - unfold FleetManager.assign_task. simpl.
    destruct (PyDict.get robots robot_id) as [robot|] eqn:Hr; simpl; [|done].
    case_bool_decide; simpl; [done|].
    pose proof (forallb_PyDict_get placed _ _ _ Hpl Hr) as Hp.
    unfold placed in Hp. apply bool_decide_eq_true in Hp as [cv Hcv].
    rewrite Hcv. unfold NavGraph.get_path. simpl.
    destruct (nx_shortest_path _ _ _) as [p| |] eqn:Enx; simpl.
    + destruct p as [|x rest]; simpl; [done|].
      split; [done|]. split.
      * apply forallb_PyDict_set; [exact Hok|].
        apply (set_destination_ok _ robot destination_vertex (x :: rest)).
        -- eapply (forallb_PyDict_get (robot_ok _)); eauto.
        -- by apply Hnx in Enx.
      * apply forallb_PyDict_set; [exact Hpl|].
        unfold placed, Robot.set_destination. destruct rest; simpl;
          rewrite Hcv; by apply bool_decide_eq_true.
    + done.
    + split; [done|]. eauto.
  - unfold FleetManager.cancel_task. simpl.
    destruct (PyDict.get robots robot_id) as [robot|] eqn:Hr; simpl; [|done].
    split; [done|]. split.
    + apply forallb_PyDict_set; [exact Hok|]. apply cancel_task_ok.
    + apply forallb_PyDict_set; [exact Hpl|].
      by apply (forallb_PyDict_get placed _ _ _ Hpl) in Hr.
  - destruct (update_robots_ok (FleetManager.mk nav_graph robots tasks) dt tm Hok)
      as (fm2 & tm2 & ups2 & Hu2 & Hok2 & _).
    rewrite Hu2. simpl.
    pose proof (update_robots_placed _ _ _ _ _ _ Hu2 Hpl) as Hpl2.
    unfold FleetManager.update_robots in Hu2.
    apply bind_Ok in Hu2 as ([[items tm3] ups3] & _ & Hu). simplify_eq.
    simpl. done.
  - done.
  - done.
  - done.
Qed.

(** X23.  Suppose the path library only returns paths through nodes of
    the graph, and every robot handed to [add_robot] stands on a vertex
    and refers only to vertices that have a position (as a robot fresh
    from the constructor does).  Then a sequence of operations on a fresh
    pair of managers runs to its end, or stops in an [assign_task] with
    the path library's [NodeNotFound]; no other exception occurs.  In the
    state reached all robots stand on a vertex and refer only to vertices
    with a position, and [update_robots] returns without an exception,
    whatever the time delta. *)
Theorem X23_ticks_never_raise `{ExternalLibs} (nav_graph : NavGraph.t)
    (ops : list System.Op) (dt : Q) :
  nx_paths_in_graph nav_graph ->
  Forall
    (fun op =>
       op_ok (FleetManager.vertex_positions (FleetManager.init nav_graph)) op
       = true) ops ->
  match System.run (System.init nav_graph) ops with
  | Ok s =>
      fleet_ok (System.fleet s) = true
      /\ fleet_placed (System.fleet s) = true
      /\ exists fm' tm' ups,
           FleetManager.update_robots (System.fleet s) dt (System.traffic s)
           = Ok (fm', tm', ups)
  | Raise e =>
      e = NodeNotFound
      /\ exists robot_id destination_vertex now,
           System.AssignTask robot_id destination_vertex now ∈ ops
  end.
Proof.
  intros Hnx Hops.
  assert (Hinit : system_ok nav_graph (System.init nav_graph)) by done.
  assert (Hrun :
    match System.run (System.init nav_graph) ops with
    | Ok s => system_ok nav_graph s
    | Raise e =>
        e = NodeNotFound
        /\ exists robot_id destination_vertex now,
             System.AssignTask robot_id destination_vertex now ∈ ops
    end).
  { revert Hinit. generalize (System.init nav_graph).
    induction Hops as [|op ops Hop Hops IH]; simpl; intros s0 Hs0; [done|].
    pose proof (step_system_ok nav_graph s0 op Hnx Hs0 Hop) as Hstep.
    destruct (System.step s0 op) as [s1|e]; simpl.
    - specialize (IH s1 Hstep).
      destruct (System.run s1 ops) as [s2|e]; [done|].
      destruct IH as (-> & k & d & now & Hin). split; [done|].
      exists k, d, now. by apply list_elem_of_further.
    - destruct Hstep as (-> & k & d & now & ->). split; [done|].
      exists k, d, now. apply list_elem_of_here. }
  destruct (System.run (System.init nav_graph) ops) as [s|e]; [|exact Hrun].
  destruct Hrun as (_ & Hok & Hpl). split; [exact Hok|]. split; [exact Hpl|].
  destruct (update_robots_ok (System.fleet s) dt (System.traffic s) Hok)
    as (fm' & tm' & ups & Hu & _).
  eauto.
Qed.

Lemma example_paths_in_graph : @nx_paths_in_graph Example.libs Example.graph.
Proof.
  intros s t p Hp.
  change (Example.shortest_path (NavGraph.G Example.graph) s t = NxPath p)
    in Hp.
  unfold Example.shortest_path in Hp.
  destruct (nodes (NavGraph.G Example.graph) !! s) as [ds|] eqn:Es;
    [|discriminate].
  destruct (nodes (NavGraph.G Example.graph) !! t) as [dt'|] eqn:Et;
    [|discriminate].
  assert (Hdom : forall v d,
             nodes (NavGraph.G Example.graph) !! v = Some d ->
             v = 0 \/ v = 1 \/ v = 2 \/ v = 3).
  { intros v d Hv. apply elem_of_dom_2 in Hv. simpl in Hv.
    rewrite !dom_insert_L, dom_empty_L in Hv.
    rewrite !elem_of_union, !elem_of_singleton in Hv.
    destruct Hv as [Hv|[Hv|[Hv|[Hv|Hv]]]]; auto.
    by apply elem_of_empty in Hv. }
  destruct (Hdom _ _ Es) as [ -> | [ -> | [ -> | -> ] ] ];
    destruct (Hdom _ _ Et) as [ -> | [ -> | [ -> | -> ] ] ];
    vm_compute in Hp; try discriminate Hp;
    injection Hp as <-; vm_compute; reflexivity.
Qed.

Lemma X23_ticks_never_raise_witness :
  fleet_ok (System.fleet (Scenario.after Scenario.to_charger)) = true
  /\ fleet_placed (System.fleet (Scenario.after Scenario.to_charger)) = true.
Proof.
  pose proof (@X23_ticks_never_raise Example.libs Example.graph
                Scenario.to_charger 1 example_paths_in_graph) as Hx.
  unfold Scenario.after.
  destruct (@System.run Example.libs (System.init Example.graph)
              Scenario.to_charger) as [s|e] eqn:Hrun;
    [|vm_compute in Hrun; discriminate].
  destruct Hx as (Hok & Hpl & _); [repeat constructor|].
  split; [exact Hok|exact Hpl].
Defined.

(** ** Queries by position *)

Lemma first_within_spec `{PyMath} position threshold
    (items : list (string * Robot.t)) :
  match FleetManager.first_within position threshold items with
  | None =>
      forall k r, (k, r) ∈ items ->
        FleetManager.within position threshold r = false
  | Some k =>
      exists (i : nat) r,
        items !! i = Some (k, r)
        /\ FleetManager.within position threshold r = true
        /\ forall (j : nat) k' r',
             (j < i)%nat -> items !! j = Some (k', r') ->
             FleetManager.within position threshold r' = false
  end.
Proof.
  induction items as [|[k0 r0] items IH]; simpl.
  - intros k r Hin. by apply elem_of_nil in Hin.
  - destruct (FleetManager.within position threshold r0) eqn:E0.
    + exists 0%nat, r0. split; [done|]. split; [done|]. intros j k' r' Hj. lia.
    + destruct (FleetManager.first_within position threshold items) as [k|].
      * destruct IH as (i & r & Hi & Hw & Hbefore).
        exists (S i), r. split; [done|]. split; [done|].
        intros [|j] k' r' Hj Hl; simpl in Hl; [by simplify_eq|].
        eapply Hbefore; [|exact Hl]. lia.
      * intros k r Hin. apply elem_of_cons in Hin as [[= -> ->]|Hin]; eauto.
Qed.

(** X24.  [get_robot_by_position] returns the id of the first robot, in
    registry order, whose distance to the position is at most the
    threshold: every robot before it is farther away.  It returns [None]
    exactly when no robot is that close, in particular for an empty
    fleet. *)
Theorem X24_get_robot_by_position `{PyMath} (fm : FleetManager.t)
    (position : Pos) (threshold : Q) :
  (forall k,
     FleetManager.get_robot_by_position fm position threshold = Some k ->
     exists (i : nat) r,
       FleetManager.robots fm !! i = Some (k, r)
       /\ FleetManager.within position threshold r = true
       /\ forall (j : nat) k' r',
            (j < i)%nat -> FleetManager.robots fm !! j = Some (k', r') ->
            FleetManager.within position threshold r' = false)
  /\ (FleetManager.get_robot_by_position fm position threshold = None <->
      forall k r, (k, r) ∈ FleetManager.robots fm ->
        FleetManager.within position threshold r = false).
Proof.
  unfold FleetManager.get_robot_by_position.
  pose proof (first_within_spec position threshold (FleetManager.robots fm))
    as Hspec.
  destruct (FleetManager.first_within position threshold
              (FleetManager.robots fm)) as [k0|].
  - split; [by intros k [= <-]|]. split; [done|].
    intros Hall. destruct Hspec as (i & r & Hi & Hw & _).
    rewrite (Hall k0 r) in Hw; [done|].
    apply list_elem_of_lookup. eauto.
  - split; [done|]. split; [done|done].
Qed.

Lemma X24_get_robot_by_position_witness :
  @FleetManager.get_robot_by_position Example.pymath
    (FleetManager.add_robot Example.fleet0 Example.R2) (0.12, 0)%Q 0.01
  = Some "R2"
  /\ @FleetManager.within Example.pymath (0.12, 0)%Q 0.01 Example.R1 = false.
Proof.
  split; [reflexivity|].
  destruct (@X24_get_robot_by_position Example.pymath
              (FleetManager.add_robot Example.fleet0 Example.R2)
              (0.12, 0)%Q 0.01) as [Hsome _].
  destruct (Hsome "R2") as (i & r & Hi & _ & Hbefore); [reflexivity|].
  destruct i as [|i]; [vm_compute in Hi; discriminate Hi|].
  apply (Hbefore 0%nat "R1" Example.R1); [lia|reflexivity].
Defined.

Lemma scan_step `{PyMath} position threshold seen acc node :
  scan_inv position threshold seen acc ->
  scan_inv position threshold (seen ++ [node])
    (NavGraph.closer position threshold acc node).
Proof.
  destruct node as [w dw]. unfold NavGraph.closer.
  intros [[-> Hnone]|(v & data & -> & Hin & Hlt & Hmin)]; simpl.
  - destruct (Qltb (NavGraph.dist_to position dw) threshold) eqn:E.
    + right. exists w, dw. split; [done|].
      split; [apply elem_of_app; right; apply list_elem_of_here|].
      apply Qltb_lt in E. split; [done|].
      intros x Hx. apply elem_of_app in Hx as [Hx|Hx].
      * apply Hnone in Hx. apply Qltb_ge in Hx. lra.
      * apply list_elem_of_singleton in Hx as ->. simpl. lra.
    + left. split; [done|]. intros x Hx.
      apply elem_of_app in Hx as [Hx|Hx]; [auto|].
      by apply list_elem_of_singleton in Hx as ->.
  - destruct (Qltb (NavGraph.dist_to position dw)
                (NavGraph.dist_to position data)) eqn:E1; simpl.
    + apply Qltb_lt in E1.
      destruct (Qltb (NavGraph.dist_to position dw) threshold) eqn:E2.
      * right. exists w, dw. split; [done|].
        split; [apply elem_of_app; right; apply list_elem_of_here|].
        apply Qltb_lt in E2. split; [done|].
        intros x Hx. apply elem_of_app in Hx as [Hx|Hx].
        -- apply Hmin in Hx. lra.
        -- apply list_elem_of_singleton in Hx as ->. simpl. lra.
      * apply Qltb_ge in E2. lra.
    + apply Qltb_ge in E1. right. exists v, data. split; [done|].
      split; [apply elem_of_app; by left|]. split; [done|].
      intros x Hx. apply elem_of_app in Hx as [Hx|Hx]; [auto|].
      by apply list_elem_of_singleton in Hx as ->.
Qed.

Lemma scan_all `{PyMath} position threshold (l : list (Z * NodeData)) :
  forall seen acc,
    scan_inv position threshold seen acc ->
    scan_inv position threshold (seen ++ l)
      (foldl (NavGraph.closer position threshold) acc l).
Proof.
  induction l as [|node l IH]; simpl; intros seen acc Hinv.
  - by rewrite app_nil_r.
  - replace (seen ++ node :: l) with ((seen ++ [node]) ++ l)
      by (by rewrite <- app_assoc).
    apply IH. by apply scan_step.
Qed.

Lemma elem_of_nodes_view (nav : NavGraph.t) v data :
  (v, data) ∈ NavGraph.nodes_view nav
  <-> nodes (NavGraph.G nav) !! v = Some data.
Proof.
  unfold NavGraph.nodes_view. rewrite merge_sort_Permutation.
  apply elem_of_map_to_list.
Qed.

(** X25.  [get_vertex_id_by_position] returns a vertex of the graph that
    lies strictly within the threshold and is nearest to the position: no
    vertex of the graph is nearer.  It returns [None] exactly when no
    vertex lies strictly within the threshold, in particular for a graph
    without vertices. *)
Theorem X25_get_vertex_id_by_position `{PyMath} (nav : NavGraph.t)
    (position : Pos) (threshold : Q) :
  (forall v,
     NavGraph.get_vertex_id_by_position nav position threshold = Some v ->
     exists data,
       nodes (NavGraph.G nav) !! v = Some data
       /\ (NavGraph.dist_to position data < threshold)%Q
       /\ forall w dw,
            nodes (NavGraph.G nav) !! w = Some dw ->
            (NavGraph.dist_to position data <= NavGraph.dist_to position dw)%Q)
  /\ (NavGraph.get_vertex_id_by_position nav position threshold = None <->
      forall w dw,
        nodes (NavGraph.G nav) !! w = Some dw ->
        (threshold <= NavGraph.dist_to position dw)%Q).
Proof.
  unfold NavGraph.get_vertex_id_by_position.
  assert (Hinit : scan_inv position threshold [] (None, None)).
  { left. split; [done|]. intros x Hx. by apply elem_of_nil in Hx. }
  apply (scan_all position threshold (NavGraph.nodes_view nav)) in Hinit.
  simpl in Hinit.
  destruct Hinit as [[-> Hnone]|(v & data & -> & Hin & Hlt & Hmin)]; simpl.
  - split; [done|]. split; [|done]. intros _ w dw Hw.
    apply elem_of_nodes_view in Hw. apply Hnone in Hw. by apply Qltb_ge in Hw.
  - split.
    + intros v' [= <-]. exists data. split; [by apply elem_of_nodes_view|].
      split; [done|]. intros w dw Hw. apply elem_of_nodes_view in Hw.
      by apply Hmin in Hw.
    + split; [done|]. intros Hall. apply elem_of_nodes_view in Hin.
      apply Hall in Hin. lra.
Qed.

Lemma X25_get_vertex_id_by_position_witness :
  @NavGraph.get_vertex_id_by_position Example.pymath Example.graph
    (0.09, 0)%Q 0.03 = Some 1
  /\ (@NavGraph.dist_to Example.pymath (0.09, 0)%Q
        (mkNode (0.08, 0)%Q "v1" true)
      <= @NavGraph.dist_to Example.pymath (0.09, 0)%Q
           (mkNode (0.12, 0)%Q "v2" false))%Q.
Proof.
  split; [vm_compute; reflexivity|].
  destruct (@X25_get_vertex_id_by_position Example.pymath Example.graph
              (0.09, 0)%Q 0.03) as [Hsome _].
  destruct (Hsome 1) as (data & Hd & _ & Hmin); [vm_compute; reflexivity|].
  assert (data = mkNode (0.08, 0)%Q "v1" true) as ->.
  { vm_compute in Hd. injection Hd as <-. reflexivity. }
  apply (Hmin 2). vm_compute. reflexivity.
Defined.

(** ** A journey that ends at vertex 0 *)

(** X26.  A robot sent to the neighbouring vertex 0 (path [[c; 0]], next
    vertex 0) that does not get there within the first tick never gets
    there: the first tick pops [c] and moves it towards vertex 0, the
    second finds next vertex 0 falsy, pops the last path element and
    declares the robot COMPLETED where it stands, its current vertex still
    the one it left. *)
Theorem X26_journey_to_vertex_zero_stops_short `{ExternalLibs} (dt : Q)
    (vp : gmap Z Pos) (occ : gmap Lane string) (r : Robot.t) (c cv : Z)
    (p0 : Pos) :
  Robot.state r = MOVING ->
  Robot.next_vertex r = Some 0 ->
  Robot.path r = [c; 0] ->
  Robot.current_vertex r = Some cv ->
  (forall holder, occ !! (cv, 0) = Some holder -> holder = Robot.id r) ->
  vp !! 0 = Some p0 ->
  Qltb (linalg_norm ((p0.1 - (Robot.position r).1)%Q,
                     (p0.2 - (Robot.position r).2)%Q))
       (Robot.speed r * dt) = false ->
  exists r',
    robot_ticks 2 dt vp occ r = Ok r'
    /\ Robot.state r' = COMPLETED
    /\ Robot.current_vertex r' = Some cv
    /\ Robot.path r' = []
    /\ Robot.destination r' = Robot.destination r.
Proof.
  intros Hs Hn Hp Hcv Hfree Hvp Hfar.
  destruct r as [i p cur d pa nv st sp b]. simpl in *. subst.
  pose proof (lane_not_held_by_other _ _ _ _ Hfree) as Hl.
  unfold Robot.lane_held_by_other in Hl.
  unfold robot_ticks, Robot.update, Robot.advance. simpl.
  rewrite Hl, Hvp, Hfar. simpl.
  destruct (Qltb 0 _); simpl; eexists; (split; [reflexivity|]); done.
Qed.

Lemma X26_journey_to_vertex_zero_stops_short_witness :
  exists r',
    @robot_ticks Example.libs 2 1 Example.vertex_positions ∅ Example.R2_to_0
    = Ok r'
    /\ Robot.state r' = COMPLETED
    /\ Robot.current_vertex r' = Some 2
    /\ Robot.destination r' = Some 0.
Proof.
  destruct (@X26_journey_to_vertex_zero_stops_short Example.libs 1
              Example.vertex_positions ∅ Example.R2_to_0 2 2 (0, 0)%Q)
    as (r' & Hrun & Hs & Hc & _ & Hd).
  - reflexivity.
  - reflexivity.
  - reflexivity.
  - reflexivity.
  - intros holder Hh. rewrite lookup_empty in Hh. discriminate Hh.
  - vm_compute. reflexivity.
  - vm_compute. reflexivity.
  - exists r'. repeat split; assumption.
Defined.

(** ** Spawning robots from the GUI *)

Lemma PyDict_length_set {V : Type} (d : list (string * V)) k v :
  length (PyDict.set d k v)
  = if PyDict.has d k then length d else S (length d).
Proof.
  unfold PyDict.has. induction d as [|[k0 v0] d IH]; simpl; [done|].
  destruct (String.eqb k0 k); simpl; [done|].
  rewrite IH. by destruct (PyDict.get d k).
Qed.

(** X27.  Spawning names the new robot after the number of robots,
    ["R" + str(len + 1)].  If a robot of that name is registered (as
    happens once a robot other than the last has been removed), the spawn
    does not add a robot: the fresh robot takes the place of the
    registered one, whose position, task and state are lost, and the
    fleet keeps its size.  Otherwise the fleet grows by one. *)
Theorem X27_spawn_reuses_names `{ExternalLibs} (nav_graph : NavGraph.t)
    (fm : FleetManager.t) (vertex_id : Z) (now : Q) (vertex_pos : Pos) :
  NavGraph.get_vertex_position nav_graph vertex_id = Ok vertex_pos ->
  exists fm',
    FleetGUI._spawn_or_assign_task nav_graph fm None vertex_id now = Ok fm'
    /\ PyDict.get (FleetManager.robots fm') (FleetGUI.robot_name fm)
       = Some (Robot.init (FleetGUI.robot_name fm) vertex_pos (Some vertex_id))
    /\ (PyDict.has (FleetManager.robots fm) (FleetGUI.robot_name fm) = true ->
        length (FleetManager.robots fm') = length (FleetManager.robots fm)
        /\ PyDict.keys (FleetManager.robots fm')
           = PyDict.keys (FleetManager.robots fm))
    /\ (PyDict.has (FleetManager.robots fm) (FleetGUI.robot_name fm) = false ->
        length (FleetManager.robots fm')
        = S (length (FleetManager.robots fm))).
Proof.
  intros Hpos. unfold FleetGUI._spawn_or_assign_task. simpl. rewrite Hpos.
  simpl. eexists. split; [reflexivity|]. simpl.
  split; [apply PyDict_get_set_eq|].
  rewrite PyDict_length_set. split; intros Hhas; rewrite Hhas; [|done].
  split; [done|]. by apply PyDict_keys_set_present.
Qed.

Lemma X27_spawn_reuses_names_witness :
  PyDict.keys (FleetManager.robots Scenario.two_spawned_one_removed) = ["R2"]
  /\ exists fm',
       @FleetGUI._spawn_or_assign_task Example.libs Example.graph
         Scenario.two_spawned_one_removed None 2 0 = Ok fm'
       /\ length (FleetManager.robots fm') = 1%nat.
Proof.
  split; [vm_compute; reflexivity|].
  destruct (@X27_spawn_reuses_names Example.libs Example.graph
              Scenario.two_spawned_one_removed 2 0 (0.12, 0)%Q)
    as (fm' & Hspawn & _ & Hsame & _).
  - vm_compute. reflexivity.
  - exists fm'. split; [exact Hspawn|].
    destruct Hsame as [Hlen _]; [vm_compute; reflexivity|].
    rewrite Hlen. vm_compute. reflexivity.
Defined.

(** ** helpers: distance *)

(** X28.  [calculate_distance] is symmetric in its two points, whatever
    the square root function is. *)
Theorem X28_calculate_distance_symmetric `{PyMath} (point1 point2 : Pos) :
  Helpers.calculate_distance point1 point2
  = Helpers.calculate_distance point2 point1.
Proof.
  unfold Helpers.calculate_distance. f_equal.
  destruct point1 as [[xn xd] [yn yd]], point2 as [[un ud] [vn vd]].
  unfold Qminus, Qplus, Qopp, Qmult. cbn [fst snd Qnum Qden].
  f_equal.
  - rewrite !Pos2Z.inj_mul. ring.
  - rewrite (Pos.mul_comm xd ud), (Pos.mul_comm yd vd). reflexivity.
Qed.

(** ** Occupancy table: vertex entries *)

Lemma register_vertex_backed tm robot_id cv nv :
  vertex_backed_by_lane tm ->
  vertex_backed_by_lane
    (TrafficManager.register_lane_usage tm robot_id cv nv).1.
Proof.
  intros Hinv.
  destruct (register_result tm robot_id cv nv) as [[-> _]|[-> _]];
    [exact Hinv|].
  unfold vertex_backed_by_lane, holds_vertex, holds_lane in *. simpl.
  intros v agent Hv. destruct (decide (v = cv)) as [->|Hne].
  - rewrite lookup_insert_eq in Hv. simplify_eq.
    exists nv. apply lookup_insert_eq.
  - rewrite lookup_insert_ne in Hv by done.
    destruct (Hinv _ _ Hv) as [w Hw]. exists w.
    rewrite lookup_insert_ne; [done|congruence].
Qed.

Lemma release_vertex_backed tm robot_id cv nv :
  vertex_backed_by_lane tm ->
  vertex_backed_by_lane (TrafficManager.release_lane tm robot_id cv nv).1.
Proof.
  intros Hinv. unfold TrafficManager.release_lane.
  destruct (TrafficManager.lane_occupancy tm !! (cv, nv)) as [h|] eqn:El;
    [|exact Hinv].
  destruct (String.eqb_spec h robot_id) as [->|]; [|exact Hinv].
  unfold vertex_backed_by_lane, holds_vertex, holds_lane in *. simpl.
  intros v agent Hv.
  assert (TrafficManager.vertex_occupancy tm !! v = Some agent
          /\ (v = cv -> agent <> robot_id)) as [Hv0 Hag].
  { destruct (TrafficManager.vertex_occupancy tm !! cv) as [h|] eqn:Ev.
    - destruct (String.eqb_spec h robot_id) as [->|Hh].
      + destruct (decide (v = cv)) as [->|Hne].
        * by rewrite lookup_delete_eq in Hv.
        * rewrite lookup_delete_ne in Hv by done. done.
      + split; [done|]. intros ->. congruence.
    - split; [done|]. intros ->. congruence. }
  destruct (Hinv _ _ Hv0) as [w Hw]. exists w.
  rewrite lookup_delete_ne; [done|].
  intros [= <- <-]. specialize (Hag eq_refl). congruence.
Qed.

Lemma step_vertex_backed `{ExternalLibs} (s s' : System.t) (op : System.Op) :
  vertex_backed_by_lane (System.traffic s) ->
  System.step s op = Ok s' ->
  vertex_backed_by_lane (System.traffic s').
Proof.
  intros Hinv Hstep. destruct op; simpl in Hstep.
  - by simplify_eq.
  - by simplify_eq.
  - apply bind_Ok in Hstep as ([fm b] & _ & Hstep). by simplify_eq.
  - by simplify_eq.
  - apply bind_Ok in Hstep as ([[fm tm] ups] & Hu & Hstep). simplify_eq.
    simpl. unfold FleetManager.update_robots in Hu.
    apply bind_Ok in Hu as ([[items tm1] ups1] & Hl & Hu). simplify_eq.
    eapply (update_loop_traffic vertex_backed_by_lane); [|exact Hinv|exact Hl].
    intros. by apply register_vertex_backed.
  - simplify_eq. simpl. by apply register_vertex_backed.
  - simplify_eq. simpl. by apply release_vertex_backed.
  - simplify_eq. simpl. intros v agent Hv.
    unfold holds_vertex in Hv. simpl in Hv. by rewrite lookup_empty in Hv.
Qed.

Lemma run_vertex_backed `{ExternalLibs} (ops : list System.Op) :
  forall s s' : System.t,
    vertex_backed_by_lane (System.traffic s) ->
    System.run s ops = Ok s' ->
    vertex_backed_by_lane (System.traffic s').
Proof.
  induction ops as [|op ops IH]; simpl; intros s s' Hinv Hrun.
  - by simplify_eq.
  - apply bind_Ok in Hrun as (s1 & Hstep & Hrun).
    eapply IH; [|exact Hrun]. eapply step_vertex_backed; eauto.
Qed.

(** X29.  In every state the operations reach from a fresh pair of
    managers, every vertex entry belongs to an agent that also holds a
    lane leaving that vertex: a registration writes both entries, a
    release that removes an agent's lane removes its entry for the start
    vertex, and the tick loop only registers. *)
Theorem X29_vertex_entries_backed_by_lane `{ExternalLibs}
    (nav_graph : NavGraph.t) (s : System.t) :
  System.reachable nav_graph s ->
  vertex_backed_by_lane (System.traffic s).
Proof.
  intros [ops Hrun].
  eapply run_vertex_backed; [|exact Hrun].
  intros v agent Hv. unfold holds_vertex in Hv. simpl in Hv.
  by rewrite lookup_empty in Hv.
Qed.

Lemma X29_vertex_entries_backed_by_lane_witness :
  holds_vertex
    (System.traffic (Scenario.after (Scenario.to_charger))) "R1" 0
  /\ exists w,
       holds_lane
         (System.traffic (Scenario.after (Scenario.to_charger))) "R1" (0, w).
Proof.
  assert (Hv : holds_vertex
    (System.traffic (Scenario.after (Scenario.to_charger))) "R1" 0)
    by (vm_compute; reflexivity).
  split; [exact Hv|].
  apply (@X29_vertex_entries_backed_by_lane Example.libs Example.graph
           (Scenario.after (Scenario.to_charger)));
    [|exact Hv].
  apply scenario_reachable. vm_compute. reflexivity.
Defined.
